(** * Epilogue: atmosphere presets, layered state managers and session restore

    A shallow embedding of the JavaScript front end of the Epilogue EPUB
    reader (overlay.js, background.js, reader.js, presets.js, main.js, the
    visibility helper of ui.js and, of library.js, the backend calls and the
    keyboard navigation of the grid) together with the properties its
    specification states about it and further properties of the code.

    Conventions of the embedding.
    - A JavaScript field that may be absent is a [Js A]: [Undefined], [Null]
      or a value of the expected kind.  Truthiness, [||], [??] and
      [!== undefined] are written out on that type.
    - A field has the kind of value the application writes there: a colour,
      a path or a mode is a string, an opacity or a size a number, a flag a
      boolean.  A field holding a value of another kind is outside the model.
    - A JavaScript number is [NaN] or a finite value held as an exact
      canonical rational; the rounding of binary64 arithmetic in [/ 100] and
      [* 100] is not modelled.
    - A string is a sequence of 8-bit characters; [toLowerCase] acts on the
      ASCII letters.
    - A method that mutates [this] is a function from the object's fields to
      their new values.  A method that may throw returns a [Res]: the state at
      normal completion, or the state at the point of the throw (JavaScript
      mutations made before a throw stay).
    - Calls into the rendering engine and the DOM are recorded in a log.
    - An assignment to a style property that the CSS parser rejects leaves
      the property as it was.
    - The event loop is a sequence of turns, each at a time in
      milliseconds; a timer callback runs in a turn of its own, never
      before its deadline and as late after it as the browser likes. *)

From Stdlib Require Import String Ascii List Bool ZArith QArith Qround Qcanon Lia.
Import ListNotations.

Open Scope string_scope.

(** ** JavaScript values *)

Inductive Js (A : Type) : Type :=
| Undefined
| Null
| Val (a : A).

Arguments Undefined {A}.
Arguments Null {A}.
Arguments Val {A} a.

Inductive JsNum : Type :=
| NaN
| Num (q : Qc).

Definition num (z : Z) : JsNum := Num (Q2Qc (inject_Z z)).
Definition ratio (n : Z) (d : positive) : JsNum := Num (Q2Qc (n # d)).

Class Truthy (A : Type) := truthy : A -> bool.

#[global] Instance truthy_string : Truthy string :=
  fun s => negb (String.eqb s "").
#[global] Instance truthy_bool : Truthy bool := fun b => b.
#[global] Instance truthy_num : Truthy JsNum :=
  fun n => match n with NaN => false | Num q => negb (Qeq_bool q 0) end.

(** [if (v)] *)
Definition is_truthy {A} `{Truthy A} (v : Js A) : bool :=
  match v with Val a => truthy a | _ => false end.

(** [v !== undefined] *)
Definition is_defined {A} (v : Js A) : bool :=
  match v with Undefined => false | _ => true end.

(** [v || d] *)
Definition js_or {A} `{Truthy A} (v : Js A) (d : A) : A :=
  match v with Val a => if truthy a then a else d | _ => d end.

(** [v ?? d] *)
Definition js_nullish {A} (v : Js A) (d : A) : A :=
  match v with Val a => a | _ => d end.

(** [v || null] *)
Definition js_or_null {A} `{Truthy A} (v : Js A) : Js A :=
  if is_truthy v then v else Null.

(** ToNumber on a numeric field: [undefined] is NaN, [null] is 0. *)
Definition ToNumber (v : Js JsNum) : JsNum :=
  match v with Undefined => NaN | Null => num 0 | Val n => n end.

Definition Math_min (a b : JsNum) : JsNum :=
  match a, b with
  | Num p, Num q => if Qle_bool q p then Num q else Num p
  | _, _ => NaN
  end.

Definition Math_max (a b : JsNum) : JsNum :=
  match a, b with
  | Num p, Num q => if Qle_bool p q then Num q else Num p
  | _, _ => NaN
  end.

(** [Math.round]: the nearest integer, halves rounded up. *)
Definition Math_round (a : JsNum) : JsNum :=
  match a with
  | NaN => NaN
  | Num q => num (Qfloor (q + (1 # 2)))
  end.

Definition js_mul (a b : JsNum) : JsNum :=
  match a, b with Num p, Num q => Num (p * q)%Qc | _, _ => NaN end.

(** Division by a non-zero constant (the code only divides by 100). *)
Definition js_div (a b : JsNum) : JsNum :=
  match a, b with Num p, Num q => Num (p / q)%Qc | _, _ => NaN end.

Definition js_sub (a b : JsNum) : JsNum :=
  match a, b with Num p, Num q => Num (p - q)%Qc | _, _ => NaN end.

Definition js_add (a b : JsNum) : JsNum :=
  match a, b with Num p, Num q => Num (p + q)%Qc | _, _ => NaN end.

(** [Math.max(lo, Math.min(hi, x))], the clamp every numeric setter uses. *)
Definition clamp (lo hi : Z) (x : JsNum) : JsNum :=
  Math_max (num lo) (Math_min (num hi) x).

(** ** Outcome of a method that may throw *)

Inductive Res (S : Type) : Type :=
| Ok (s : S)
| Throw (s : S).

Arguments Ok {S} s.
Arguments Throw {S} s.

Definition state_of {S} (r : Res S) : S :=
  match r with Ok s | Throw s => s end.

Definition completed {S} (r : Res S) : bool :=
  match r with Ok _ => true | Throw _ => false end.

Definition bind {S} (r : Res S) (k : S -> Res S) : Res S :=
  match r with Ok s => k s | Throw s => Throw s end.

Declare Scope res_scope.
Delimit Scope res_scope with res.
Notation "r >>= k" := (bind r k) (at level 50, left associativity) : res_scope.

(** [if (c) stmt] inside a sequence of statements. *)
Definition when {S} (c : bool) (k : S -> Res S) : S -> Res S :=
  fun s => if c then k s else Ok s.

(** ** String helpers: [split('.').pop()], [toLowerCase], [replace], [parseInt] *)

Module Str.

(** The piece after the last [sep]; the whole string when there is none:
    [s.split(sep).pop()]. *)
Fixpoint split_pop_aux (sep : ascii) (s acc : string) : string :=
  match s with
  | EmptyString => acc
  | String c r =>
      if Ascii.eqb c sep then split_pop_aux sep r EmptyString
      else split_pop_aux sep r (acc ++ String c EmptyString)
  end.

Definition split_pop (sep : ascii) (s : string) : string :=
  split_pop_aux sep s EmptyString.

Definition lower_ascii (c : ascii) : ascii :=
  let n := nat_of_ascii c in
  if (65 <=? n)%nat && (n <=? 90)%nat then ascii_of_nat (n + 32) else c.

Fixpoint toLowerCase (s : string) : string :=
  match s with
  | EmptyString => EmptyString
  | String c r => String (lower_ascii c) (toLowerCase r)
  end.

Definition includes (l : list string) (s : string) : bool :=
  existsb (String.eqb s) l.

(** [s.replace(c, '')]: the first occurrence only. *)
Fixpoint remove_first (c : ascii) (s : string) : string :=
  match s with
  | EmptyString => EmptyString
  | String a r => if Ascii.eqb a c then r else String a (remove_first c r)
  end.

(** [s.substring(i, j)] for [i <= j]. *)
Definition substring (i j : nat) (s : string) : string :=
  String.substring i (j - i) s.

Definition startsWith (p s : string) : bool := String.prefix p s.

Definition is_space (c : ascii) : bool :=
  let n := nat_of_ascii c in
  ((9 <=? n)%nat && (n <=? 13)%nat) || (n =? 32)%nat.

Fixpoint skip_spaces (s : string) : string :=
  match s with
  | String c r => if is_space c then skip_spaces r else s
  | EmptyString => s
  end.

Definition hex_digit (c : ascii) : option Z :=
  let n := nat_of_ascii c in
  if (48 <=? n)%nat && (n <=? 57)%nat then Some (Z.of_nat (n - 48))
  else if (97 <=? n)%nat && (n <=? 102)%nat then Some (Z.of_nat (n - 87))
  else if (65 <=? n)%nat && (n <=? 70)%nat then Some (Z.of_nat (n - 55))
  else None.

(** Value of the longest prefix of hexadecimal digits; [acc] is [None]
    until a digit has been read. *)
Fixpoint hex_prefix (s : string) (acc : option Z) : option Z :=
  match s with
  | EmptyString => acc
  | String c r =>
      match hex_digit c with
      | Some d =>
          hex_prefix r (Some (16 * match acc with Some a => a | None => 0 end + d)%Z)
      | None => acc
      end
  end.

(** [parseInt(s, 16)] *)
Definition parseInt16 (s : string) : JsNum :=
  let s := skip_spaces s in
  let '(neg, s) :=
    match s with
    | String "-" r => (true, r)
    | String "+" r => (false, r)
    | _ => (false, s)
    end in
  let s :=
    match s with
    | String "0" (String x r) =>
        if Ascii.eqb x "x" || Ascii.eqb x "X" then r else s
    | _ => s
    end in
  match hex_prefix s None with
  | None => NaN
  | Some z => num (if neg then - z else z)
  end.

End Str.

(** A CSS colour as the managers write it to an element's style. *)
Inductive CssBackground : Type :=
| CssUnset
| CssTransparent
| CssRgba (r g b : JsNum) (a : JsNum).

(** The three channels both [hexToRgba] and [updateContainerStyle] read off
    a hex colour. *)
Definition hex_channels (hex : string) : JsNum * JsNum * JsNum :=
  let hex := Str.remove_first "#" hex in
  (Str.parseInt16 (Str.substring 0 2 hex),
   Str.parseInt16 (Str.substring 2 4 hex),
   Str.parseInt16 (Str.substring 4 6 hex)).

(** Whether the CSS parser accepts the value.  [NaN] is no CSS number: an
    [rgba()] with a [NaN] among its arguments does not parse. *)
Definition css_valid (c : CssBackground) : bool :=
  match c with
  | CssRgba (Num _) (Num _) (Num _) (Num _) => true
  | CssRgba _ _ _ _ => false
  | CssUnset | CssTransparent => true
  end.

(** [element.style.background = value]: a value that does not parse is
    dropped and the declaration stays as it was. *)
Definition style_assign (value current : CssBackground) : CssBackground :=
  if css_valid value then value else current.

(** ** overlay.js: OverlayManager *)

Module OverlayManager.

Record t : Type := mk {
  background : CssBackground;      (* this.overlay.style.background *)
  currentColor : Js string;
  currentOpacity : JsNum
}.

Definition constructor : t :=
  {| background := CssUnset; currentColor := Null; currentOpacity := num 0 |}.

Definition clearTint (o : t) : t :=
  {| background := CssTransparent; currentColor := Null; currentOpacity := num 0 |}.

(** [hex.replace] exists only on a string: anything else is a TypeError. *)
Definition hexToRgba (hex : Js string) (opacity : JsNum) : option CssBackground :=
  match hex with
  | Val h => let '(r, g, b) := hex_channels h in Some (CssRgba r g b opacity)
  | _ => None
  end.

Definition setTint (color : Js string) (opacity : Js JsNum) (o : t) : Res t :=
  if negb (is_truthy color) then Ok (clearTint o)
  else
    let opacity := Math_max (num 0) (Math_min (num 1) (ToNumber opacity)) in
    match hexToRgba color opacity with
    | None => Throw o
    | Some rgba =>
        Ok {| background := style_assign rgba (background o);
              currentColor := color; currentOpacity := opacity |}
    end.

Definition getCurrentTint (o : t) : Js string * JsNum :=
  (currentColor o, currentOpacity o).

(** States the manager can be in: the constructor's, then any sequence of
    [setTint] and [clearTint]. *)
Inductive reachable : t -> Prop :=
| reach_new : reachable constructor
| reach_clear o : reachable o -> reachable (clearTint o)
| reach_set o color opacity :
    reachable o -> reachable (state_of (setTint color opacity o)).

End OverlayManager.

(** ** The platform the scripts run on

    Every script probes the Tauri API with a dynamic import; [isTauri] is
    whether [@tauri-apps/api/core] loaded.  main.js also needs the window API
    before it sets its own flag.  [convertFileSrc] is Tauri's. *)

Record Platform : Type := {
  isTauri : bool;
  hasWindowApi : bool;
  convertFileSrc : string -> string
}.

Definition main_isTauri (pf : Platform) : bool := isTauri pf && hasWindowApi pf.

(** ** background.js: BackgroundManager *)

Module BackgroundManager.

Inductive MediaType : Type := image | video.

Definition IMAGE_EXTENSIONS : list string :=
  ["jpg"; "jpeg"; "png"; "gif"; "webp"; "bmp"].
Definition VIDEO_EXTENSIONS : list string :=
  ["mp4"; "webm"; "mov"; "avi"; "mkv"].

Record t : Type := mk {
  (* the two background elements *)
  bgImage_src : string;
  bgImage_active : bool;
  bgVideo_src : string;
  bgVideo_muted : bool;
  bgVideo_active : bool;
  bgVideo_playing : bool;          (* play() requested and not paused since *)
  currentMedia : Js string;
  currentType : option MediaType;
  muted : bool;
  (* background music *)
  bgAudio_src : string;
  bgAudio_muted : bool;
  bgAudio_volume : JsNum;
  bgAudio_loop : bool;
  bgAudio_playing : bool;
  musicPath : Js string;
  musicMuted : bool
}.

Definition constructor : t :=
  {| bgImage_src := ""; bgImage_active := false;
     bgVideo_src := ""; bgVideo_muted := false; bgVideo_active := false;
     bgVideo_playing := false;
     currentMedia := Null; currentType := None; muted := true;
     bgAudio_src := ""; bgAudio_muted := false; bgAudio_volume := ratio 1 2;
     bgAudio_loop := true; bgAudio_playing := false;
     musicPath := Null; musicMuted := true |}.

Definition _getMediaType (filePath : string) : option MediaType :=
  let ext := Str.toLowerCase (Str.split_pop "." filePath) in
  if Str.includes IMAGE_EXTENSIONS ext then Some image
  else if Str.includes VIDEO_EXTENSIONS ext then Some video
  else None.

Definition _toAssetUrl (pf : Platform) (filePath : string) : string :=
  if isTauri pf then convertFileSrc pf filePath else filePath.

Definition _hideAll (b : t) : t :=
  {| bgImage_src := ""; bgImage_active := false;
     bgVideo_src := ""; bgVideo_muted := bgVideo_muted b; bgVideo_active := false;
     bgVideo_playing := false;
     currentMedia := currentMedia b; currentType := currentType b; muted := muted b;
     bgAudio_src := bgAudio_src b; bgAudio_muted := bgAudio_muted b;
     bgAudio_volume := bgAudio_volume b; bgAudio_loop := bgAudio_loop b;
     bgAudio_playing := bgAudio_playing b;
     musicPath := musicPath b; musicMuted := musicMuted b |}.

Definition clearMedia (b : t) : t :=
  let b := _hideAll b in
  {| bgImage_src := bgImage_src b; bgImage_active := bgImage_active b;
     bgVideo_src := bgVideo_src b; bgVideo_muted := bgVideo_muted b;
     bgVideo_active := bgVideo_active b; bgVideo_playing := bgVideo_playing b;
     currentMedia := Null; currentType := None; muted := muted b;
     bgAudio_src := bgAudio_src b; bgAudio_muted := bgAudio_muted b;
     bgAudio_volume := bgAudio_volume b; bgAudio_loop := bgAudio_loop b;
     bgAudio_playing := bgAudio_playing b;
     musicPath := musicPath b; musicMuted := musicMuted b |}.

(** The part of [setMedia] after the extension has been accepted. *)
Definition showMedia (pf : Platform) (filePath : string) (type : MediaType) (b : t) : t :=
  let b := _hideAll b in
  let url := _toAssetUrl pf filePath in
  match type with
  | image =>
      {| bgImage_src := url; bgImage_active := true;
         bgVideo_src := bgVideo_src b; bgVideo_muted := bgVideo_muted b;
         bgVideo_active := bgVideo_active b; bgVideo_playing := bgVideo_playing b;
         currentMedia := Val filePath; currentType := Some image; muted := muted b;
         bgAudio_src := bgAudio_src b; bgAudio_muted := bgAudio_muted b;
         bgAudio_volume := bgAudio_volume b; bgAudio_loop := bgAudio_loop b;
         bgAudio_playing := bgAudio_playing b;
         musicPath := musicPath b; musicMuted := musicMuted b |}
  | video =>
      {| bgImage_src := bgImage_src b; bgImage_active := bgImage_active b;
         bgVideo_src := url; bgVideo_muted := muted b;
         bgVideo_active := true; bgVideo_playing := true;
         currentMedia := Val filePath; currentType := Some video; muted := muted b;
         bgAudio_src := bgAudio_src b; bgAudio_muted := bgAudio_muted b;
         bgAudio_volume := bgAudio_volume b; bgAudio_loop := bgAudio_loop b;
         bgAudio_playing := bgAudio_playing b;
         musicPath := musicPath b; musicMuted := musicMuted b |}
  end.

Definition setMedia (pf : Platform) (filePath : Js string) (b : t) : Res t :=
  if negb (is_truthy filePath) then Ok (clearMedia b)
  else
    match filePath with
    | Val p =>
        match _getMediaType p with
        | None => Ok b                       (* console.warn, return *)
        | Some type => Ok (showMedia pf p type b)
        end
    | _ => Throw b                           (* filePath.split: TypeError *)
    end.

Definition setMuted (m : bool) (b : t) : t :=
  {| bgImage_src := bgImage_src b; bgImage_active := bgImage_active b;
     bgVideo_src := bgVideo_src b; bgVideo_muted := m;
     bgVideo_active := bgVideo_active b; bgVideo_playing := bgVideo_playing b;
     currentMedia := currentMedia b; currentType := currentType b; muted := m;
     bgAudio_src := bgAudio_src b; bgAudio_muted := bgAudio_muted b;
     bgAudio_volume := bgAudio_volume b; bgAudio_loop := bgAudio_loop b;
     bgAudio_playing := bgAudio_playing b;
     musicPath := musicPath b; musicMuted := musicMuted b |}.

Definition toggleMute (b : t) : bool * t :=
  let b := setMuted (negb (muted b)) b in (muted b, b).

Definition isMuted (b : t) : bool := muted b.

Definition getCurrentMedia (b : t) : Js string * option MediaType :=
  (currentMedia b, currentType b).

(** Writes to the audio element only. *)
Definition with_audio (src : string) (m : bool) (vol : JsNum) (playing : bool)
    (path : Js string) (mm : bool) (b : t) : t :=
  {| bgImage_src := bgImage_src b; bgImage_active := bgImage_active b;
     bgVideo_src := bgVideo_src b; bgVideo_muted := bgVideo_muted b;
     bgVideo_active := bgVideo_active b; bgVideo_playing := bgVideo_playing b;
     currentMedia := currentMedia b; currentType := currentType b; muted := muted b;
     bgAudio_src := src; bgAudio_muted := m; bgAudio_volume := vol;
     bgAudio_loop := bgAudio_loop b; bgAudio_playing := playing;
     musicPath := path; musicMuted := mm |}.

Definition clearMusic (b : t) : t :=
  with_audio "" (bgAudio_muted b) (bgAudio_volume b) false Null (musicMuted b) b.

Definition setMusic (pf : Platform) (filePath : Js string) (b : t) : t :=
  match filePath with
  | Val p =>
      if truthy p then
        with_audio (_toAssetUrl pf p) (musicMuted b) (bgAudio_volume b)
          (if musicMuted b then bgAudio_playing b else true)
          filePath (musicMuted b) b
      else clearMusic b
  | _ => clearMusic b
  end.

(** The audio element rejects a volume that is not a finite number. *)
Definition setMusicVolume (volume : JsNum) (b : t) : Res t :=
  match Math_max (num 0) (Math_min (num 1) (js_div volume (num 100))) with
  | NaN => Throw b
  | v => Ok (with_audio (bgAudio_src b) (bgAudio_muted b) v (bgAudio_playing b)
               (musicPath b) (musicMuted b) b)
  end.

Definition setMusicMuted (m : bool) (b : t) : t :=
  with_audio (bgAudio_src b) m (bgAudio_volume b)
    (if negb m && is_truthy (musicPath b) then true else bgAudio_playing b)
    (musicPath b) m b.

Definition toggleMusicMute (b : t) : bool * t :=
  let b := setMusicMuted (negb (musicMuted b)) b in (musicMuted b, b).

Record MusicInfo : Type := {
  music_path : Js string;
  music_volume : JsNum;
  music_muted : bool
}.

Definition getCurrentMusic (b : t) : MusicInfo :=
  {| music_path := musicPath b;
     music_volume := Math_round (js_mul (bgAudio_volume b) (num 100));
     music_muted := musicMuted b |}.

(** States the manager can be in: the constructor's, then any sequence of
    calls of its methods. *)
Inductive reachable (pf : Platform) : t -> Prop :=
| reach_new : reachable pf constructor
| reach_setMedia b filePath :
    reachable pf b -> reachable pf (state_of (setMedia pf filePath b))
| reach_clearMedia b : reachable pf b -> reachable pf (clearMedia b)
| reach_setMuted b m : reachable pf b -> reachable pf (setMuted m b)
| reach_setMusic b filePath : reachable pf b -> reachable pf (setMusic pf filePath b)
| reach_clearMusic b : reachable pf b -> reachable pf (clearMusic b)
| reach_setMusicVolume b volume :
    reachable pf b -> reachable pf (state_of (setMusicVolume volume b))
| reach_setMusicMuted b m : reachable pf b -> reachable pf (setMusicMuted m b).

End BackgroundManager.

(** ** reader.js: EpubReader *)

Module EpubReader.

(** What the reader needs of an epub.js book: the locations table, when it
    has been generated, maps a CFI to a fraction of the book. *)
Record Book : Type := {
  percentageFromCfi : option (string -> JsNum)
}.

(** What the reader needs of an epub.js rendition:
    [currentLocation()?.start?.cfi]. *)
Record Rendition : Type := {
  currentLocation : Js string
}.

(** Calls into epub.js and writes to the DOM, in the order they are made. *)
Inductive Call : Type :=
| RenditionDestroy
| BookDestroy
| BookRenderTo (flow : string) (manager : option string)
| RenditionDisplay (target : Js string)
| RenditionNext
| RenditionPrev
| RenditionOn (event : string)
| ThemesOverride (name : string) (value : Js string)
| ThemesOverrideInherited (name : string) (member : string)
| ThemesFontSize (px : JsNum)
| ThemesDefault (scrolled : bool) (track thumb : Js string)
| ContainerStyle (bg : CssBackground) (glass : bool) (blur : JsNum)
| ContainerMode (scrolled : bool)
| ContainerEmpty (empty : bool)
| ContainerModeCleared
| SetCssVar (name : string) (value : Js string).

Record t : Type := mk {
  book : option Book;
  rendition : option Rendition;
  opacity : JsNum;
  backgroundColor : Js string;
  textColor : Js string;
  glassmorphism : Js bool;
  blur : JsNum;
  scrollbarTrack : Js string;
  scrollbarThumb : Js string;
  fontFamily : Js string;
  fontSize : JsNum;
  flow : Js string;
  log : list Call
}.

Definition with_book (v : option Book) (r : t) : t :=
  mk v (rendition r) (opacity r) (backgroundColor r) (textColor r) (glassmorphism r) (blur r) (scrollbarTrack r) (scrollbarThumb r) (fontFamily r) (fontSize r) (flow r) (log r).

Definition with_rendition (v : option Rendition) (r : t) : t :=
  mk (book r) v (opacity r) (backgroundColor r) (textColor r) (glassmorphism r) (blur r) (scrollbarTrack r) (scrollbarThumb r) (fontFamily r) (fontSize r) (flow r) (log r).

Definition with_opacity (v : JsNum) (r : t) : t :=
  mk (book r) (rendition r) v (backgroundColor r) (textColor r) (glassmorphism r) (blur r) (scrollbarTrack r) (scrollbarThumb r) (fontFamily r) (fontSize r) (flow r) (log r).

Definition with_backgroundColor (v : Js string) (r : t) : t :=
  mk (book r) (rendition r) (opacity r) v (textColor r) (glassmorphism r) (blur r) (scrollbarTrack r) (scrollbarThumb r) (fontFamily r) (fontSize r) (flow r) (log r).

Definition with_textColor (v : Js string) (r : t) : t :=
  mk (book r) (rendition r) (opacity r) (backgroundColor r) v (glassmorphism r) (blur r) (scrollbarTrack r) (scrollbarThumb r) (fontFamily r) (fontSize r) (flow r) (log r).

Definition with_glassmorphism (v : Js bool) (r : t) : t :=
  mk (book r) (rendition r) (opacity r) (backgroundColor r) (textColor r) v (blur r) (scrollbarTrack r) (scrollbarThumb r) (fontFamily r) (fontSize r) (flow r) (log r).

Definition with_blur (v : JsNum) (r : t) : t :=
  mk (book r) (rendition r) (opacity r) (backgroundColor r) (textColor r) (glassmorphism r) v (scrollbarTrack r) (scrollbarThumb r) (fontFamily r) (fontSize r) (flow r) (log r).

Definition with_scrollbarTrack (v : Js string) (r : t) : t :=
  mk (book r) (rendition r) (opacity r) (backgroundColor r) (textColor r) (glassmorphism r) (blur r) v (scrollbarThumb r) (fontFamily r) (fontSize r) (flow r) (log r).

Definition with_scrollbarThumb (v : Js string) (r : t) : t :=
  mk (book r) (rendition r) (opacity r) (backgroundColor r) (textColor r) (glassmorphism r) (blur r) (scrollbarTrack r) v (fontFamily r) (fontSize r) (flow r) (log r).

Definition with_fontFamily (v : Js string) (r : t) : t :=
  mk (book r) (rendition r) (opacity r) (backgroundColor r) (textColor r) (glassmorphism r) (blur r) (scrollbarTrack r) (scrollbarThumb r) v (fontSize r) (flow r) (log r).

Definition with_fontSize (v : JsNum) (r : t) : t :=
  mk (book r) (rendition r) (opacity r) (backgroundColor r) (textColor r) (glassmorphism r) (blur r) (scrollbarTrack r) (scrollbarThumb r) (fontFamily r) v (flow r) (log r).

Definition with_flow (v : Js string) (r : t) : t :=
  mk (book r) (rendition r) (opacity r) (backgroundColor r) (textColor r) (glassmorphism r) (blur r) (scrollbarTrack r) (scrollbarThumb r) (fontFamily r) (fontSize r) v (log r).

Definition with_log (v : list Call) (r : t) : t :=
  mk (book r) (rendition r) (opacity r) (backgroundColor r) (textColor r) (glassmorphism r) (blur r) (scrollbarTrack r) (scrollbarThumb r) (fontFamily r) (fontSize r) (flow r) v.

Definition emit (c : Call) (r : t) : t := with_log (log r ++ [c]) r.

Definition constructor : t :=
  {| book := None; rendition := None;
     opacity := ratio 95 100;
     backgroundColor := Val "#FFFFFF";
     textColor := Val "#1a1a1a";
     glassmorphism := Val false;
     blur := num 12;
     scrollbarTrack := Val "transparent";
     scrollbarThumb := Val "rgba(255, 255, 255, 0.25)";
     fontFamily := Val "serif";
     fontSize := num 18;
     flow := Val "paginated";
     log := [] |}.

Definition is_scrolled (r : t) : bool :=
  match flow r with Val f => String.eqb f "scrolled" | _ => false end.

(** [this.backgroundColor.replace] needs a string. *)
Definition updateContainerStyle (r : t) : Res t :=
  match backgroundColor r with
  | Val hex =>
      let '(cr, cg, cb) := hex_channels hex in
      Ok (emit (ContainerStyle (CssRgba cr cg cb (opacity r))
                  (is_truthy (glassmorphism r)) (blur r)) r)
  | _ => Throw r
  end.

Definition setOpacity (o : Js JsNum) (r : t) : Res t :=
  updateContainerStyle
    (with_opacity (Math_max (num 0) (Math_min (num 1) (ToNumber o))) r).

Definition setBackgroundColor (color : Js string) (r : t) : Res t :=
  updateContainerStyle (with_backgroundColor color r).

Definition setTextColor (color : Js string) (r : t) : t :=
  let r := with_textColor color r in
  match rendition r with
  | Some _ => emit (ThemesOverride "color" color) r
  | None => r
  end.

Definition setGlassmorphism (enabled : Js bool) (r : t) : Res t :=
  updateContainerStyle (with_glassmorphism enabled r).

Definition setBlur (px : Js JsNum) (r : t) : Res t :=
  updateContainerStyle
    (with_blur (Math_max (num 0) (Math_min (num 40) (ToNumber px))) r).

Definition _applyIframeStyles (r : t) : t :=
  match rendition r with
  | None => r
  | Some _ =>
      emit (ThemesDefault (is_scrolled r) (scrollbarTrack r) (scrollbarThumb r)) r
  end.

(** [hoverThumb.startsWith] needs a string: a thumb colour of [null]
    throws after the first two custom properties have been written. *)
Definition setScrollbarColors (track thumb : Js string) (r : t) : Res t :=
  let r := if is_defined track then with_scrollbarTrack track r else r in
  let r := if is_defined thumb then with_scrollbarThumb thumb r else r in
  let r := emit (SetCssVar "--scrollbar-track" (scrollbarTrack r)) r in
  let r := emit (SetCssVar "--scrollbar-thumb" (scrollbarThumb r)) r in
  match scrollbarThumb r with
  | Val hoverThumb =>
      let hoverThumb :=
        if Str.startsWith "#" hoverThumb && (String.length hoverThumb =? 7)%nat
        then hoverThumb ++ "dd" else hoverThumb in
      let r := emit (SetCssVar "--active-scrollbar-thumb" (Val hoverThumb)) r in
      Ok (_applyIframeStyles r)
  | _ => Throw r
  end.

(** The names every object literal inherits from [Object.prototype].  What
    they hold is a function or an object, hence truthy. *)
Definition Object_prototype : list string :=
  ["constructor"; "hasOwnProperty"; "isPrototypeOf"; "propertyIsEnumerable";
   "toLocaleString"; "toString"; "valueOf"; "__proto__";
   "__defineGetter__"; "__defineSetter__"; "__lookupGetter__"; "__lookupSetter__"].

(** What a lookup on an object literal finds. *)
Inductive Member : Type :=
| Own (value : string)           (* a key of the literal *)
| Inherited (name : string)      (* a member of [Object.prototype] *)
| Absent.                        (* [undefined] *)

(** [familyMap[family]]; the key of [undefined] is "undefined", that of
    [null] is "null". *)
Definition familyMap (family : Js string) : Member :=
  match family with
  | Val f =>
      if String.eqb f "serif" then Own "Georgia, 'Times New Roman', serif"
      else if String.eqb f "sans-serif"
      then Own "-apple-system, BlinkMacSystemFont, 'Segoe UI', Roboto, sans-serif"
      else if String.eqb f "monospace" then Own "'Courier New', Consolas, monospace"
      else if Str.includes Object_prototype f then Inherited f
      else Absent
  | _ => Absent
  end.

(** [themes.override('font-family', familyMap[family] || familyMap['serif'])]:
    a font stack is a non-empty string, an inherited member is truthy. *)
Definition font_override (family : Js string) : Call :=
  match familyMap family with
  | Own value => ThemesOverride "font-family" (Val value)
  | Inherited member => ThemesOverrideInherited "font-family" member
  | Absent => ThemesOverride "font-family" (Val "Georgia, 'Times New Roman', serif")
  end.

Definition setFontFamily (family : Js string) (r : t) : t :=
  let r := with_fontFamily family r in
  match rendition r with
  | Some _ => emit (font_override family) r
  | None => r
  end.

Definition setFontSize (size : Js JsNum) (r : t) : t :=
  let r := with_fontSize (Math_max (num 12) (Math_min (num 32) (ToNumber size))) r in
  match rendition r with
  | Some _ => emit (ThemesFontSize (fontSize r)) r
  | None => r
  end.

Definition _getRenderOptions (r : t) : string * option string :=
  if is_scrolled r then ("scrolled-doc", Some "default") else ("paginated", None).

Definition _applyContainerMode (r : t) : t :=
  emit (ContainerMode (is_scrolled r)) r.

(** [setFlow] is an async function: what is modelled is its body up to and
    including the call of [rendition.display]. *)
Definition setFlow (f : Js string) (r : t) : Res t :=
  let r := with_flow f r in
  match book r, rendition r with
  | Some _, Some rend =>
      let location := currentLocation rend in
      let r := emit RenditionDestroy r in
      let '(fl, mgr) := _getRenderOptions r in
      let r := with_rendition (Some {| currentLocation := Undefined |})
                 (emit (BookRenderTo fl mgr) r) in
      let r := _applyIframeStyles r in
      let r := _applyContainerMode r in
      let r := setFontFamily (fontFamily r) r in
      let r := setFontSize (Val (fontSize r)) r in
      let r := setTextColor (textColor r) r in
      match updateContainerStyle r with
      | Ok r =>
          Ok (with_rendition (Some {| currentLocation := location |})
                (emit (RenditionDisplay location) r))
      | Throw r => Throw r
      end
  | _, _ => Ok r
  end.

Definition destroy (r : t) : t :=
  let r := match rendition r with
           | Some _ => with_rendition None (emit RenditionDestroy r)
           | None => r
           end in
  let r := match book r with
           | Some _ => with_book None (emit BookDestroy r)
           | None => r
           end in
  emit ContainerModeCleared (emit (ContainerEmpty true) r).

(** [openBook], given the book epub.js has parsed and the position its
    rendition reports once displayed. *)
Definition openBook (b : Book) (start : Js string) (r : t) : t :=
  let r := destroy r in
  let r := with_book (Some b) r in
  let '(fl, mgr) := _getRenderOptions r in
  let r := with_rendition (Some {| currentLocation := Undefined |})
             (emit (BookRenderTo fl mgr) r) in
  let r := _applyIframeStyles r in
  let r := _applyContainerMode r in
  let r := setTextColor (textColor r) r in
  let r := with_rendition (Some {| currentLocation := start |})
             (emit (RenditionDisplay Undefined) r) in
  emit (ContainerEmpty false) r.

Definition nextPage (r : t) : t :=
  match rendition r with Some _ => emit RenditionNext r | None => r end.

Definition prevPage (r : t) : t :=
  match rendition r with Some _ => emit RenditionPrev r | None => r end.

Definition display (target : Js string) (r : t) : t :=
  match rendition r with Some _ => emit (RenditionDisplay target) r | None => r end.

(** The listeners of a rendition die with it: [calls] is the log from the
    oldest call on, [on] whether the rendition showing so far has a listener
    for [event]. *)
Fixpoint listens_after (event : string) (calls : list Call) (on : bool) : bool :=
  match calls with
  | [] => on
  | BookRenderTo _ _ :: rest => listens_after event rest false
  | RenditionOn e :: rest => listens_after event rest (on || String.eqb e event)
  | _ :: rest => listens_after event rest on
  end.

(** Whether the rendition that is showing has a listener for [event]:
    [rendition.on(event, ...)] was called on it since [book.renderTo]
    created it. *)
Definition listens (event : string) (r : t) : bool :=
  match rendition r with
  | Some _ => listens_after event (log r) false
  | None => false
  end.

(** The calls that tear down, recreate or redisplay the rendering surface. *)
Definition is_surface_work (c : Call) : bool :=
  match c with
  | RenditionDestroy | BookDestroy | BookRenderTo _ _ | RenditionDisplay _ => true
  | _ => false
  end.

End EpubReader.

(** ** Presets and preferences *)

Module Preset.

Record Background : Type := {
  bg_type : Js string;
  bg_path : Js string
}.

Record Overlay : Type := {
  ov_color : Js string;
  ov_opacity : Js JsNum
}.

Record Reader : Type := {
  rd_opacity : Js JsNum;
  rd_backgroundColor : Js string;
  rd_textColor : Js string;
  rd_fontFamily : Js string;
  rd_fontSize : Js JsNum;
  rd_readingMode : Js string;
  rd_glassmorphism : Js bool;
  rd_glassBlur : Js JsNum;
  rd_scrollbarTrack : Js string;
  rd_scrollbarThumb : Js string
}.

(** A preset as JSON carries it; each of the three groups may be missing. *)
Record t : Type := {
  version : string;
  name : string;
  author : string;
  description : string;
  background : option Background;
  overlay : option Overlay;
  reader : option Reader
}.

End Preset.

(** main.js: the [currentPrefs] object. *)
Module Prefs.

Record t : Type := mk {
  fontFamily : Js string;
  fontSize : Js JsNum;
  lastPreset : Js string;
  readingMode : Js string;
  textColor : Js string;
  containerColor : Js string;
  containerOpacity : Js JsNum;
  glassmorphism : Js bool;
  glassBlur : Js JsNum;
  bgMediaPath : Js string;
  bgAudioMuted : Js bool;
  bgMusicPath : Js string;
  bgMusicVolume : Js JsNum;
  bgMusicMuted : Js bool;
  scrollbarTrack : Js string;
  scrollbarThumb : Js string
}.

(** The literal [currentPrefs] starts as. *)
Definition defaults : t :=
  {| fontFamily := Val "serif";
     fontSize := Val (num 18);
     lastPreset := Val "Cozy Reading";
     readingMode := Val "paginated";
     textColor := Val "#1a1a1a";
     containerColor := Val "#FFFFFF";
     containerOpacity := Val (num 95);
     glassmorphism := Val false;
     glassBlur := Val (num 12);
     bgMediaPath := Null;
     bgAudioMuted := Val true;
     bgMusicPath := Null;
     bgMusicVolume := Val (num 50);
     bgMusicMuted := Val true;
     scrollbarTrack := Val "#1a1a1a";
     scrollbarThumb := Val "#4a9eff" |}.

(** [currentPrefs.key = v] for the keys the modelled handlers write. *)
Definition with_readingMode (v : Js string) (p : t) : t :=
  mk (fontFamily p) (fontSize p) (lastPreset p) v (textColor p) (containerColor p) (containerOpacity p) (glassmorphism p) (glassBlur p) (bgMediaPath p) (bgAudioMuted p) (bgMusicPath p) (bgMusicVolume p) (bgMusicMuted p) (scrollbarTrack p) (scrollbarThumb p).

Definition with_fontFamily (v : Js string) (p : t) : t :=
  mk v (fontSize p) (lastPreset p) (readingMode p) (textColor p) (containerColor p) (containerOpacity p) (glassmorphism p) (glassBlur p) (bgMediaPath p) (bgAudioMuted p) (bgMusicPath p) (bgMusicVolume p) (bgMusicMuted p) (scrollbarTrack p) (scrollbarThumb p).

Definition with_fontSize (v : Js JsNum) (p : t) : t :=
  mk (fontFamily p) v (lastPreset p) (readingMode p) (textColor p) (containerColor p) (containerOpacity p) (glassmorphism p) (glassBlur p) (bgMediaPath p) (bgAudioMuted p) (bgMusicPath p) (bgMusicVolume p) (bgMusicMuted p) (scrollbarTrack p) (scrollbarThumb p).

Definition with_bgMediaPath (v : Js string) (p : t) : t :=
  mk (fontFamily p) (fontSize p) (lastPreset p) (readingMode p) (textColor p) (containerColor p) (containerOpacity p) (glassmorphism p) (glassBlur p) v (bgAudioMuted p) (bgMusicPath p) (bgMusicVolume p) (bgMusicMuted p) (scrollbarTrack p) (scrollbarThumb p).

(** A partial preferences object: [None] is a key that is not set. *)
Record Patch : Type := mkPatch {
  set_fontFamily : option (Js string);
  set_fontSize : option (Js JsNum);
  set_readingMode : option (Js string);
  set_textColor : option (Js string);
  set_containerColor : option (Js string);
  set_containerOpacity : option (Js JsNum);
  set_glassmorphism : option (Js bool);
  set_glassBlur : option (Js JsNum);
  set_scrollbarTrack : option (Js string);
  set_scrollbarThumb : option (Js string);
  set_bgMediaPath : option (Js string)
}.

Definition put {A} (o : option A) (old : A) : A :=
  match o with Some v => v | None => old end.

(** [Object.assign(target, src)] *)
Definition assign (target : t) (src : Patch) : t :=
  {| fontFamily := put (set_fontFamily src) (fontFamily target);
     fontSize := put (set_fontSize src) (fontSize target);
     lastPreset := lastPreset target;
     readingMode := put (set_readingMode src) (readingMode target);
     textColor := put (set_textColor src) (textColor target);
     containerColor := put (set_containerColor src) (containerColor target);
     containerOpacity := put (set_containerOpacity src) (containerOpacity target);
     glassmorphism := put (set_glassmorphism src) (glassmorphism target);
     glassBlur := put (set_glassBlur src) (glassBlur target);
     bgMediaPath := put (set_bgMediaPath src) (bgMediaPath target);
     bgAudioMuted := bgAudioMuted target;
     bgMusicPath := bgMusicPath target;
     bgMusicVolume := bgMusicVolume target;
     bgMusicMuted := bgMusicMuted target;
     scrollbarTrack := put (set_scrollbarTrack src) (scrollbarTrack target);
     scrollbarThumb := put (set_scrollbarThumb src) (scrollbarThumb target) |}.

End Prefs.

(** ** The native backend

    The Rust side of the application is reached through [invoke] and is not
    part of the scripts: it is a parameter of the development.  [St] is
    whatever the backend keeps on disk; a command either rejects ([None], or
    [false] next to the new store) or resolves. *)

Record Backend (St : Type) : Type := {
  list_presets : St -> option (list string);
  load_preset : string -> St -> option Preset.t;
  get_app_dir : St -> option string;
  save_custom_preset : string -> Preset.t -> St -> St * option (Js string);
  delete_preset : string -> St -> St * bool;
  get_preferences : St -> option Prefs.t;
  set_preferences : Prefs.t -> St -> St * bool;
  update_progress : Js string -> JsNum -> string -> St -> St * bool;
  (* title, author, path, cover: the [id] of the entry it resolves with *)
  add_book : string -> string -> string -> Js string -> St -> St * option (Js string);
  get_book_progress : Js string -> St -> option (Js string)
}.

Arguments list_presets {St}.
Arguments load_preset {St}.
Arguments get_app_dir {St}.
Arguments save_custom_preset {St}.
Arguments delete_preset {St}.
Arguments get_preferences {St}.
Arguments set_preferences {St}.
Arguments update_progress {St}.
Arguments add_book {St}.
Arguments get_book_progress {St}.

(** The commands sent to the backend, in order. *)
Inductive Invocation : Type :=
| Inv_list_presets
| Inv_load_preset (presetName : string)
| Inv_get_app_dir
| Inv_save_custom_preset (name : string) (preset : Preset.t)
| Inv_delete_preset (name : string)
| Inv_get_preferences
| Inv_set_preferences (prefs : Prefs.t)
| Inv_update_progress (bookId : Js string) (progress : JsNum) (cfi : string)
| Inv_get_recent_books (limit : Z)
| Inv_add_book (title author path : string) (cover : Js string)
| Inv_get_book_progress (bookId : Js string)
| Inv_open_epub_dialog.

(** The [location] a [relocated] event of the rendition carries. *)
Record LocationStart : Type := { cfi : string }.
Record Location : Type := { start : Js LocationStart }.

#[global] Instance truthy_start : Truthy LocationStart := fun _ => true.
#[global] Instance truthy_location : Truthy Location := fun _ => true.

(** A pending [setTimeout]: the callback of the progress handler closes over
    the location of the event that armed it. *)
Record Timer : Type := {
  timer_id : nat;
  deadline : nat;                    (* milliseconds *)
  location : Js Location
}.

(** ** The application state: the managers main.js creates and its own
    module-level variables, with the backend's store and the DOM toasts. *)

Section World.

Context {St : Type}.

Record World : Type := mkWorld {
  reader : EpubReader.t;
  bgManager : BackgroundManager.t;
  overlayManager : OverlayManager.t;
  presets : list Preset.t;
  currentPreset : option Preset.t;
  currentPrefs : Prefs.t;
  currentBookId : Js string;
  saveTimeout : option nat;
  timers : list Timer;
  nextTimerId : nat;
  toasts : list (string * string);
  store : St;
  invoked : list Invocation
}.

Definition with_reader (v : EpubReader.t) (w : World) : World :=
  mkWorld v (bgManager w) (overlayManager w) (presets w) (currentPreset w) (currentPrefs w) (currentBookId w) (saveTimeout w) (timers w) (nextTimerId w) (toasts w) (store w) (invoked w).

Definition with_bgManager (v : BackgroundManager.t) (w : World) : World :=
  mkWorld (reader w) v (overlayManager w) (presets w) (currentPreset w) (currentPrefs w) (currentBookId w) (saveTimeout w) (timers w) (nextTimerId w) (toasts w) (store w) (invoked w).

Definition with_overlayManager (v : OverlayManager.t) (w : World) : World :=
  mkWorld (reader w) (bgManager w) v (presets w) (currentPreset w) (currentPrefs w) (currentBookId w) (saveTimeout w) (timers w) (nextTimerId w) (toasts w) (store w) (invoked w).

Definition with_presets (v : list Preset.t) (w : World) : World :=
  mkWorld (reader w) (bgManager w) (overlayManager w) v (currentPreset w) (currentPrefs w) (currentBookId w) (saveTimeout w) (timers w) (nextTimerId w) (toasts w) (store w) (invoked w).

Definition with_currentPreset (v : option Preset.t) (w : World) : World :=
  mkWorld (reader w) (bgManager w) (overlayManager w) (presets w) v (currentPrefs w) (currentBookId w) (saveTimeout w) (timers w) (nextTimerId w) (toasts w) (store w) (invoked w).

Definition with_currentPrefs (v : Prefs.t) (w : World) : World :=
  mkWorld (reader w) (bgManager w) (overlayManager w) (presets w) (currentPreset w) v (currentBookId w) (saveTimeout w) (timers w) (nextTimerId w) (toasts w) (store w) (invoked w).

Definition with_currentBookId (v : Js string) (w : World) : World :=
  mkWorld (reader w) (bgManager w) (overlayManager w) (presets w) (currentPreset w) (currentPrefs w) v (saveTimeout w) (timers w) (nextTimerId w) (toasts w) (store w) (invoked w).

Definition with_saveTimeout (v : option nat) (w : World) : World :=
  mkWorld (reader w) (bgManager w) (overlayManager w) (presets w) (currentPreset w) (currentPrefs w) (currentBookId w) v (timers w) (nextTimerId w) (toasts w) (store w) (invoked w).

Definition with_timers (v : list Timer) (w : World) : World :=
  mkWorld (reader w) (bgManager w) (overlayManager w) (presets w) (currentPreset w) (currentPrefs w) (currentBookId w) (saveTimeout w) v (nextTimerId w) (toasts w) (store w) (invoked w).

Definition with_nextTimerId (v : nat) (w : World) : World :=
  mkWorld (reader w) (bgManager w) (overlayManager w) (presets w) (currentPreset w) (currentPrefs w) (currentBookId w) (saveTimeout w) (timers w) v (toasts w) (store w) (invoked w).

Definition with_toasts (v : list (string * string)) (w : World) : World :=
  mkWorld (reader w) (bgManager w) (overlayManager w) (presets w) (currentPreset w) (currentPrefs w) (currentBookId w) (saveTimeout w) (timers w) (nextTimerId w) v (store w) (invoked w).

Definition with_store (v : St) (w : World) : World :=
  mkWorld (reader w) (bgManager w) (overlayManager w) (presets w) (currentPreset w) (currentPrefs w) (currentBookId w) (saveTimeout w) (timers w) (nextTimerId w) (toasts w) v (invoked w).

Definition with_invoked (v : list Invocation) (w : World) : World :=
  mkWorld (reader w) (bgManager w) (overlayManager w) (presets w) (currentPreset w) (currentPrefs w) (currentBookId w) (saveTimeout w) (timers w) (nextTimerId w) (toasts w) (store w) v.

Definition logged (i : Invocation) (w : World) : World :=
  with_invoked (invoked w ++ [i]) w.

(** ui.js: [showToast(message, type)] *)
Definition showToast (message type : string) (w : World) : World :=
  with_toasts (toasts w ++ [(message, type)]) w.

Definition on_reader (f : EpubReader.t -> Res EpubReader.t) (w : World) : Res World :=
  match f (reader w) with
  | Ok r => Ok (with_reader r w)
  | Throw r => Throw (with_reader r w)
  end.

Definition on_bgManager (f : BackgroundManager.t -> Res BackgroundManager.t)
    (w : World) : Res World :=
  match f (bgManager w) with
  | Ok b => Ok (with_bgManager b w)
  | Throw b => Throw (with_bgManager b w)
  end.

Definition on_overlayManager (f : OverlayManager.t -> Res OverlayManager.t)
    (w : World) : Res World :=
  match f (overlayManager w) with
  | Ok o => Ok (with_overlayManager o w)
  | Throw o => Throw (with_overlayManager o w)
  end.

(** A call of the async [setFlow] that is not awaited: an exception inside
    it rejects a promise nobody looks at, and the caller goes on. *)
Definition detached_setFlow (f : Js string) (w : World) : World :=
  with_reader (state_of (EpubReader.setFlow f (reader w))) w.

End World.

Arguments World St : clear implicits.

(** [`${v}`] *)
Definition template (v : Js string) : string :=
  match v with Val x => x | Null => "null" | Undefined => "undefined" end.

(** [v === 'literal'] *)
Definition js_is (v : Js string) (literal : string) : bool :=
  match v with Val x => String.eqb x literal | _ => false end.

(** ** presets.js: PresetManager *)

Module PresetManager.

Definition builtin (name description : string)
    (color : string) (ov_opacity : JsNum)
    (opacity : JsNum) (backgroundColor textColor fontFamily : string)
    (fontSize glassBlur : Z) (scrollbarTrack scrollbarThumb : string) : Preset.t :=
  {| Preset.version := "2.0";
     Preset.name := name;
     Preset.author := "EPUB Team";
     Preset.description := description;
     Preset.background :=
       Some {| Preset.bg_type := Val "none"; Preset.bg_path := Null |};
     Preset.overlay :=
       Some {| Preset.ov_color := Val color; Preset.ov_opacity := Val ov_opacity |};
     Preset.reader :=
       Some {| Preset.rd_opacity := Val opacity;
               Preset.rd_backgroundColor := Val backgroundColor;
               Preset.rd_textColor := Val textColor;
               Preset.rd_fontFamily := Val fontFamily;
               Preset.rd_fontSize := Val (num fontSize);
               Preset.rd_readingMode := Val "paginated";
               Preset.rd_glassmorphism := Val false;
               Preset.rd_glassBlur := Val (num glassBlur);
               Preset.rd_scrollbarTrack := Val scrollbarTrack;
               Preset.rd_scrollbarThumb := Val scrollbarThumb |} |}.

Definition cozy_reading : Preset.t :=
  builtin "Cozy Reading" "Warm, comfortable reading atmosphere"
    "#8B4513" (ratio 2 10)
    (ratio 92 100) "#FFF8DC" "#3e2723" "serif" 18 12 "#1a1a1a" "#8B4513".

Definition focus_mode : Preset.t :=
  builtin "Focus Mode" "Minimal distraction, maximum concentration"
    "#000000" (num 0)
    (num 1) "#FFFFFF" "#1a1a1a" "sans-serif" 18 0 "#f0f0f0" "#999999".

Definition night_reading : Preset.t :=
  builtin "Night Reading" "Gentle on the eyes for late-night reading"
    "#1a1a2e" (ratio 4 10)
    (ratio 85 100) "#2d2d2d" "#e0e0e0" "serif" 20 8 "#1a1a1a" "#555555".

Definition _getFallbackPresets : list Preset.t :=
  [cozy_reading; focus_mode; night_reading].

Section WithBackend.

Context {St : Type} (pf : Platform) (be : Backend St).

(** The loop of [loadPresets]: a preset that fails to load is skipped. *)
Fixpoint load_each (presetNames : list string) (w : World St) : World St :=
  match presetNames with
  | [] => w
  | name :: rest =>
      let w := logged (Inv_load_preset name) w in
      match load_preset be name (store w) with
      | Some preset => load_each rest (with_presets (presets w ++ [preset]) w)
      | None => load_each rest w
      end
  end.

Definition loadPresets (w : World St) : list Preset.t * World St :=
  if negb (isTauri pf) then
    let w := with_presets _getFallbackPresets w in (presets w, w)
  else
    let w := logged Inv_list_presets w in
    match list_presets be (store w) with
    | Some presetNames =>
        let w := load_each presetNames (with_presets [] w) in (presets w, w)
    | None =>
        let w := with_presets _getFallbackPresets w in (presets w, w)
    end.

Definition find_preset (presetName : string) (l : list Preset.t) : option Preset.t :=
  find (fun p => String.eqb (Preset.name p) presetName) l.

Definition apply_background (b : Preset.Background) (w : World St) : Res (World St) :=
  if js_is (Preset.bg_type b) "media" && is_truthy (Preset.bg_path b) then
    on_bgManager (BackgroundManager.setMedia pf (Preset.bg_path b)) w
  else if js_is (Preset.bg_type b) "image" && is_truthy (Preset.bg_path b) then
    if isTauri pf then
      let w := logged Inv_get_app_dir w in
      match get_app_dir be (store w) with
      | None => Throw w
      | Some appDir =>
          let fullPath := appDir ++ "/" ++ template (Preset.bg_path b) in
          on_bgManager (BackgroundManager.setMedia pf (Val fullPath)) w
      end
    else on_bgManager (BackgroundManager.setMedia pf (Preset.bg_path b)) w
  else Ok (with_bgManager (BackgroundManager.clearMedia (bgManager w)) w).

Definition apply_overlay (o : Preset.Overlay) (w : World St) : Res (World St) :=
  on_overlayManager
    (OverlayManager.setTint (Preset.ov_color o) (Preset.ov_opacity o)) w.

Definition apply_reader (r : Preset.Reader) (w : World St) : Res (World St) :=
  (Ok w
   >>= when (is_defined (Preset.rd_opacity r))
         (on_reader (EpubReader.setOpacity (Preset.rd_opacity r)))
   >>= when (is_truthy (Preset.rd_backgroundColor r))
         (on_reader (EpubReader.setBackgroundColor (Preset.rd_backgroundColor r)))
   >>= when (is_truthy (Preset.rd_textColor r))
         (fun w => Ok (with_reader
                         (EpubReader.setTextColor (Preset.rd_textColor r) (reader w)) w))
   >>= when (is_truthy (Preset.rd_fontFamily r))
         (fun w => Ok (with_reader
                         (EpubReader.setFontFamily (Preset.rd_fontFamily r) (reader w)) w))
   >>= when (is_truthy (Preset.rd_fontSize r))
         (fun w => Ok (with_reader
                         (EpubReader.setFontSize (Preset.rd_fontSize r) (reader w)) w))
   >>= when (is_truthy (Preset.rd_readingMode r))
         (fun w => Ok (detached_setFlow (Preset.rd_readingMode r) w))
   >>= when (is_defined (Preset.rd_glassmorphism r))
         (on_reader (EpubReader.setGlassmorphism (Preset.rd_glassmorphism r)))
   >>= when (is_defined (Preset.rd_glassBlur r))
         (on_reader (EpubReader.setBlur (Preset.rd_glassBlur r)))
   >>= when (is_truthy (Preset.rd_scrollbarTrack r)
             || is_truthy (Preset.rd_scrollbarThumb r))
         (on_reader (EpubReader.setScrollbarColors
                       (Preset.rd_scrollbarTrack r) (Preset.rd_scrollbarThumb r))))%res.

Definition optionally {A} (o : option A) (k : A -> World St -> Res (World St))
    : World St -> Res (World St) :=
  fun w => match o with Some a => k a w | None => Ok w end.

(** The body of the [try] in [applyPreset]. *)
Definition apply_settings (preset : Preset.t) (w : World St) : Res (World St) :=
  (Ok w
   >>= optionally (Preset.background preset) apply_background
   >>= optionally (Preset.overlay preset) apply_overlay
   >>= optionally (Preset.reader preset) apply_reader)%res.

(** [applyPreset] once the preset object is at hand. *)
Definition apply_found (preset : Preset.t) (w : World St) : bool * World St :=
  match apply_settings preset w with
  | Ok w => (true, with_currentPreset (Some preset) w)
  | Throw w => (false, showToast "Failed to apply preset" "error" w)
  end.

Definition applyPreset (presetName : string) (w : World St) : bool * World St :=
  match find_preset presetName (presets w) with
  | Some preset => apply_found preset w
  | None =>
      if isTauri pf then
        let w := logged (Inv_load_preset presetName) w in
        match load_preset be presetName (store w) with
        | None => (false, w)
        | Some preset => apply_found preset w
        end
      else (false, w)
  end.

Definition buildPresetFromCurrent (name : string) (currentPrefs : Prefs.t)
    (w : World St) : Preset.t :=
  let bgMedia := BackgroundManager.getCurrentMedia (bgManager w) in
  {| Preset.version := "2.0";
     Preset.name := name;
     Preset.author := "User";
     Preset.description := "Custom preset: " ++ name;
     Preset.background :=
       Some {| Preset.bg_type :=
                 Val (if is_truthy (fst bgMedia) then "media" else "none");
               Preset.bg_path := js_or_null (fst bgMedia) |};
     Preset.overlay :=
       Some {| Preset.ov_color :=
                 Val (js_or (OverlayManager.currentColor (overlayManager w)) "#000000");
               Preset.ov_opacity :=
                 Val (js_or (Val (OverlayManager.currentOpacity (overlayManager w)))
                        (num 0)) |};
     Preset.reader :=
       Some {| Preset.rd_opacity :=
                 Val (js_div (js_nullish (Prefs.containerOpacity currentPrefs) (num 95))
                        (num 100));
               Preset.rd_backgroundColor :=
                 Val (js_or (Prefs.containerColor currentPrefs) "#FFFFFF");
               Preset.rd_textColor :=
                 Val (js_or (Prefs.textColor currentPrefs) "#1a1a1a");
               Preset.rd_fontFamily :=
                 Val (js_or (Prefs.fontFamily currentPrefs) "serif");
               Preset.rd_fontSize :=
                 Val (js_or (Prefs.fontSize currentPrefs) (num 18));
               Preset.rd_readingMode :=
                 Val (js_or (Prefs.readingMode currentPrefs) "paginated");
               Preset.rd_glassmorphism :=
                 Val (js_or (Prefs.glassmorphism currentPrefs) false);
               Preset.rd_glassBlur :=
                 Val (js_nullish (Prefs.glassBlur currentPrefs) (num 12));
               Preset.rd_scrollbarTrack :=
                 Val (js_or (Prefs.scrollbarTrack currentPrefs) "#1a1a1a");
               Preset.rd_scrollbarThumb :=
                 Val (js_or (Prefs.scrollbarThumb currentPrefs) "#4a9eff") |} |}.

Definition keep_if {A} (c : bool) (v : A) : option A :=
  if c then Some v else None.

Definition extractPrefsFromPreset (preset : Preset.t) : Prefs.Patch :=
  let bgMediaPath :=
    match Preset.background preset with
    | Some b => if is_truthy (Preset.bg_path b) then Preset.bg_path b else Null
    | None => Null
    end in
  match Preset.reader preset with
  | Some r =>
      {| Prefs.set_fontFamily :=
           keep_if (is_truthy (Preset.rd_fontFamily r)) (Preset.rd_fontFamily r);
         Prefs.set_fontSize :=
           keep_if (is_truthy (Preset.rd_fontSize r)) (Preset.rd_fontSize r);
         Prefs.set_readingMode :=
           keep_if (is_truthy (Preset.rd_readingMode r)) (Preset.rd_readingMode r);
         Prefs.set_textColor :=
           keep_if (is_truthy (Preset.rd_textColor r)) (Preset.rd_textColor r);
         Prefs.set_containerColor :=
           keep_if (is_truthy (Preset.rd_backgroundColor r)) (Preset.rd_backgroundColor r);
         Prefs.set_containerOpacity :=
           keep_if (is_defined (Preset.rd_opacity r))
             (Val (Math_round (js_mul (ToNumber (Preset.rd_opacity r)) (num 100))));
         Prefs.set_glassmorphism :=
           keep_if (is_defined (Preset.rd_glassmorphism r)) (Preset.rd_glassmorphism r);
         Prefs.set_glassBlur :=
           keep_if (is_defined (Preset.rd_glassBlur r)) (Preset.rd_glassBlur r);
         Prefs.set_scrollbarTrack :=
           keep_if (is_truthy (Preset.rd_scrollbarTrack r)) (Preset.rd_scrollbarTrack r);
         Prefs.set_scrollbarThumb :=
           keep_if (is_truthy (Preset.rd_scrollbarThumb r)) (Preset.rd_scrollbarThumb r);
         Prefs.set_bgMediaPath := Some bgMediaPath |}
  | None =>
      Prefs.mkPatch None None None None None None None None None None
        (Some bgMediaPath)
  end.

Definition saveCurrentAsPreset (name : string) (currentPrefs : Prefs.t)
    (w : World St) : Js string * World St :=
  if negb (isTauri pf) then
    (Null, showToast "Cannot save in browser mode" "error" w)
  else
    let presetData := buildPresetFromCurrent name currentPrefs w in
    let w := logged (Inv_save_custom_preset name presetData) w in
    match save_custom_preset be name presetData (store w) with
    | (st, Some saved) =>
        let w := snd (loadPresets (with_store st w)) in
        (saved, showToast ("Saved preset: " ++ name) "success" w)
    | (st, None) =>
        (Null, showToast "Failed to save preset" "error" (with_store st w))
    end.

Definition saveLastSession (currentPrefs : Prefs.t) (w : World St) : World St :=
  if negb (isTauri pf) then w
  else
    let presetData := buildPresetFromCurrent "_last_session" currentPrefs w in
    let w := logged (Inv_save_custom_preset "_last_session" presetData) w in
    with_store (fst (save_custom_preset be "_last_session" presetData (store w))) w.

Definition deletePreset (name : string) (w : World St) : World St :=
  if negb (isTauri pf) then w
  else
    let w := logged (Inv_delete_preset name) w in
    match delete_preset be name (store w) with
    | (st, true) =>
        let w := snd (loadPresets (with_store st w)) in
        showToast ("Deleted preset: " ++ name) "success" w
    | (st, false) =>
        showToast "Failed to delete preset" "error" (with_store st w)
    end.

Definition getPresets (w : World St) : list Preset.t :=
  filter (fun p => negb (String.eqb (Preset.name p) "_last_session")) (presets w).

Definition getCurrentPreset (w : World St) : option Preset.t := currentPreset w.

End WithBackend.

End PresetManager.

(** ** library.js: LibraryManager

    The list of recent books the manager keeps is what the library grid is
    drawn from; the state modelled here does not depend on it, and only
    the command that fetches it is recorded. *)

Module LibraryManager.

Section WithBackend.

Context {St : Type} (pf : Platform) (be : Backend St).

Definition loadRecentBooks (w : World St) : World St :=
  logged (Inv_get_recent_books 10) w.

Definition init (w : World St) : World St :=
  if negb (isTauri pf) then w else loadRecentBooks w.

(** The [id] of the entry the backend resolves with, or [None] for the
    [null] that [addBook] returns without a backend or when the command
    fails. *)
Definition addBook (filePath title author : string) (coverUrl : Js string)
    (w : World St) : option (Js string) * World St :=
  if negb (isTauri pf) then (None, w)
  else
    let w := logged (Inv_add_book title author filePath coverUrl) w in
    match add_book be title author filePath coverUrl (store w) with
    | (st, Some id) => (Some id, loadRecentBooks (with_store st w))
    | (st, None) => (None, with_store st w)
    end.

Definition getBookProgress (bookId : Js string) (w : World St) : Js string * World St :=
  if negb (isTauri pf) then (Null, w)
  else
    let w := logged (Inv_get_book_progress bookId) w in
    match get_book_progress be bookId (store w) with
    | Some savedCfi => (savedCfi, w)
    | None => (Null, w)
    end.

Definition updateProgress (bookId : Js string) (cfi : string) (percentage : JsNum)
    (w : World St) : World St :=
  if negb (isTauri pf) || negb (is_truthy bookId) then w
  else
    let w := logged (Inv_update_progress bookId percentage cfi) w in
    with_store (fst (update_progress be bookId percentage cfi (store w))) w.

End WithBackend.

End LibraryManager.

(** ** main.js *)

Module Main.

(** What [readFile] and epub.js make of a file that holds an EPUB: the
    book, the metadata [reader.openBook] returns, the position the
    rendition reports once displayed, and which saved positions
    [rendition.display] still resolves. *)
Record Epub : Type := {
  epub_book : EpubReader.Book;
  epub_title : string;
  epub_author : string;
  epub_cover : Js string;
  epub_start : Js string;
  epub_resolves : Js string -> bool
}.

(** How the file dialog of the open button ends. *)
Inductive DialogAnswer : Type :=
| FilePicked (filePath : string) (file : option Epub)
| NoFileSelected                   (* it rejects with 'No file selected' *)
| DialogFailed.                    (* it rejects with anything else *)

(** What the event loop hands to the progress handler: a [relocated] event
    of the rendition that is showing, or the callback of a timer. *)
Inductive Tick : Type :=
| Relocated (loc : Js Location)
| Timeout (id : nat).

Section WithBackend.

Context {St : Type} (pf : Platform) (be : Backend St).

(** The state once the module-level code of main.js has run, before
    [init]: fresh managers and the literal preferences. *)
Definition initial (st : St) : World St :=
  {| reader := EpubReader.constructor;
     bgManager := BackgroundManager.constructor;
     overlayManager := OverlayManager.constructor;
     presets := [];
     currentPreset := None;
     currentPrefs := Prefs.defaults;
     currentBookId := Null;
     saveTimeout := None;
     timers := [];
     nextTimerId := 1;
     toasts := [];
     store := st;
     invoked := [] |}.

Definition savePreferences (w : World St) : World St :=
  if negb (main_isTauri pf) then w
  else
    let w := logged (Inv_set_preferences (currentPrefs w)) w in
    with_store (fst (set_preferences be (currentPrefs w) (store w))) w.

(** [init], step 1: preferences from the backend, the literal ones kept
    when it is absent or the call fails. *)
Definition load_preferences (w : World St) : World St :=
  if main_isTauri pf then
    let w := logged Inv_get_preferences w in
    match get_preferences be (store w) with
    | Some prefs => with_currentPrefs prefs w
    | None => w
    end
  else w.

Definition reader_does (f : EpubReader.t -> EpubReader.t) (w : World St)
    : Res (World St) :=
  Ok (with_reader (f (reader w)) w).

(** [init], the [else] branch: preferences applied to the state holders,
    the reader first, the background after it. *)
Definition apply_reader_preferences (p : Prefs.t) (w : World St) : Res (World St) :=
  (Ok w
   >>= reader_does (EpubReader.setFontFamily (Prefs.fontFamily p))
   >>= reader_does (EpubReader.setFontSize (Prefs.fontSize p))
   >>= (fun w => Ok (detached_setFlow
                       (Val (js_or (Prefs.readingMode p) "paginated")) w))
   >>= reader_does (EpubReader.setTextColor
                      (Val (js_or (Prefs.textColor p) "#1a1a1a")))
   >>= on_reader (EpubReader.setBackgroundColor
                    (Val (js_or (Prefs.containerColor p) "#FFFFFF")))
   >>= on_reader (EpubReader.setOpacity
                    (Val (js_div (js_nullish (Prefs.containerOpacity p) (num 95))
                            (num 100))))
   >>= on_reader (EpubReader.setGlassmorphism
                    (Val (js_or (Prefs.glassmorphism p) false)))
   >>= on_reader (EpubReader.setBlur (Val (js_nullish (Prefs.glassBlur p) (num 12))))
   >>= on_reader (EpubReader.setScrollbarColors
                    (Val (js_or (Prefs.scrollbarTrack p) "#1a1a1a"))
                    (Val (js_or (Prefs.scrollbarThumb p) "#4a9eff"))))%res.

Definition apply_background_preferences (p : Prefs.t) (w : World St) : Res (World St) :=
  (when (is_truthy (Prefs.bgMediaPath p))
     (on_bgManager (BackgroundManager.setMedia pf (Prefs.bgMediaPath p))) w
   >>= (fun w => Ok (with_bgManager
                       (BackgroundManager.setMuted
                          (js_nullish (Prefs.bgAudioMuted p) true) (bgManager w)) w)))%res.

Definition apply_preferences (w : World St) : Res (World St) :=
  let p := currentPrefs w in
  (apply_reader_preferences p w >>= apply_background_preferences p)%res.

Definition hasLastSession (l : list Preset.t) : bool :=
  existsb (fun p => String.eqb (Preset.name p) "_last_session") l.

(** [init], step 3: the session preset when the list has one, the
    preferences otherwise. *)
Definition restore_atmosphere (loaded : list Preset.t) (w : World St)
    : Res (World St) :=
  if hasLastSession loaded then
    let '(applied, w) := PresetManager.applyPreset pf be "_last_session" w in
    if applied then
      match PresetManager.getCurrentPreset w with
      | Some preset =>
          let sessionPrefs := PresetManager.extractPrefsFromPreset preset in
          Ok (with_currentPrefs (Prefs.assign (currentPrefs w) sessionPrefs) w)
      | None => Throw w
      end
    else Ok w
  else apply_preferences w.

Definition restore_music (w : World St) : Res (World St) :=
  let p := currentPrefs w in
  if is_truthy (Prefs.bgMusicPath p) then
    (on_bgManager (BackgroundManager.setMusicVolume
                     (js_nullish (Prefs.bgMusicVolume p) (num 50))) w
     >>= (fun w => Ok (with_bgManager
                         (BackgroundManager.setMusic pf (Prefs.bgMusicPath p)
                            (bgManager w)) w))
     >>= (fun w => Ok (with_bgManager
                         (BackgroundManager.setMusicMuted
                            (js_nullish (Prefs.bgMusicMuted p) true)
                            (bgManager w)) w)))%res
  else Ok w.

(** [init].  Between these steps the source fills in the controls of the
    settings panel, draws the library and installs the listeners modelled
    further down; the toast is its last statement. *)
Definition init (w : World St) : Res (World St) :=
  let w := load_preferences w in
  let '(loaded, w) := PresetManager.loadPresets pf be w in
  (restore_atmosphere loaded w
   >>= restore_music
   >>= (fun w => Ok (LibraryManager.init pf w))
   >>= (fun w => Ok (showToast "Epilogue ready" "info" w)))%res.

(** The click handler of a reading-mode button. *)
Definition selectMode (mode : string) (w : World St) : World St :=
  let w := with_currentPrefs (Prefs.with_readingMode (Val mode) (currentPrefs w)) w in
  let w := detached_setFlow (Val mode) w in
  savePreferences w.

(** The click handler of an entry of the preset list. *)
Definition selectPreset (preset : Preset.t) (w : World St) : World St :=
  let '(applied, w) := PresetManager.applyPreset pf be (Preset.name preset) w in
  if applied then
    let presetPrefs := PresetManager.extractPrefsFromPreset preset in
    let w := with_currentPrefs (Prefs.assign (currentPrefs w) presetPrefs) w in
    let w := savePreferences w in
    showToast ("Applied preset: " ++ Preset.name preset) "success" w
  else w.

Definition closeBook (w : World St) : World St :=
  with_currentBookId Null (with_reader (EpubReader.destroy (reader w)) w).

(** [openBookFromFile], the block run when the library has an entry for the
    book: the book becomes the tracked one, its saved position is displayed
    when there is one, and the rendition gets the progress listener.  With
    no rendition the call of [on] is a TypeError. *)
Definition track (f : Epub) (id : Js string) (w : World St) : Res (World St) :=
  let w := with_currentBookId id w in
  let '(savedCfi, w) := LibraryManager.getBookProgress pf be id w in
  match EpubReader.rendition (reader w) with
  | None => Throw w
  | Some _ =>
      let w :=
        if is_truthy savedCfi then
          let w := with_reader
                     (EpubReader.emit (EpubReader.RenditionDisplay savedCfi) (reader w)) w in
          if epub_resolves f savedCfi
          then showToast "Restored reading position" "info" w
          else w
        else w in
      Ok (with_reader (EpubReader.emit (EpubReader.RenditionOn "relocated") (reader w)) w)
  end.

(** [openBookFromFile], from [reader.openBook] to the fonts: the book is
    opened in the reader, its rendition gets the key and mouse listeners,
    and the preferred font and size are applied to it. *)
Definition open_in_reader (f : Epub) (w : World St) : World St :=
  let r := EpubReader.openBook (epub_book f) (epub_start f) (reader w) in
  let r :=
    match EpubReader.rendition r with
    | Some _ =>
        EpubReader.emit (EpubReader.RenditionOn "mousemove")
          (EpubReader.emit (EpubReader.RenditionOn "keydown") r)
    | None => r
    end in
  let r := EpubReader.setFontFamily (Prefs.fontFamily (currentPrefs w)) r in
  let r := EpubReader.setFontSize (Prefs.fontSize (currentPrefs w)) r in
  with_reader r w.

(** [openBookFromFile]; [file] is [None] when [readFile] rejects.  As in
    [EpubReader.openBook], the book is one epub.js parses and displays. *)
Definition openBookFromFile (filePath : string) (file : option Epub) (w : World St)
    : World St :=
  let w := showToast "Opening book..." "info" w in
  match file with
  | None => showToast "Failed to open book" "error" w
  | Some f =>
      let w := open_in_reader f w in
      let '(book, w) :=
        LibraryManager.addBook pf be filePath (epub_title f) (epub_author f)
          (epub_cover f) w in
      match match book with Some id => track f id w | None => Ok w end with
      | Ok w => showToast ("Opened: " ++ epub_title f) "success" w
      | Throw w => showToast "Failed to open book" "error" w
      end
  end.

(** The click listener of the open button, up to the point where it waits
    for the file dialog. *)
Definition openEpubClick (w : World St) : World St :=
  if negb (main_isTauri pf) then
    showToast "Tauri backend not available. Use cargo tauri dev to run the app." "info" w
  else logged Inv_open_epub_dialog w.

(** The rest of that listener, run when the dialog has answered. *)
Definition openEpubAnswered (answer : DialogAnswer) (w : World St) : World St :=
  match answer with
  | FilePicked filePath file => openBookFromFile filePath file w
  | NoFileSelected => w
  | DialogFailed => showToast "Failed to open EPUB file" "error" w
  end.

(** *** Debounced progress saving

    The [relocated] listener [openBookFromFile] installs, and the timer
    it arms.  Time is a count of milliseconds; the browser's timer table
    is [timers]. *)

Definition clearTimeout (id : nat) (w : World St) : World St :=
  with_timers (filter (fun t => negb (timer_id t =? id)%nat) (timers w)) w.

Definition setTimeout (now delay : nat) (loc : Js Location) (w : World St)
    : nat * World St :=
  let id := nextTimerId w in
  (id, with_nextTimerId (S id)
         (with_timers
            (timers w ++ [{| timer_id := id; deadline := now + delay; location := loc |}])
            w)).

Definition relocated (now : nat) (loc : Js Location) (w : World St) : World St :=
  let w := match saveTimeout w with
           | Some id => clearTimeout id w
           | None => w
           end in
  let '(id, w) := setTimeout now 2000 loc w in
  with_saveTimeout (Some id) w.

(** The callback of the timer.  It is an async arrow function: were
    [reader.book] null, the TypeError would reject its promise and
    nothing would be written. *)
Definition save_progress (loc : Js Location) (w : World St) : World St :=
  match loc with
  | Val l =>
      match start l with
      | Val s =>
          if is_truthy (currentBookId w) then
            match EpubReader.book (reader w) with
            | Some b =>
                let progress :=
                  match EpubReader.percentageFromCfi b with
                  | Some f => f (cfi s)
                  | None => num 0
                  end in
                LibraryManager.updateProgress pf be (currentBookId w) (cfi s)
                  (js_or (Val progress) (num 0)) w
            | None => w
            end
          else w
      | _ => w
      end
  | _ => w
  end.

(** The browser runs the callback of the timer [id] at [now].  It does so
    only for a timer that is still in its table, and never before the
    timer's deadline; how long after the deadline is up to the browser.
    [None]: the browser does not do that. *)
Definition timeout (now id : nat) (w : World St) : option (World St) :=
  match find (fun t => (timer_id t =? id)%nat) (timers w) with
  | Some t =>
      if (deadline t <=? now)%nat
      then Some (save_progress (location t) (clearTimeout id w))
      else None
  | None => None
  end.

(** One turn of the event loop at [now].  A [relocated] event reaches the
    progress handler when the rendition that is showing has that
    listener. *)
Definition tick (now : nat) (e : Tick) (w : World St) : option (World St) :=
  match e with
  | Relocated loc =>
      Some (if EpubReader.listens "relocated" (reader w) then relocated now loc w else w)
  | Timeout id => timeout now id w
  end.

(** A run of the event loop: what happens, and when. *)
Fixpoint run (trace : list (nat * Tick)) (w : World St) : option (World St) :=
  match trace with
  | [] => Some w
  | (now, e) :: rest =>
      match tick now e w with
      | Some w => run rest w
      | None => None
      end
  end.

End WithBackend.

End Main.

(** ** An in-memory backend, for running the scripts on concrete inputs *)

Module MemoryBackend.

Record Store : Type := {
  stored_presets : list Preset.t;
  stored_prefs : option Prefs.t;
  stored_progress : list (Js string * JsNum * string);
  stored_books : list string;          (* paths, the most recent first *)
  app_dir : string
}.

Definition with_presets (l : list Preset.t) (st : Store) : Store :=
  {| stored_presets := l; stored_prefs := stored_prefs st;
     stored_progress := stored_progress st; stored_books := stored_books st;
     app_dir := app_dir st |}.

(** The id of the library entry of a file. *)
Definition book_id (path : string) : Js string := Val ("book:" ++ path).

Definition same_id (a b : Js string) : bool :=
  match a, b with
  | Val x, Val y => String.eqb x y
  | Null, Null | Undefined, Undefined => true
  | _, _ => false
  end.

Definition named (n : string) (p : Preset.t) : bool := String.eqb (Preset.name p) n.

(** Modelled from the spec: the persistence boundary of section 6
    (list preset names, load, save and delete a preset by name, get and set
    the preferences, add a book, update and get the progress of a book),
    whose implementation is on the Rust side.  Every command resolves,
    except loading a preset that is not stored.  A book has one entry per
    path, and its progress is the last one written. *)
Definition backend : Backend Store :=
  {| list_presets := fun st => Some (map Preset.name (stored_presets st));
     load_preset := fun n st => find (named n) (stored_presets st);
     get_app_dir := fun st => Some (app_dir st);
     save_custom_preset := fun n p st =>
       (with_presets (filter (fun q => negb (named n q)) (stored_presets st) ++ [p]) st,
        Some (Val n));
     delete_preset := fun n st =>
       (with_presets (filter (fun q => negb (named n q)) (stored_presets st)) st, true);
     get_preferences := fun st => stored_prefs st;
     set_preferences := fun prefs st =>
       ({| stored_presets := stored_presets st; stored_prefs := Some prefs;
           stored_progress := stored_progress st; stored_books := stored_books st;
           app_dir := app_dir st |}, true);
     update_progress := fun bookId progress c st =>
       ({| stored_presets := stored_presets st; stored_prefs := stored_prefs st;
           stored_progress := stored_progress st ++ [(bookId, progress, c)];
           stored_books := stored_books st;
           app_dir := app_dir st |}, true);
     add_book := fun title author path cover st =>
       ({| stored_presets := stored_presets st; stored_prefs := stored_prefs st;
           stored_progress := stored_progress st;
           stored_books :=
             path :: filter (fun q => negb (String.eqb q path)) (stored_books st);
           app_dir := app_dir st |}, Some (book_id path));
     get_book_progress := fun bookId st =>
       Some (match find (fun e => same_id (fst (fst e)) bookId)
                     (rev (stored_progress st)) with
             | Some e => Val (snd e)
             | None => Null
             end) |}.

Definition empty : Store :=
  {| stored_presets := []; stored_prefs := None; stored_progress := [];
     stored_books := []; app_dir := "/data" |}.

(** The desktop application, and the same scripts opened in a browser. *)
Definition desktop : Platform :=
  {| isTauri := true; hasWindowApi := true;
     convertFileSrc := fun path => "asset://localhost/" ++ path |}.

Definition browser : Platform :=
  {| isTauri := false; hasWindowApi := false; convertFileSrc := fun path => path |}.

End MemoryBackend.

(** ** main.js: the controls of the settings panel

    Each control is an event listener: it writes the preference, calls the
    state holder and saves the preferences, in the order of the source.  An
    exception thrown by a setter ends the listener there.  The two file
    pickers are modelled from the point where the native dialog has returned
    the chosen path. *)

Module Settings.

(** [currentPrefs.key = v] for the keys the panel writes. *)
Definition with_textColor (v : Js string) (p : Prefs.t) : Prefs.t :=
  Prefs.mk (Prefs.fontFamily p) (Prefs.fontSize p) (Prefs.lastPreset p) (Prefs.readingMode p) v (Prefs.containerColor p) (Prefs.containerOpacity p) (Prefs.glassmorphism p) (Prefs.glassBlur p) (Prefs.bgMediaPath p) (Prefs.bgAudioMuted p) (Prefs.bgMusicPath p) (Prefs.bgMusicVolume p) (Prefs.bgMusicMuted p) (Prefs.scrollbarTrack p) (Prefs.scrollbarThumb p).

Definition with_containerColor (v : Js string) (p : Prefs.t) : Prefs.t :=
  Prefs.mk (Prefs.fontFamily p) (Prefs.fontSize p) (Prefs.lastPreset p) (Prefs.readingMode p) (Prefs.textColor p) v (Prefs.containerOpacity p) (Prefs.glassmorphism p) (Prefs.glassBlur p) (Prefs.bgMediaPath p) (Prefs.bgAudioMuted p) (Prefs.bgMusicPath p) (Prefs.bgMusicVolume p) (Prefs.bgMusicMuted p) (Prefs.scrollbarTrack p) (Prefs.scrollbarThumb p).

Definition with_containerOpacity (v : Js JsNum) (p : Prefs.t) : Prefs.t :=
  Prefs.mk (Prefs.fontFamily p) (Prefs.fontSize p) (Prefs.lastPreset p) (Prefs.readingMode p) (Prefs.textColor p) (Prefs.containerColor p) v (Prefs.glassmorphism p) (Prefs.glassBlur p) (Prefs.bgMediaPath p) (Prefs.bgAudioMuted p) (Prefs.bgMusicPath p) (Prefs.bgMusicVolume p) (Prefs.bgMusicMuted p) (Prefs.scrollbarTrack p) (Prefs.scrollbarThumb p).

Definition with_glassmorphism (v : Js bool) (p : Prefs.t) : Prefs.t :=
  Prefs.mk (Prefs.fontFamily p) (Prefs.fontSize p) (Prefs.lastPreset p) (Prefs.readingMode p) (Prefs.textColor p) (Prefs.containerColor p) (Prefs.containerOpacity p) v (Prefs.glassBlur p) (Prefs.bgMediaPath p) (Prefs.bgAudioMuted p) (Prefs.bgMusicPath p) (Prefs.bgMusicVolume p) (Prefs.bgMusicMuted p) (Prefs.scrollbarTrack p) (Prefs.scrollbarThumb p).

Definition with_glassBlur (v : Js JsNum) (p : Prefs.t) : Prefs.t :=
  Prefs.mk (Prefs.fontFamily p) (Prefs.fontSize p) (Prefs.lastPreset p) (Prefs.readingMode p) (Prefs.textColor p) (Prefs.containerColor p) (Prefs.containerOpacity p) (Prefs.glassmorphism p) v (Prefs.bgMediaPath p) (Prefs.bgAudioMuted p) (Prefs.bgMusicPath p) (Prefs.bgMusicVolume p) (Prefs.bgMusicMuted p) (Prefs.scrollbarTrack p) (Prefs.scrollbarThumb p).

Definition with_bgAudioMuted (v : Js bool) (p : Prefs.t) : Prefs.t :=
  Prefs.mk (Prefs.fontFamily p) (Prefs.fontSize p) (Prefs.lastPreset p) (Prefs.readingMode p) (Prefs.textColor p) (Prefs.containerColor p) (Prefs.containerOpacity p) (Prefs.glassmorphism p) (Prefs.glassBlur p) (Prefs.bgMediaPath p) v (Prefs.bgMusicPath p) (Prefs.bgMusicVolume p) (Prefs.bgMusicMuted p) (Prefs.scrollbarTrack p) (Prefs.scrollbarThumb p).

Definition with_bgMusicPath (v : Js string) (p : Prefs.t) : Prefs.t :=
  Prefs.mk (Prefs.fontFamily p) (Prefs.fontSize p) (Prefs.lastPreset p) (Prefs.readingMode p) (Prefs.textColor p) (Prefs.containerColor p) (Prefs.containerOpacity p) (Prefs.glassmorphism p) (Prefs.glassBlur p) (Prefs.bgMediaPath p) (Prefs.bgAudioMuted p) v (Prefs.bgMusicVolume p) (Prefs.bgMusicMuted p) (Prefs.scrollbarTrack p) (Prefs.scrollbarThumb p).

Definition with_bgMusicVolume (v : Js JsNum) (p : Prefs.t) : Prefs.t :=
  Prefs.mk (Prefs.fontFamily p) (Prefs.fontSize p) (Prefs.lastPreset p) (Prefs.readingMode p) (Prefs.textColor p) (Prefs.containerColor p) (Prefs.containerOpacity p) (Prefs.glassmorphism p) (Prefs.glassBlur p) (Prefs.bgMediaPath p) (Prefs.bgAudioMuted p) (Prefs.bgMusicPath p) v (Prefs.bgMusicMuted p) (Prefs.scrollbarTrack p) (Prefs.scrollbarThumb p).

Definition with_bgMusicMuted (v : Js bool) (p : Prefs.t) : Prefs.t :=
  Prefs.mk (Prefs.fontFamily p) (Prefs.fontSize p) (Prefs.lastPreset p) (Prefs.readingMode p) (Prefs.textColor p) (Prefs.containerColor p) (Prefs.containerOpacity p) (Prefs.glassmorphism p) (Prefs.glassBlur p) (Prefs.bgMediaPath p) (Prefs.bgAudioMuted p) (Prefs.bgMusicPath p) (Prefs.bgMusicVolume p) v (Prefs.scrollbarTrack p) (Prefs.scrollbarThumb p).

Definition with_scrollbarTrack (v : Js string) (p : Prefs.t) : Prefs.t :=
  Prefs.mk (Prefs.fontFamily p) (Prefs.fontSize p) (Prefs.lastPreset p) (Prefs.readingMode p) (Prefs.textColor p) (Prefs.containerColor p) (Prefs.containerOpacity p) (Prefs.glassmorphism p) (Prefs.glassBlur p) (Prefs.bgMediaPath p) (Prefs.bgAudioMuted p) (Prefs.bgMusicPath p) (Prefs.bgMusicVolume p) (Prefs.bgMusicMuted p) v (Prefs.scrollbarThumb p).

Definition with_scrollbarThumb (v : Js string) (p : Prefs.t) : Prefs.t :=
  Prefs.mk (Prefs.fontFamily p) (Prefs.fontSize p) (Prefs.lastPreset p) (Prefs.readingMode p) (Prefs.textColor p) (Prefs.containerColor p) (Prefs.containerOpacity p) (Prefs.glassmorphism p) (Prefs.glassBlur p) (Prefs.bgMediaPath p) (Prefs.bgAudioMuted p) (Prefs.bgMusicPath p) (Prefs.bgMusicVolume p) (Prefs.bgMusicMuted p) (Prefs.scrollbarTrack p) v.

(** The controls that change the reader's appearance. *)
Inductive Control : Type :=
| ModeOption (mode : string)
| FontOption (family : string)
| FontSizeDown
| FontSizeUp
| TextColorInput (color : string)
| ContainerColorInput (color : string)
| ContainerOpacityInput (val : JsNum)
| GlassToggle (enabled : bool)
| GlassBlurInput (val : JsNum)
| ScrollbarTrackInput (color : string)
| ScrollbarThumbInput (color : string).

Section WithBackend.

Context {St : Type} (pf : Platform) (be : Backend St).

Definition set_pref (f : Prefs.t -> Prefs.t) (w : World St) : Res (World St) :=
  Ok (with_currentPrefs (f (currentPrefs w)) w).

Definition save (w : World St) : Res (World St) :=
  Ok (Main.savePreferences pf be w).

Definition fontOption (family : string) (w : World St) : Res (World St) :=
  (Main.reader_does (EpubReader.setFontFamily (Val family)) w
   >>= set_pref (Prefs.with_fontFamily (Val family))
   >>= save)%res.

(** [currentPrefs.fontSize - 2] and [+ 2], through [Math.max] and
    [Math.min]. *)
Definition fontSizeDown (w : World St) : Res (World St) :=
  let newSize :=
    Math_max (num 12) (js_sub (ToNumber (Prefs.fontSize (currentPrefs w))) (num 2)) in
  (set_pref (Prefs.with_fontSize (Val newSize)) w
   >>= Main.reader_does (EpubReader.setFontSize (Val newSize))
   >>= save)%res.

Definition fontSizeUp (w : World St) : Res (World St) :=
  let newSize :=
    Math_min (num 32) (js_add (ToNumber (Prefs.fontSize (currentPrefs w))) (num 2)) in
  (set_pref (Prefs.with_fontSize (Val newSize)) w
   >>= Main.reader_does (EpubReader.setFontSize (Val newSize))
   >>= save)%res.

Definition textColorInput (color : string) (w : World St) : Res (World St) :=
  (set_pref (with_textColor (Val color)) w
   >>= Main.reader_does (EpubReader.setTextColor (Val color))
   >>= save)%res.

Definition containerColorInput (color : string) (w : World St) : Res (World St) :=
  (set_pref (with_containerColor (Val color)) w
   >>= on_reader (EpubReader.setBackgroundColor (Val color))
   >>= save)%res.

(** [val] is what [parseInt] made of the slider's value. *)
Definition containerOpacityInput (val : JsNum) (w : World St) : Res (World St) :=
  (set_pref (with_containerOpacity (Val val)) w
   >>= on_reader (EpubReader.setOpacity (Val (js_div val (num 100))))
   >>= save)%res.

Definition glassToggle (enabled : bool) (w : World St) : Res (World St) :=
  (set_pref (with_glassmorphism (Val enabled)) w
   >>= on_reader (EpubReader.setGlassmorphism (Val enabled))
   >>= save)%res.

Definition glassBlurInput (val : JsNum) (w : World St) : Res (World St) :=
  (set_pref (with_glassBlur (Val val)) w
   >>= on_reader (EpubReader.setBlur (Val val))
   >>= save)%res.

Definition scrollbarTrackInput (color : string) (w : World St) : Res (World St) :=
  (set_pref (with_scrollbarTrack (Val color)) w
   >>= on_reader (EpubReader.setScrollbarColors (Val color) Undefined)
   >>= save)%res.

Definition scrollbarThumbInput (color : string) (w : World St) : Res (World St) :=
  (set_pref (with_scrollbarThumb (Val color)) w
   >>= on_reader (EpubReader.setScrollbarColors Undefined (Val color))
   >>= save)%res.

Definition handle (c : Control) (w : World St) : Res (World St) :=
  match c with
  | ModeOption mode => Ok (Main.selectMode pf be mode w)
  | FontOption family => fontOption family w
  | FontSizeDown => fontSizeDown w
  | FontSizeUp => fontSizeUp w
  | TextColorInput color => textColorInput color w
  | ContainerColorInput color => containerColorInput color w
  | ContainerOpacityInput val => containerOpacityInput val w
  | GlassToggle enabled => glassToggle enabled w
  | GlassBlurInput val => glassBlurInput val w
  | ScrollbarTrackInput color => scrollbarTrackInput color w
  | ScrollbarThumbInput color => scrollbarThumbInput color w
  end.

(** The background picker, once the dialog has returned [filePath]. *)
Definition bgMediaPick (filePath : Js string) (w : World St) : Res (World St) :=
  if negb (main_isTauri pf) then Ok w
  else if is_truthy filePath then
    (on_bgManager (BackgroundManager.setMedia pf filePath) w
     >>= set_pref (Prefs.with_bgMediaPath filePath)
     >>= save)%res
  else Ok w.

Definition bgMediaClear (w : World St) : Res (World St) :=
  (Ok (with_bgManager (BackgroundManager.clearMedia (bgManager w)) w)
   >>= set_pref (Prefs.with_bgMediaPath Null)
   >>= save)%res.

Definition bgAudioToggle (audioOn : bool) (w : World St) : Res (World St) :=
  (set_pref (with_bgAudioMuted (Val (negb audioOn))) w
   >>= (fun w => Ok (with_bgManager
                       (BackgroundManager.setMuted (negb audioOn) (bgManager w)) w))
   >>= save)%res.

(** The music picker, once the dialog has returned [filePath]. *)
Definition bgMusicPick (filePath : Js string) (w : World St) : Res (World St) :=
  if negb (main_isTauri pf) then Ok w
  else if is_truthy filePath then
    (on_bgManager (BackgroundManager.setMusicVolume
                     (js_nullish (Prefs.bgMusicVolume (currentPrefs w)) (num 50))) w
     >>= (fun w => Ok (with_bgManager
                         (BackgroundManager.setMusic pf filePath (bgManager w)) w))
     >>= (fun w => Ok (with_bgManager
                         (BackgroundManager.setMusicMuted
                            (js_nullish (Prefs.bgMusicMuted (currentPrefs w)) true)
                            (bgManager w)) w))
     >>= set_pref (with_bgMusicPath filePath)
     >>= save)%res
  else Ok w.

Definition bgMusicClear (w : World St) : Res (World St) :=
  (Ok (with_bgManager (BackgroundManager.clearMusic (bgManager w)) w)
   >>= set_pref (with_bgMusicPath Null)
   >>= save)%res.

Definition bgMusicToggle (musicOn : bool) (w : World St) : Res (World St) :=
  (set_pref (with_bgMusicMuted (Val (negb musicOn))) w
   >>= (fun w => Ok (with_bgManager
                       (BackgroundManager.setMusicMuted (negb musicOn) (bgManager w)) w))
   >>= save)%res.

Definition bgMusicVolumeInput (val : JsNum) (w : World St) : Res (World St) :=
  (set_pref (with_bgMusicVolume (Val val)) w
   >>= on_bgManager (BackgroundManager.setMusicVolume val)
   >>= save)%res.

End WithBackend.

End Settings.

(** ** main.js and ui.js: keyboard shortcuts and the toolbar *)

Module Shell.

(** The [hidden] class of the panels and of the library view, the
    [toolbar-hidden] class of the top bar, and whether the chapter selector
    has the focus.  The save dialog may be missing from the document. *)
Record View : Type := {
  shortcutOverlay_hidden : bool;
  presetPanel_hidden : bool;
  saveDialog_hidden : option bool;
  userLibrary_hidden : bool;
  toolbar_hidden : bool;
  chapterSelect_focused : bool
}.

Definition with_shortcutOverlay (h : bool) (v : View) : View :=
  {| shortcutOverlay_hidden := h; presetPanel_hidden := presetPanel_hidden v;
     saveDialog_hidden := saveDialog_hidden v; userLibrary_hidden := userLibrary_hidden v;
     toolbar_hidden := toolbar_hidden v;
     chapterSelect_focused := chapterSelect_focused v |}.

Definition with_presetPanel (h : bool) (v : View) : View :=
  {| shortcutOverlay_hidden := shortcutOverlay_hidden v; presetPanel_hidden := h;
     saveDialog_hidden := saveDialog_hidden v; userLibrary_hidden := userLibrary_hidden v;
     toolbar_hidden := toolbar_hidden v;
     chapterSelect_focused := chapterSelect_focused v |}.

Definition with_saveDialog (h : option bool) (v : View) : View :=
  {| shortcutOverlay_hidden := shortcutOverlay_hidden v;
     presetPanel_hidden := presetPanel_hidden v;
     saveDialog_hidden := h; userLibrary_hidden := userLibrary_hidden v;
     toolbar_hidden := toolbar_hidden v;
     chapterSelect_focused := chapterSelect_focused v |}.

Definition with_userLibrary (h : bool) (v : View) : View :=
  {| shortcutOverlay_hidden := shortcutOverlay_hidden v;
     presetPanel_hidden := presetPanel_hidden v;
     saveDialog_hidden := saveDialog_hidden v; userLibrary_hidden := h;
     toolbar_hidden := toolbar_hidden v;
     chapterSelect_focused := chapterSelect_focused v |}.

Definition with_toolbar (h : bool) (v : View) : View :=
  {| shortcutOverlay_hidden := shortcutOverlay_hidden v;
     presetPanel_hidden := presetPanel_hidden v;
     saveDialog_hidden := saveDialog_hidden v; userLibrary_hidden := userLibrary_hidden v;
     toolbar_hidden := h;
     chapterSelect_focused := chapterSelect_focused v |}.

(** ui.js: [toggleVisibility(element, show)], on the element's [hidden]
    class; [show] absent toggles it. *)
Definition toggleVisibility (hidden : bool) (show : option bool) : bool :=
  match show with
  | None => negb hidden
  | Some s => negb s
  end.

(** What a key press asks of the browser and of the window. *)
Inductive Request : Type :=
| PreventDefault
| ToggleFullscreen.

Record Key : Type := {
  key : string;
  cmdOrCtrl : bool
}.

Section WithWorld.

Context {St : Type} (pf : Platform) (be : Backend St).

Definition toggleToolbar (v : View) : View :=
  with_toolbar (negb (toolbar_hidden v)) v.

(** main.js: [openBookFromFile], with the part that hides the library and
    the toolbar once the reader has opened the book. *)
Definition openBookFromFile (filePath : string) (file : option Main.Epub)
    (s : View * World St) : View * World St :=
  (match file with
   | Some _ => with_toolbar true (with_userLibrary true (fst s))
   | None => fst s
   end,
   Main.openBookFromFile pf be filePath file (snd s)).

(** main.js: [closeBook], with the part that shows the library again. *)
Definition closeBook (s : View * World St) : View * World St :=
  (with_toolbar false (with_userLibrary false (fst s)), Main.closeBook (snd s)).

Definition handleKeyboard (e : Key) (s : View * World St)
    : list Request * (View * World St) :=
  let '(v, w) := s in
  if cmdOrCtrl e && String.eqb (key e) "o" then
    (* [openEpubBtn.click()] runs the button's listener *)
    ([PreventDefault], (v, Main.openEpubClick pf w))
  else if cmdOrCtrl e && String.eqb (key e) "p" then
    ([PreventDefault], (with_presetPanel (toggleVisibility (presetPanel_hidden v) (Some true)) v, w))
  else if cmdOrCtrl e && String.eqb (key e) "t" then
    ([PreventDefault], (toggleToolbar v, w))
  else if String.eqb (key e) "?" then
    ([PreventDefault],
     (with_shortcutOverlay (toggleVisibility (shortcutOverlay_hidden v) None) v, w))
  else if String.eqb (key e) "Escape" then
    if negb (shortcutOverlay_hidden v) then
      ([PreventDefault],
       (with_shortcutOverlay (toggleVisibility (shortcutOverlay_hidden v) (Some false)) v, w))
    else if negb (presetPanel_hidden v) then
      match saveDialog_hidden v with
      | Some false =>
          ([PreventDefault],
           (with_saveDialog (Some (toggleVisibility false (Some false))) v, w))
      | _ =>
          ([PreventDefault],
           (with_presetPanel (toggleVisibility (presetPanel_hidden v) (Some false)) v, w))
      end
    else ([PreventDefault], closeBook s)
  else
    let inModal := negb (presetPanel_hidden v) || negb (shortcutOverlay_hidden v) in
    if inModal then ([], s)
    else if String.eqb (key e) "ArrowRight" || String.eqb (key e) "l" then
      ([], (v, with_reader (EpubReader.nextPage (reader w)) w))
    else if String.eqb (key e) "ArrowLeft" || String.eqb (key e) "h" then
      ([], (v, with_reader (EpubReader.prevPage (reader w)) w))
    else if String.eqb (key e) "f" then ([PreventDefault; ToggleFullscreen], s)
    else ([], s).

(** [handleMouseMove], given [e.clientY]. *)
Definition handleMouseMove (clientY : Z) (v : View) : View :=
  let inModal := negb (presetPanel_hidden v) || negb (shortcutOverlay_hidden v) in
  if inModal then v
  else if chapterSelect_focused v then with_toolbar false v
  else if negb (userLibrary_hidden v) then with_toolbar false v
  else if (clientY <? 80)%Z then with_toolbar false v
  else if negb (toolbar_hidden v) then with_toolbar true v
  else v.

End WithWorld.

End Shell.

(** ** main.js: the preset list of the panel *)

Module PresetPanel.

Definition BUILTIN_NAMES : list string :=
  ["Cozy Reading"; "Focus Mode"; "Night Reading"].

(** One entry of the rendered list. *)
Record Item : Type := {
  preset : Preset.t;
  active : bool;
  deletable : bool;               (* it has a delete button *)
  description : string
}.

Definition isBuiltin (p : Preset.t) : bool :=
  Str.includes BUILTIN_NAMES (Preset.name p).

(** [presetManager.getCurrentPreset()?.name === preset.name] *)
Definition isActive (current : option Preset.t) (p : Preset.t) : bool :=
  match current with
  | Some c => String.eqb (Preset.name c) (Preset.name p)
  | None => false
  end.

Definition renderItem (current : option Preset.t) (p : Preset.t) : Item :=
  {| preset := p;
     active := isActive current p;
     deletable := negb (isBuiltin p);
     description :=
       if isBuiltin p then Preset.description p ++ " (Built-in)"
       else Preset.description p |}.

Definition renderPresetList (current : option Preset.t) (presets : list Preset.t)
    : list Item :=
  let userPresets := filter (fun p => negb (isBuiltin p)) presets in
  let builtinPresets := filter isBuiltin presets in
  map (renderItem current) (userPresets ++ builtinPresets).

End PresetPanel.

(** ** library.js: the book grid *)

Module Library.

(** The hue of a placeholder cover: [book.title.length * 10 % 360]. *)
Definition placeholderHue (title : string) : Z :=
  (Z.of_nat (String.length title) * 10) mod 360.

Definition ARROWS : list string :=
  ["ArrowRight"; "ArrowLeft"; "ArrowUp"; "ArrowDown"].

(** What the grid's keydown listener does. *)
Inductive Nav : Type :=
| Ignore                      (* the listener returns at once *)
| Focus (idx : Z)             (* [cards[idx].focus()] *)
| Click (idx : Z).            (* [focused.click()] *)

(** The keydown listener of the grid: [hidden] is the class of the library
    container, [cards] the number of book cards, [idx] the index of the
    focused card among them (-1 when none is), [cols] the number of columns
    of the grid. *)
Definition keyNav (hidden : bool) (cards idx cols : Z) (k : string) : Nav :=
  if hidden then Ignore
  else if (cards =? 0)%Z then Ignore
  else if (idx =? -1)%Z then
    if Str.includes ARROWS k then Focus 0 else Ignore
  else if String.eqb k "ArrowRight" then Focus (Z.min (idx + 1) (cards - 1))
  else if String.eqb k "ArrowLeft" then Focus (Z.max (idx - 1) 0)
  else if String.eqb k "ArrowDown" then Focus (Z.min (idx + cols) (cards - 1))
  else if String.eqb k "ArrowUp" then Focus (Z.max (idx - cols) 0)
  else if String.eqb k "Enter" then Click idx
  else Ignore.

End Library.

(** * Vocabulary of the properties *)

(** What the manager holds is always consistent: no media and no type, or a
    non-empty path with the type its extension gives. *)
Definition media_consistent (b : BackgroundManager.t) : Prop :=
  (BackgroundManager.currentMedia b = Null /\ BackgroundManager.currentType b = None) \/
  exists path type,
    path <> "" /\
    BackgroundManager.currentMedia b = Val path /\
    BackgroundManager._getMediaType path = Some type /\
    BackgroundManager.currentType b = Some type.

(** A preset as a hand-edited or older file may hold it: an overlay, a font,
    a scrollbar track, and [null] for the scrollbar thumb. *)
Definition half_preset (name : string) : Preset.t :=
  {| Preset.version := "2.0";
     Preset.name := name;
     Preset.author := "User";
     Preset.description := "";
     Preset.background := None;
     Preset.overlay :=
       Some {| Preset.ov_color := Val "#112233"; Preset.ov_opacity := Val (ratio 1 2) |};
     Preset.reader :=
       Some {| Preset.rd_opacity := Undefined;
               Preset.rd_backgroundColor := Undefined;
               Preset.rd_textColor := Undefined;
               Preset.rd_fontFamily := Val "monospace";
               Preset.rd_fontSize := Undefined;
               Preset.rd_readingMode := Undefined;
               Preset.rd_glassmorphism := Undefined;
               Preset.rd_glassBlur := Undefined;
               Preset.rd_scrollbarTrack := Val "#101010";
               Preset.rd_scrollbarThumb := Null |} |}.

(** A store holding the presets [l] and nothing else. *)
Definition store_with (l : list Preset.t) : MemoryBackend.Store :=
  MemoryBackend.with_presets l MemoryBackend.empty.

(** The appearance fields of the reader. *)
Record Appearance : Type := {
  a_opacity : JsNum;
  a_backgroundColor : Js string;
  a_textColor : Js string;
  a_fontFamily : Js string;
  a_fontSize : JsNum;
  a_flow : Js string;
  a_glassmorphism : Js bool;
  a_blur : JsNum;
  a_scrollbarTrack : Js string;
  a_scrollbarThumb : Js string
}.

(** The appearance the reader currently has. *)
Definition appearance (r : EpubReader.t) : Appearance :=
  {| a_opacity := EpubReader.opacity r;
     a_backgroundColor := EpubReader.backgroundColor r;
     a_textColor := EpubReader.textColor r;
     a_fontFamily := EpubReader.fontFamily r;
     a_fontSize := EpubReader.fontSize r;
     a_flow := EpubReader.flow r;
     a_glassmorphism := EpubReader.glassmorphism r;
     a_blur := EpubReader.blur r;
     a_scrollbarTrack := EpubReader.scrollbarTrack r;
     a_scrollbarThumb := EpubReader.scrollbarThumb r |}.

(** What a preset built by [buildPresetFromCurrent] makes of the reader:
    every field comes from the preferences, through the default of the
    capture and the clamp of the setter. *)
Definition appearance_of_prefs (p : Prefs.t) : Appearance :=
  {| a_opacity :=
       clamp 0 1 (js_div (js_nullish (Prefs.containerOpacity p) (num 95)) (num 100));
     a_backgroundColor := Val (js_or (Prefs.containerColor p) "#FFFFFF");
     a_textColor := Val (js_or (Prefs.textColor p) "#1a1a1a");
     a_fontFamily := Val (js_or (Prefs.fontFamily p) "serif");
     a_fontSize := clamp 12 32 (js_or (Prefs.fontSize p) (num 18));
     a_flow := Val (js_or (Prefs.readingMode p) "paginated");
     a_glassmorphism := Val (js_or (Prefs.glassmorphism p) false);
     a_blur := clamp 0 40 (js_nullish (Prefs.glassBlur p) (num 12));
     a_scrollbarTrack := Val (js_or (Prefs.scrollbarTrack p) "#1a1a1a");
     a_scrollbarThumb := Val (js_or (Prefs.scrollbarThumb p) "#4a9eff") |}.

(** One field of an appearance replaced. *)
Definition put_opacity (v : JsNum) (a : Appearance) : Appearance :=
  {| a_opacity := v;
     a_backgroundColor := a_backgroundColor a;
     a_textColor := a_textColor a;
     a_fontFamily := a_fontFamily a;
     a_fontSize := a_fontSize a;
     a_flow := a_flow a;
     a_glassmorphism := a_glassmorphism a;
     a_blur := a_blur a;
     a_scrollbarTrack := a_scrollbarTrack a;
     a_scrollbarThumb := a_scrollbarThumb a |}.

Definition put_backgroundColor (v : Js string) (a : Appearance) : Appearance :=
  {| a_opacity := a_opacity a;
     a_backgroundColor := v;
     a_textColor := a_textColor a;
     a_fontFamily := a_fontFamily a;
     a_fontSize := a_fontSize a;
     a_flow := a_flow a;
     a_glassmorphism := a_glassmorphism a;
     a_blur := a_blur a;
     a_scrollbarTrack := a_scrollbarTrack a;
     a_scrollbarThumb := a_scrollbarThumb a |}.

Definition put_textColor (v : Js string) (a : Appearance) : Appearance :=
  {| a_opacity := a_opacity a;
     a_backgroundColor := a_backgroundColor a;
     a_textColor := v;
     a_fontFamily := a_fontFamily a;
     a_fontSize := a_fontSize a;
     a_flow := a_flow a;
     a_glassmorphism := a_glassmorphism a;
     a_blur := a_blur a;
     a_scrollbarTrack := a_scrollbarTrack a;
     a_scrollbarThumb := a_scrollbarThumb a |}.

Definition put_fontFamily (v : Js string) (a : Appearance) : Appearance :=
  {| a_opacity := a_opacity a;
     a_backgroundColor := a_backgroundColor a;
     a_textColor := a_textColor a;
     a_fontFamily := v;
     a_fontSize := a_fontSize a;
     a_flow := a_flow a;
     a_glassmorphism := a_glassmorphism a;
     a_blur := a_blur a;
     a_scrollbarTrack := a_scrollbarTrack a;
     a_scrollbarThumb := a_scrollbarThumb a |}.

Definition put_fontSize (v : JsNum) (a : Appearance) : Appearance :=
  {| a_opacity := a_opacity a;
     a_backgroundColor := a_backgroundColor a;
     a_textColor := a_textColor a;
     a_fontFamily := a_fontFamily a;
     a_fontSize := v;
     a_flow := a_flow a;
     a_glassmorphism := a_glassmorphism a;
     a_blur := a_blur a;
     a_scrollbarTrack := a_scrollbarTrack a;
     a_scrollbarThumb := a_scrollbarThumb a |}.

Definition put_flow (v : Js string) (a : Appearance) : Appearance :=
  {| a_opacity := a_opacity a;
     a_backgroundColor := a_backgroundColor a;
     a_textColor := a_textColor a;
     a_fontFamily := a_fontFamily a;
     a_fontSize := a_fontSize a;
     a_flow := v;
     a_glassmorphism := a_glassmorphism a;
     a_blur := a_blur a;
     a_scrollbarTrack := a_scrollbarTrack a;
     a_scrollbarThumb := a_scrollbarThumb a |}.

Definition put_glassmorphism (v : Js bool) (a : Appearance) : Appearance :=
  {| a_opacity := a_opacity a;
     a_backgroundColor := a_backgroundColor a;
     a_textColor := a_textColor a;
     a_fontFamily := a_fontFamily a;
     a_fontSize := a_fontSize a;
     a_flow := a_flow a;
     a_glassmorphism := v;
     a_blur := a_blur a;
     a_scrollbarTrack := a_scrollbarTrack a;
     a_scrollbarThumb := a_scrollbarThumb a |}.

Definition put_blur (v : JsNum) (a : Appearance) : Appearance :=
  {| a_opacity := a_opacity a;
     a_backgroundColor := a_backgroundColor a;
     a_textColor := a_textColor a;
     a_fontFamily := a_fontFamily a;
     a_fontSize := a_fontSize a;
     a_flow := a_flow a;
     a_glassmorphism := a_glassmorphism a;
     a_blur := v;
     a_scrollbarTrack := a_scrollbarTrack a;
     a_scrollbarThumb := a_scrollbarThumb a |}.

Definition put_scrollbarTrack (v : Js string) (a : Appearance) : Appearance :=
  {| a_opacity := a_opacity a;
     a_backgroundColor := a_backgroundColor a;
     a_textColor := a_textColor a;
     a_fontFamily := a_fontFamily a;
     a_fontSize := a_fontSize a;
     a_flow := a_flow a;
     a_glassmorphism := a_glassmorphism a;
     a_blur := a_blur a;
     a_scrollbarTrack := v;
     a_scrollbarThumb := a_scrollbarThumb a |}.

Definition put_scrollbarThumb (v : Js string) (a : Appearance) : Appearance :=
  {| a_opacity := a_opacity a;
     a_backgroundColor := a_backgroundColor a;
     a_textColor := a_textColor a;
     a_fontFamily := a_fontFamily a;
     a_fontSize := a_fontSize a;
     a_flow := a_flow a;
     a_glassmorphism := a_glassmorphism a;
     a_blur := a_blur a;
     a_scrollbarTrack := a_scrollbarTrack a;
     a_scrollbarThumb := v |}.

(** [updateContainerStyle] can run (the background colour is a string) and
    the font size is one [setFontSize] has stored: [setFlow] stores it again
    when a document is open. *)
Definition ready (r : EpubReader.t) : Prop :=
  (exists s, EpubReader.backgroundColor r = Val s) /\
  clamp 12 32 (EpubReader.fontSize r) = EpubReader.fontSize r.

(** A reader method that completes on a ready reader and changes the
    appearance by [g]. *)
Definition sets (f : EpubReader.t -> Res EpubReader.t)
    (g : Appearance -> Appearance) : Prop :=
  forall r, ready r ->
    exists r', f r = Ok r' /\ appearance r' = g (appearance r) /\ ready r'.

(** What the [else] branch of [init] makes of the reader: the font family
    and size go in as stored, the other fields through the same defaults the
    capture uses. *)
Definition appearance_applied (p : Prefs.t) : Appearance :=
  {| a_opacity :=
       clamp 0 1 (js_div (js_nullish (Prefs.containerOpacity p) (num 95)) (num 100));
     a_backgroundColor := Val (js_or (Prefs.containerColor p) "#FFFFFF");
     a_textColor := Val (js_or (Prefs.textColor p) "#1a1a1a");
     a_fontFamily := Prefs.fontFamily p;
     a_fontSize := clamp 12 32 (ToNumber (Prefs.fontSize p));
     a_flow := Val (js_or (Prefs.readingMode p) "paginated");
     a_glassmorphism := Val (js_or (Prefs.glassmorphism p) false);
     a_blur := clamp 0 40 (js_nullish (Prefs.glassBlur p) (num 12));
     a_scrollbarTrack := Val (js_or (Prefs.scrollbarTrack p) "#1a1a1a");
     a_scrollbarThumb := Val (js_or (Prefs.scrollbarThumb p) "#4a9eff") |}.

(** A store as a previous session leaves it: preferences, and a
    _last_session preset next to a user preset. *)
Definition store_after_session (session : Preset.t) : MemoryBackend.Store :=
  {| MemoryBackend.stored_presets := [half_preset "Nook"; session];
     MemoryBackend.stored_prefs := Some Prefs.defaults;
     MemoryBackend.stored_progress := [];
     MemoryBackend.stored_books := [];
     MemoryBackend.app_dir := "/data" |}.

(** The music keys of the preferences. *)
Definition music_prefs (p : Prefs.t) : Js string * Js JsNum * Js bool :=
  (Prefs.bgMusicPath p, Prefs.bgMusicVolume p, Prefs.bgMusicMuted p).

(** The times of a sequence of events are in order. *)
Fixpoint nondecreasing (times : list nat) : Prop :=
  match times with
  | t :: (t' :: _) as rest => (t <= t')%nat /\ nondecreasing rest
  | _ => True
  end.


(** The location of an event whose position is the CFI [c]. *)
Definition at_cfi (c : string) : Js Location :=
  Val {| start := Val {| cfi := c |} |}.

(** The fraction the timer callback computes for a CFI. *)
Definition progress_of (b : EpubReader.Book) (c : string) : JsNum :=
  js_or (Val (match EpubReader.percentageFromCfi b with
              | Some f => f c
              | None => num 0
              end)) (num 0).

(** A book whose locations table puts one position at 30% and the others
    at 10%, and a second book. *)
Definition walden : Main.Epub :=
  {| Main.epub_book :=
       {| EpubReader.percentageFromCfi :=
            Some (fun c => if String.eqb c "epubcfi(/6/8)" then ratio 3 10 else ratio 1 10) |};
     Main.epub_title := "Walden";
     Main.epub_author := "Henry David Thoreau";
     Main.epub_cover := Null;
     Main.epub_start := Val "epubcfi(/6/2)";
     Main.epub_resolves := fun _ => true |}.

Definition emma : Main.Epub :=
  {| Main.epub_book := {| EpubReader.percentageFromCfi := Some (fun _ => ratio 1 2) |};
     Main.epub_title := "Emma";
     Main.epub_author := "Jane Austen";
     Main.epub_cover := Null;
     Main.epub_start := Val "epubcfi(/6/2)";
     Main.epub_resolves := fun _ => true |}.

(** A book open and tracked: the desktop application after
    [openBookFromFile] on a file it can read. *)
Definition reading (st : MemoryBackend.Store) : World MemoryBackend.Store :=
  Main.openBookFromFile MemoryBackend.desktop MemoryBackend.backend
    "/books/walden.epub" (Some walden) (Main.initial st).

(** The [relocated] events of a run of the event loop, with their times. *)
Definition events_of (trace : list (nat * Main.Tick)) : list (nat * Js Location) :=
  flat_map (fun e => match snd e with
                     | Main.Relocated loc => [(fst e, loc)]
                     | Main.Timeout _ => []
                     end) trace.

(** The run in which these events arrive and no timer callback runs. *)
Definition relocations (events : list (nat * Js Location)) : list (nat * Main.Tick) :=
  map (fun e => (fst e, Main.Relocated (snd e))) events.

(** The run in which each event (a time, a position, and how late the
    browser is with the timer) is followed by the callback of the timer it
    armed, before the next event arrives; [id] is the timer of the first. *)
Fixpoint prompt (id : nat) (events : list (nat * string * nat)) : list (nat * Main.Tick) :=
  match events with
  | [] => []
  | (t, c, late) :: rest =>
      (t, Main.Relocated (at_cfi c))
      :: ((t + 2000 + late)%nat, Main.Timeout id)
      :: prompt (S id) rest
  end.

Section Vocabulary.

Context {St : Type} (pf : Platform) (be : Backend St).

(** What applying settings never writes: the preset cache, the current
    preset, the preferences, the backend's store, the toasts and the
    variables of the progress handler. *)
Definition kept (w w' : World St) : Prop :=
  presets w' = presets w /\
  currentPreset w' = currentPreset w /\
  currentPrefs w' = currentPrefs w /\
  store w' = store w /\
  toasts w' = toasts w /\
  currentBookId w' = currentBookId w /\
  saveTimeout w' = saveTimeout w /\
  timers w' = timers w /\
  nextTimerId w' = nextTimerId w.

(** A step that, completed or not, leaves all of that alone. *)
Definition keeps (k : World St -> Res (World St)) : Prop :=
  forall w, kept w (state_of (k w)).

(** The name is in neither the cache nor, on the desktop, the backend. *)
Definition unknown (presetName : string) (w : World St) : Prop :=
  PresetManager.find_preset presetName (presets w) = None /\
  (isTauri pf = false \/ load_preset be presetName (store w) = None).

(** The preset [applyPreset] gets hold of and the state once it has it:
    the cached one of that name, else, on the desktop, the one the backend
    loads. *)
Definition found (presetName : string) (w : World St) : option (Preset.t * World St) :=
  match PresetManager.find_preset presetName (presets w) with
  | Some preset => Some (preset, w)
  | None =>
      if isTauri pf then
        match load_preset be presetName (store w) with
        | Some preset => Some (preset, logged (Inv_load_preset presetName) w)
        | None => None
        end
      else None
  end.

(** A setter throws while the preset of that name is applied; [thrown] is
    the state at the throw. *)
Definition setter_throws (presetName : string) (w thrown : World St) : Prop :=
  exists preset w0,
    found presetName w = Some (preset, w0) /\
    PresetManager.apply_settings pf be preset w0 = Throw thrown.

(** The presets of [names] that the backend hands out, in order. *)
Definition loaded_from (st : St) (names : list string) : list Preset.t :=
  flat_map (fun n => match load_preset be n st with Some p => [p] | None => [] end) names.

(** A step on the whole state that completes on a ready reader, changes its
    appearance by [g] and touches neither the background nor the overlay. *)
Definition wsets (k : World St -> Res (World St)) (g : Appearance -> Appearance) : Prop :=
  forall w, ready (reader w) ->
    exists w', k w = Ok w' /\
      appearance (reader w') = g (appearance (reader w)) /\
      ready (reader w') /\
      bgManager w' = bgManager w /\ overlayManager w' = overlayManager w.

(** Capture under [name], then apply [name], with nothing persisted: the
    captured preset sits at the head of the cached list, where [applyPreset]
    looks first. *)
Definition capture_then_apply (name : string) (w : World St) : bool * World St :=
  let preset := PresetManager.buildPresetFromCurrent name (currentPrefs w) w in
  PresetManager.applyPreset pf be name (with_presets (preset :: presets w) w).

(** The overlay shows a tint: a colour, and an opacity in its range. *)
Definition overlay_tinted (o : OverlayManager.t) : Prop :=
  exists (s : string) (q : Qc),
    OverlayManager.currentColor o = Val s /\ s <> "" /\
    OverlayManager.currentOpacity o = Num q /\ (0 <= q <= 1)%Qc.

(** The reader shows what the preferences hold. *)
Definition reader_in_sync (w : World St) : Prop :=
  appearance (reader w) = appearance_of_prefs (currentPrefs w).

(** The state with exactly one timer pending: the one [saveTimeout] names,
    armed by the event at [t] with location [l]. *)
Definition armed (w : World St) (t : nat) (l : Js Location) (id next : nat) : World St :=
  with_saveTimeout (Some id)
    (with_nextTimerId next
       (with_timers [{| timer_id := id; deadline := (t + 2000)%nat; location := l |}] w)).

End Vocabulary.

(** * Further vocabulary *)

(** A number a clamp to [lo, hi] can have stored: NaN (which the clamp lets
    through) or a value in the range. *)
Definition in_range (lo hi : Z) (x : JsNum) : Prop :=
  x = NaN \/
  exists q : Qc, x = Num q /\ (Q2Qc (inject_Z lo) <= q <= Q2Qc (inject_Z hi))%Qc.

(** The value [setTint] assigns to the element for a colour and an
    opacity. *)
Definition tint_paint (color : string) (opacity : JsNum) : CssBackground :=
  let '(r, g, b) := hex_channels color in CssRgba r g b opacity.

(** The paint on the overlay element is the one the stored tint stands for,
    whenever the stored tint stands for one. *)
Definition overlay_consistent (o : OverlayManager.t) : Prop :=
  in_range 0 1 (OverlayManager.currentOpacity o) /\
  match OverlayManager.currentColor o with
  | Val s =>
      s <> "" /\
      (css_valid (tint_paint s (OverlayManager.currentOpacity o)) = true ->
       OverlayManager.background o = tint_paint s (OverlayManager.currentOpacity o))
  | Null =>
      OverlayManager.currentOpacity o = num 0 /\
      (OverlayManager.background o = CssTransparent \/
       OverlayManager.background o = CssUnset)
  | Undefined => False
  end.

(** A colour written as # and six hexadecimal digits. *)
Definition hex6 (c1 c2 c3 c4 c5 c6 : ascii) : string :=
  String "#" (String c1 (String c2 (String c3 (String c4 (String c5 (String c6 ""))))))%char.

(** The two background elements show what the manager holds, and nothing
    else: no media, and both elements are hidden, stopped and without a
    source; an image, and the video element is hidden, stopped and without a
    source; a video, and the image element is hidden and without a source
    and the video element carries the manager's mute flag. *)
Definition layers_consistent (pf : Platform) (b : BackgroundManager.t) : Prop :=
  match BackgroundManager.currentMedia b, BackgroundManager.currentType b with
  | Null, None =>
      BackgroundManager.bgImage_active b = false /\
      BackgroundManager.bgImage_src b = "" /\
      BackgroundManager.bgVideo_active b = false /\
      BackgroundManager.bgVideo_playing b = false /\
      BackgroundManager.bgVideo_src b = ""
  | Val path, Some BackgroundManager.image =>
      BackgroundManager.bgImage_active b = true /\
      BackgroundManager.bgImage_src b = BackgroundManager._toAssetUrl pf path /\
      BackgroundManager.bgVideo_active b = false /\
      BackgroundManager.bgVideo_playing b = false /\
      BackgroundManager.bgVideo_src b = ""
  | Val path, Some BackgroundManager.video =>
      BackgroundManager.bgVideo_active b = true /\
      BackgroundManager.bgVideo_src b = BackgroundManager._toAssetUrl pf path /\
      BackgroundManager.bgVideo_muted b = BackgroundManager.muted b /\
      BackgroundManager.bgImage_active b = false /\
      BackgroundManager.bgImage_src b = ""
  | _, _ => False
  end.

(** The audio element plays what the manager holds: without a track it has
    no source and is not playing; with one, its source is the track's URL and
    its mute flag the manager's.  Its volume is a number in 0..1 and it
    loops. *)
Definition audio_consistent (pf : Platform) (b : BackgroundManager.t) : Prop :=
  match BackgroundManager.musicPath b with
  | Val path =>
      path <> "" /\
      BackgroundManager.bgAudio_src b = BackgroundManager._toAssetUrl pf path /\
      BackgroundManager.bgAudio_muted b = BackgroundManager.musicMuted b
  | Null =>
      BackgroundManager.bgAudio_src b = "" /\
      BackgroundManager.bgAudio_playing b = false
  | Undefined => False
  end /\
  (exists q : Qc,
     BackgroundManager.bgAudio_volume b = Num q /\ (0 <= q <= 1)%Qc) /\
  BackgroundManager.bgAudio_loop b = true.

(** States the reader can be in: the constructor's, then any sequence of
    calls of its methods, whether they complete or throw. *)
Inductive reader_reachable : EpubReader.t -> Prop :=
| reader_new : reader_reachable EpubReader.constructor
| reader_setFlow r f :
    reader_reachable r -> reader_reachable (state_of (EpubReader.setFlow f r))
| reader_openBook r b start :
    reader_reachable r -> reader_reachable (EpubReader.openBook b start r)
| reader_nextPage r : reader_reachable r -> reader_reachable (EpubReader.nextPage r)
| reader_prevPage r : reader_reachable r -> reader_reachable (EpubReader.prevPage r)
| reader_display r target :
    reader_reachable r -> reader_reachable (EpubReader.display target r)
| reader_setOpacity r o :
    reader_reachable r -> reader_reachable (state_of (EpubReader.setOpacity o r))
| reader_setBackgroundColor r c :
    reader_reachable r -> reader_reachable (state_of (EpubReader.setBackgroundColor c r))
| reader_setTextColor r c :
    reader_reachable r -> reader_reachable (EpubReader.setTextColor c r)
| reader_setGlassmorphism r g :
    reader_reachable r -> reader_reachable (state_of (EpubReader.setGlassmorphism g r))
| reader_setBlur r px :
    reader_reachable r -> reader_reachable (state_of (EpubReader.setBlur px r))
| reader_setScrollbarColors r track thumb :
    reader_reachable r ->
    reader_reachable (state_of (EpubReader.setScrollbarColors track thumb r))
| reader_setFontFamily r f :
    reader_reachable r -> reader_reachable (EpubReader.setFontFamily f r)
| reader_setFontSize r n :
    reader_reachable r -> reader_reachable (EpubReader.setFontSize n r)
| reader_destroy r : reader_reachable r -> reader_reachable (EpubReader.destroy r).

(** What the reader's fields always satisfy: the three clamped numbers are
    in their ranges (or NaN), a rendition exists only for an open book, and
    the scrollbar colours are never [undefined]. *)
Definition reader_consistent (r : EpubReader.t) : Prop :=
  in_range 0 1 (EpubReader.opacity r) /\
  in_range 12 32 (EpubReader.fontSize r) /\
  in_range 0 40 (EpubReader.blur r) /\
  (EpubReader.rendition r <> None -> EpubReader.book r <> None) /\
  EpubReader.scrollbarTrack r <> Undefined /\
  EpubReader.scrollbarThumb r <> Undefined.

(** The calls that style the text of a rendition with the reader's font. *)
Definition is_font_call (c : EpubReader.Call) : bool :=
  match c with
  | EpubReader.ThemesFontSize _ => true
  | EpubReader.ThemesOverride name _ => String.eqb name "font-family"
  | EpubReader.ThemesOverrideInherited name _ => String.eqb name "font-family"
  | _ => false
  end.

Section Frames.

Context {St : Type}.

(** A step that, completed or not, leaves the part [part] of the state
    alone. *)
Definition preserves {A : Type} (part : World St -> A)
    (k : World St -> Res (World St)) : Prop :=
  forall w, part (state_of (k w)) = part w.

(** Neither the backend's store nor the commands sent to it have changed. *)
Definition nothing_persisted (w w' : World St) : Prop :=
  store w' = store w /\ invoked w' = invoked w.

(** The three state holders, the preferences and the current preset are
    what they were. *)
Definition holders_untouched (w w' : World St) : Prop :=
  reader w' = reader w /\ bgManager w' = bgManager w /\
  overlayManager w' = overlayManager w /\
  currentPrefs w' = currentPrefs w /\ currentPreset w' = currentPreset w.

End Frames.

Section Outcome.

Context {St : Type} (pf : Platform) (be : Backend St).

(** The background group makes [applyPreset] ask the backend for the
    application directory: type image with a path, on the desktop. *)
Definition needs_app_dir (b : Preset.Background) : bool :=
  negb (js_is (Preset.bg_type b) "media" && is_truthy (Preset.bg_path b)) &&
  (js_is (Preset.bg_type b) "image" && is_truthy (Preset.bg_path b)) &&
  isTauri pf.

(** The background group of the preset can be applied: it does not need
    the application directory, or the backend hands it out. *)
Definition background_applies (preset : Preset.t) (w : World St) : bool :=
  match Preset.background preset with
  | Some b =>
      if needs_app_dir b
      then match get_app_dir be (store w) with Some _ => true | None => false end
      else true
  | None => true
  end.

(** The scrollbar colours of the preset can be applied: the reader group
    sets none, or the thumb colour the reader then holds (the preset's unless
    it is [undefined]) is a string. *)
Definition scrollbars_apply (preset : Preset.t) (r : EpubReader.t) : bool :=
  match Preset.reader preset with
  | Some rd =>
      if is_truthy (Preset.rd_scrollbarTrack rd) || is_truthy (Preset.rd_scrollbarThumb rd)
      then
        match (if is_defined (Preset.rd_scrollbarThumb rd)
               then Preset.rd_scrollbarThumb rd
               else EpubReader.scrollbarThumb r) with
        | Val _ => true
        | _ => false
        end
      else true
  | None => true
  end.

(** A step that completes on a ready reader and leaves it ready, with the
    scrollbar thumb it had. *)
Definition steady (k : World St -> Res (World St)) : Prop :=
  forall w, ready (reader w) ->
    exists w', k w = Ok w' /\ ready (reader w') /\
      EpubReader.scrollbarThumb (reader w') = EpubReader.scrollbarThumb (reader w).

End Outcome.

(** Preferences in which every appearance key holds a usable value, the
    container opacity a whole number of percent from 0 to 100. *)
Definition prefs_complete (p : Prefs.t) : Prop :=
  is_truthy (Prefs.fontFamily p) = true /\
  is_truthy (Prefs.fontSize p) = true /\
  is_truthy (Prefs.readingMode p) = true /\
  is_truthy (Prefs.textColor p) = true /\
  is_truthy (Prefs.containerColor p) = true /\
  (exists z : Z, (0 <= z <= 100)%Z /\ Prefs.containerOpacity p = Val (num z)) /\
  (exists g : bool, Prefs.glassmorphism p = Val g) /\
  (exists x : JsNum, Prefs.glassBlur p = Val x) /\
  is_truthy (Prefs.scrollbarTrack p) = true /\
  is_truthy (Prefs.scrollbarThumb p) = true.

(** The write the timer callback makes for the position [c] of the book
    [b] tracked as [bookId]. *)
Definition progress_write (bookId : Js string) (b : EpubReader.Book) (c : string)
    : Invocation :=
  Inv_update_progress bookId (progress_of b c) c.

(** The values a control of the panel can deliver: the mode and font
    buttons carry a name, the colour inputs a colour. *)
Definition valid_control (c : Settings.Control) : Prop :=
  match c with
  | Settings.ModeOption s | Settings.FontOption s | Settings.TextColorInput s
  | Settings.ContainerColorInput s | Settings.ScrollbarTrackInput s
  | Settings.ScrollbarThumbInput s => s <> ""
  | _ => True
  end.

(** The font size of the preferences is a whole number the stepper can have
    produced. *)
Definition font_pref_in_range {St : Type} (w : World St) : Prop :=
  exists z : Z, Prefs.fontSize (currentPrefs w) = Val (num z) /\ (12 <= z <= 32)%Z.

(** The state has an answer of the desktop backend as its last command:
    the preferences were sent to be stored as they now are. *)
Definition preferences_saved {St : Type} (pf : Platform) (w : World St) : Prop :=
  main_isTauri pf = true ->
  last (invoked w) Inv_list_presets = Inv_set_preferences (currentPrefs w).

(** A modal layer is showing: the shortcut overlay or the settings panel. *)
Definition in_modal (v : Shell.View) : bool :=
  negb (Shell.presetPanel_hidden v) || negb (Shell.shortcutOverlay_hidden v).


(** The Escape key, with or without a modifier. *)
Definition escape (modifier : bool) : Shell.Key :=
  {| Shell.key := "Escape"; Shell.cmdOrCtrl := modifier |}.

(** No built-in entry comes before an entry of the user. *)
Fixpoint users_first (items : list PresetPanel.Item) : Prop :=
  match items with
  | [] => True
  | i :: rest =>
      (PresetPanel.deletable i = false ->
       Forall (fun j => PresetPanel.deletable j = false) rest) /\
      users_first rest
  end.

(** The background manager plays the music the preferences name, at the
    preferred volume (a whole number of percent in 0..100, 50 when absent)
    and with the preferred mute flag (muted when absent). *)
Definition music_agrees {St : Type} (w : World St) : Prop :=
  BackgroundManager.getCurrentMusic (bgManager w)
  = {| BackgroundManager.music_path := js_or_null (Prefs.bgMusicPath (currentPrefs w));
       BackgroundManager.music_volume :=
         js_nullish (Prefs.bgMusicVolume (currentPrefs w)) (num 50);
       BackgroundManager.music_muted :=
         js_nullish (Prefs.bgMusicMuted (currentPrefs w)) true |} /\
  exists v : Z,
    js_nullish (Prefs.bgMusicVolume (currentPrefs w)) (num 50) = num v /\
    (0 <= v <= 100)%Z.

(** * Properties *)

(** ** Numbers *)

Lemma Qle_bool_false (x y : Q) : Qle_bool x y = false -> (y < x)%Q.
Proof.
  intros H. apply Qnot_le_lt. intros Hle.
  apply Qle_bool_iff in Hle. congruence.
Qed.

(** What [Math.max(lo, Math.min(hi, x))] returns on a finite [x]. *)
Lemma clamp_Num (lo hi : Z) (q : Qc) :
  (lo <= hi)%Z ->
  exists r : Qc,
    clamp lo hi (Num q) = Num r /\
    (Q2Qc (inject_Z lo) <= r <= Q2Qc (inject_Z hi))%Qc /\
    ((Q2Qc (inject_Z lo) <= q <= Q2Qc (inject_Z hi))%Qc -> r = q) /\
    ((q < Q2Qc (inject_Z lo))%Qc -> r = Q2Qc (inject_Z lo)) /\
    ((Q2Qc (inject_Z hi) < q)%Qc -> r = Q2Qc (inject_Z hi)).
Proof.
  intros Hlh.
  assert (Hlh' : (Q2Qc (inject_Z lo) <= Q2Qc (inject_Z hi))%Qc).
  { unfold Qcle. cbn [this Q2Qc]. rewrite !Qred_correct.
    rewrite <- Zle_Qle. exact Hlh. }
  unfold clamp, Math_min, Math_max, num.
  destruct (Qle_bool q (Q2Qc (inject_Z hi))) eqn:Hhi.
  - apply Qle_bool_iff in Hhi.
    destruct (Qle_bool (Q2Qc (inject_Z lo)) q) eqn:Hlo.
    + apply Qle_bool_iff in Hlo. exists q. repeat split; auto.
      * intros Hlt. exfalso. exact (Qcle_not_lt _ _ Hlo Hlt).
      * intros Hlt. exfalso. exact (Qcle_not_lt _ _ Hhi Hlt).
    + apply Qle_bool_false in Hlo. exists (Q2Qc (inject_Z lo)).
      repeat split; auto.
      * apply Qcle_refl.
      * intros [Hle _]. exfalso. exact (Qcle_not_lt _ _ Hle Hlo).
      * intros Hlt. exfalso.
        exact (Qcle_not_lt _ _ Hhi Hlt).
  - apply Qle_bool_false in Hhi.
    destruct (Qle_bool (Q2Qc (inject_Z lo)) (Q2Qc (inject_Z hi))) eqn:Hlo.
    + exists (Q2Qc (inject_Z hi)). repeat split; auto.
      * apply Qcle_refl.
      * intros [_ Hle]. exfalso. exact (Qcle_not_lt _ _ Hle Hhi).
      * intros Hlt. exfalso.
        apply (Qcle_not_lt _ _ Hlh'). eapply Qclt_trans; eassumption.
    + exfalso. apply Qle_bool_false in Hlo. exact (Qcle_not_lt _ _ Hlh' Hlo).
Qed.

(** A value already in range is left as it is. *)
Lemma clamp_in_range (lo hi : Z) (q : Qc) :
  (Q2Qc (inject_Z lo) <= q <= Q2Qc (inject_Z hi))%Qc ->
  clamp lo hi (Num q) = Num q.
Proof.
  intros [Hlo Hhi]. unfold clamp, Math_min, Math_max, num.
  apply Qle_bool_iff in Hlo. apply Qle_bool_iff in Hhi.
  rewrite Hhi, Hlo. reflexivity.
Qed.

Lemma clamp_idempotent (lo hi : Z) (x : JsNum) :
  (lo <= hi)%Z -> clamp lo hi (clamp lo hi x) = clamp lo hi x.
Proof.
  intros Hlh. destruct x as [|q]; [reflexivity|].
  destruct (clamp_Num lo hi q Hlh) as (r & -> & Hr & _).
  apply clamp_in_range. exact Hr.
Qed.

(** ** OverlayManager *)

Lemma truthy_string_nonempty (s : string) : s <> "" -> truthy s = true.
Proof.
  intros H. unfold truthy, truthy_string.
  destruct (String.eqb_spec s ""); [contradiction | reflexivity].
Qed.

Lemma truthy_string_inv (s : string) : truthy s = true -> s <> "".
Proof.
  unfold truthy, truthy_string. intros H ->. discriminate.
Qed.

(** C6.  For every non-empty colour string and every finite opacity,
    [setTint] completes without an error and [getCurrentTint] then returns
    that very colour with the opacity clamped into [0,1]: the opacity itself
    when it lies in the range, 0 below it and 1 above it. *)
Theorem setTint_then_getCurrentTint
    (o : OverlayManager.t) (color : string) (q : Qc) :
  color <> "" ->
  exists (o' : OverlayManager.t) (r : Qc),
    OverlayManager.setTint (Val color) (Val (Num q)) o = Ok o' /\
    OverlayManager.getCurrentTint o' = (Val color, Num r) /\
    (0 <= r <= 1)%Qc /\
    ((0 <= q <= 1)%Qc -> r = q) /\
    ((q < 0)%Qc -> r = 0%Qc) /\
    ((1 < q)%Qc -> r = 1%Qc).
Proof.
  intros Hne.
  destruct (clamp_Num 0 1 q ltac:(lia)) as (r & Hr & Hrange & Hin & Hlo & Hhi).
  unfold OverlayManager.setTint. cbn [is_truthy ToNumber].
  rewrite (truthy_string_nonempty color Hne). cbn [negb].
  change (Math_max (num 0) (Math_min (num 1) (Num q))) with (clamp 0 1 (Num q)).
  rewrite Hr. cbn [OverlayManager.hexToRgba].
  destruct (hex_channels color) as [[cr cg] cb].
  eexists. exists r. split; [reflexivity|].
  split; [reflexivity|]. auto.
Qed.

Lemma setTint_then_getCurrentTint_witness :
  exists (o' : OverlayManager.t) (r : Qc),
    OverlayManager.setTint (Val "#1a1a2e") (Val (Num (Q2Qc (3 # 2))))
      OverlayManager.constructor = Ok o' /\
    OverlayManager.getCurrentTint o' = (Val "#1a1a2e", Num r) /\
    (0 <= r <= 1)%Qc /\
    ((0 <= Q2Qc (3 # 2) <= 1)%Qc -> r = Q2Qc (3 # 2)) /\
    ((Q2Qc (3 # 2) < 0)%Qc -> r = 0%Qc) /\
    ((1 < Q2Qc (3 # 2))%Qc -> r = 1%Qc).
Proof.
  apply (setTint_then_getCurrentTint OverlayManager.constructor "#1a1a2e" (Q2Qc (3 # 2))).
  discriminate.
Defined.

(** A colour that is set is stored as given. *)
Lemma setTint_stores_color (o : OverlayManager.t) (color : Js string) (opacity : Js JsNum) :
  is_truthy color = true ->
  exists o', OverlayManager.setTint color opacity o = Ok o' /\
             OverlayManager.currentColor o' = color.
Proof.
  intros H. unfold OverlayManager.setTint. rewrite H. cbn [negb].
  destruct color as [| |c]; try discriminate. cbn [OverlayManager.hexToRgba].
  destruct (hex_channels c) as [[cr cg] cb]. eexists. split; reflexivity.
Qed.

(** In every state the manager can reach, a colour of [null] comes with an
    opacity of 0, and a colour that is set is a non-empty string. *)
Lemma overlay_reachable_invariant (o : OverlayManager.t) :
  OverlayManager.reachable o ->
  (OverlayManager.currentColor o = Null /\ OverlayManager.currentOpacity o = num 0) \/
  is_truthy (OverlayManager.currentColor o) = true.
Proof.
  induction 1 as [|o _ _|o color opacity _ IH].
  - left. split; reflexivity.
  - left. split; reflexivity.
  - destruct (is_truthy color) eqn:Hc.
    + destruct (setTint_stores_color o color opacity Hc) as (o' & -> & Hcol).
      right. cbn [state_of]. rewrite Hcol. exact Hc.
    + unfold OverlayManager.setTint. rewrite Hc. cbn. left. split; reflexivity.
Qed.

(** C10.  With a colour that is [null], [undefined] or the empty string,
    [setTint] does exactly what [clearTint] does, whatever the opacity
    argument: the tint becomes the sentinel (no colour, opacity 0).  Hence no
    reachable state of the manager has a [null] colour with another opacity. *)
Theorem setTint_without_color_is_clearTint
    (o : OverlayManager.t) (color : Js string) (opacity : Js JsNum) :
  (is_truthy color = false ->
     OverlayManager.setTint color opacity o = Ok (OverlayManager.clearTint o) /\
     OverlayManager.getCurrentTint (OverlayManager.clearTint o) = (Null, num 0)) /\
  (OverlayManager.reachable o ->
     OverlayManager.currentColor o = Null ->
     OverlayManager.currentOpacity o = num 0).
Proof.
  split.
  - intros H. unfold OverlayManager.setTint. rewrite H. split; reflexivity.
  - intros Hr Hnull.
    destruct (overlay_reachable_invariant o Hr) as [[_ Hop]|Ht]; [exact Hop|].
    rewrite Hnull in Ht. discriminate.
Qed.

Lemma setTint_without_color_is_clearTint_witness :
  (OverlayManager.setTint (Val "") (Val (ratio 7 10)) OverlayManager.constructor
     = Ok (OverlayManager.clearTint OverlayManager.constructor) /\
   OverlayManager.getCurrentTint (OverlayManager.clearTint OverlayManager.constructor)
     = (Null, num 0)) /\
  OverlayManager.currentOpacity OverlayManager.constructor = num 0.
Proof.
  destruct (setTint_without_color_is_clearTint
              OverlayManager.constructor (Val "") (Val (ratio 7 10))) as [H1 H2].
  split.
  - apply H1. reflexivity.
  - apply H2; [apply OverlayManager.reach_new | reflexivity].
Defined.

(** ** EpubReader *)

(** The guard of [setFlow]: without a book or without a rendition, only the
    assignment of [this.flow] runs. *)
Lemma setFlow_guard (f : Js string) (r : EpubReader.t) :
  EpubReader.book r = None \/ EpubReader.rendition r = None ->
  EpubReader.setFlow f r = Ok (EpubReader.with_flow f r).
Proof.
  intros H. unfold EpubReader.setFlow.
  cbn [EpubReader.with_flow EpubReader.book EpubReader.rendition].
  destruct H as [H|H]; rewrite H; [reflexivity|].
  destruct (EpubReader.book r); reflexivity.
Qed.

(** C8.  With no document open (no book, or no rendition), [setFlow] stores
    the flow it is given and does nothing else: the book and the rendition
    are as before and no call reaches the rendering engine or the DOM. *)
Theorem setFlow_without_document (f : Js string) (r : EpubReader.t) :
  EpubReader.book r = None \/ EpubReader.rendition r = None ->
  exists r',
    EpubReader.setFlow f r = Ok r' /\
    EpubReader.flow r' = f /\
    EpubReader.log r' = EpubReader.log r /\
    EpubReader.book r' = EpubReader.book r /\
    EpubReader.rendition r' = EpubReader.rendition r /\
    r' = EpubReader.with_flow f r.
Proof.
  intros H. exists (EpubReader.with_flow f r).
  split; [apply setFlow_guard; exact H|]. repeat split.
Qed.

Lemma setFlow_without_document_witness :
  exists r',
    EpubReader.setFlow (Val "scrolled") EpubReader.constructor = Ok r' /\
    EpubReader.flow r' = Val "scrolled" /\
    EpubReader.log r' = EpubReader.log EpubReader.constructor /\
    EpubReader.book r' = EpubReader.book EpubReader.constructor /\
    EpubReader.rendition r' = EpubReader.rendition EpubReader.constructor /\
    r' = EpubReader.with_flow (Val "scrolled") EpubReader.constructor.
Proof.
  apply (setFlow_without_document (Val "scrolled") EpubReader.constructor).
  left. reflexivity.
Defined.

(** With a document open the same call does reach the rendering surface:
    the guard of [setFlow] is what C8 rests on. *)
Example setFlow_with_document :
  let r := EpubReader.openBook {| EpubReader.percentageFromCfi := None |}
             (Val "epubcfi(/6/2)") EpubReader.constructor in
  let r' := state_of (EpubReader.setFlow (Val "scrolled") r) in
  filter EpubReader.is_surface_work
    (skipn (length (EpubReader.log r)) (EpubReader.log r'))
  = [EpubReader.RenditionDestroy;
     EpubReader.BookRenderTo "scrolled-doc" (Some "default");
     EpubReader.RenditionDisplay (Val "epubcfi(/6/2)")].
Proof. reflexivity. Qed.

(** The reading-mode button, with no document open: the preference and the
    reader's flow are both set, and the rendering surface is not touched. *)
Lemma selectMode_without_document {St : Type} (pf : Platform) (be : Backend St)
    (mode : string) (w : World St) :
  EpubReader.book (reader w) = None \/ EpubReader.rendition (reader w) = None ->
  let w' := Main.selectMode pf be mode w in
  Prefs.readingMode (currentPrefs w') = Val mode /\
  EpubReader.flow (reader w') = Val mode /\
  EpubReader.log (reader w') = EpubReader.log (reader w).
Proof.
  intros H. cbn zeta.
  unfold Main.selectMode, Main.savePreferences, detached_setFlow.
  cbn [reader with_currentPrefs].
  rewrite (setFlow_guard (Val mode) (reader w) H).
  destruct (main_isTauri pf); repeat split.
Qed.

(** ** BackgroundManager *)

(** C9.  [setMusic] changes the track and nothing else that
    [getCurrentMusic] reports: the volume and the mute flag are those
    configured before, for every path it is given. *)
Theorem setMusic_keeps_volume_and_mute
    (pf : Platform) (filePath : Js string) (b : BackgroundManager.t) :
  let before := BackgroundManager.getCurrentMusic b in
  let after := BackgroundManager.getCurrentMusic (BackgroundManager.setMusic pf filePath b) in
  BackgroundManager.music_volume after = BackgroundManager.music_volume before /\
  BackgroundManager.music_muted after = BackgroundManager.music_muted before /\
  BackgroundManager.music_path after = js_or_null filePath.
Proof.
  unfold BackgroundManager.setMusic, js_or_null.
  destruct filePath as [| |p]; cbn; try (repeat split; reflexivity).
  destruct (truthy p); cbn; repeat split; reflexivity.
Qed.

(** The volume and mute flag set through [setMusicVolume] and
    [setMusicMuted] are what a later [setMusic] leaves in place. *)
Example setMusic_after_volume :
  let b0 := BackgroundManager.constructor in
  let b1 := state_of (BackgroundManager.setMusicVolume (num 30) b0) in
  let b2 := BackgroundManager.setMusicMuted false b1 in
  let b3 := BackgroundManager.setMusic MemoryBackend.desktop (Val "rain.mp3") b2 in
  BackgroundManager.music_path (BackgroundManager.getCurrentMusic b3) = Val "rain.mp3" /\
  BackgroundManager.music_muted (BackgroundManager.getCurrentMusic b3) = false /\
  BackgroundManager.music_volume (BackgroundManager.getCurrentMusic b3)
  = BackgroundManager.music_volume (BackgroundManager.getCurrentMusic b2).
Proof. repeat split. Qed.

(** C7.  For every file path whose extension is neither a supported image
    nor a supported video extension, [setMedia] completes without an error
    and leaves the whole manager, hence what [getCurrentMedia] returns, as
    it was.  A file path is a non-empty string: the empty string is what the
    guard [if (!filePath)] at the head of [setMedia] takes for "no media". *)
Theorem setMedia_unsupported_extension
    (pf : Platform) (path : string) (b : BackgroundManager.t) :
  path <> "" ->
  BackgroundManager._getMediaType path = None ->
  BackgroundManager.setMedia pf (Val path) b = Ok b /\
  BackgroundManager.getCurrentMedia
    (state_of (BackgroundManager.setMedia pf (Val path) b))
  = BackgroundManager.getCurrentMedia b.
Proof.
  intros Hne Hty. unfold BackgroundManager.setMedia. cbn [is_truthy].
  rewrite (truthy_string_nonempty path Hne), Hty. split; reflexivity.
Qed.

Lemma setMedia_unsupported_extension_witness :
  let b := state_of (BackgroundManager.setMedia MemoryBackend.desktop (Val "forest.png")
                       BackgroundManager.constructor) in
  BackgroundManager.setMedia MemoryBackend.desktop (Val "notes.txt") b = Ok b /\
  BackgroundManager.getCurrentMedia
    (state_of (BackgroundManager.setMedia MemoryBackend.desktop (Val "notes.txt") b))
  = BackgroundManager.getCurrentMedia b.
Proof.
  cbv zeta.
  apply (setMedia_unsupported_extension MemoryBackend.desktop "notes.txt").
  - discriminate.
  - reflexivity.
Defined.

Lemma constructor_media_consistent : media_consistent BackgroundManager.constructor.
Proof. left. split; reflexivity. Qed.

Lemma clearMedia_media_consistent (b : BackgroundManager.t) :
  media_consistent (BackgroundManager.clearMedia b).
Proof. left. split; reflexivity. Qed.

Lemma setMedia_media_consistent (pf : Platform) (filePath : Js string)
    (b : BackgroundManager.t) :
  media_consistent b ->
  media_consistent (state_of (BackgroundManager.setMedia pf filePath b)).
Proof.
  intros Hb. unfold BackgroundManager.setMedia.
  destruct (is_truthy filePath) eqn:Ht; cbn [negb].
  - destruct filePath as [| |p]; try discriminate.
    destruct (BackgroundManager._getMediaType p) as [ty|] eqn:Hty; cbn [state_of].
    + right. exists p, ty. repeat split.
      * apply truthy_string_inv. exact Ht.
      * destruct ty; reflexivity.
      * exact Hty.
      * destruct ty; reflexivity.
    + exact Hb.
  - apply clearMedia_media_consistent.
Qed.

Lemma setMuted_media_consistent (m : bool) (b : BackgroundManager.t) :
  media_consistent b -> media_consistent (BackgroundManager.setMuted m b).
Proof. intros H. exact H. Qed.

Lemma setMusic_media_consistent (pf : Platform) (filePath : Js string)
    (b : BackgroundManager.t) :
  media_consistent b -> media_consistent (BackgroundManager.setMusic pf filePath b).
Proof.
  intros H. unfold BackgroundManager.setMusic.
  destruct filePath as [| |p]; try exact H. destruct (truthy p); exact H.
Qed.

Lemma setMusicVolume_media_consistent (volume : JsNum) (b : BackgroundManager.t) :
  media_consistent b ->
  media_consistent (state_of (BackgroundManager.setMusicVolume volume b)).
Proof.
  intros H. unfold BackgroundManager.setMusicVolume.
  destruct (Math_max (num 0) (Math_min (num 1) (js_div volume (num 100)))); exact H.
Qed.

(** Every state the background manager can reach is consistent. *)
Lemma reachable_media_consistent (pf : Platform) (b : BackgroundManager.t) :
  BackgroundManager.reachable pf b -> media_consistent b.
Proof.
  induction 1 as [|b filePath _ IH|b _ _|b m _ IH|b filePath _ IH|b _ IH
                  |b volume _ IH|b m _ IH].
  - apply constructor_media_consistent.
  - apply setMedia_media_consistent, IH.
  - apply clearMedia_media_consistent.
  - apply setMuted_media_consistent, IH.
  - apply setMusic_media_consistent, IH.
  - exact IH.
  - apply setMusicVolume_media_consistent, IH.
  - exact IH.
Qed.

(** ** PresetManager *)

Section PresetProperties.

Context {St : Type} (pf : Platform) (be : Backend St).

Lemma kept_refl (w : World St) : kept w w.
Proof. repeat split. Qed.

Lemma kept_trans (w1 w2 w3 : World St) : kept w1 w2 -> kept w2 w3 -> kept w1 w3.
Proof.
  unfold kept. intros H1 H2.
  repeat match goal with H : _ /\ _ |- _ => destruct H end.
  repeat split; congruence.
Qed.

Lemma bind_kept (w : World St) (r : Res (World St)) (k : World St -> Res (World St)) :
  kept w (state_of r) -> keeps k -> kept w (state_of (bind r k)).
Proof.
  intros Hr Hk. destruct r as [s|s]; cbn [bind state_of] in *.
  - eapply kept_trans; [exact Hr | apply Hk].
  - exact Hr.
Qed.

Lemma when_keeps (c : bool) (k : World St -> Res (World St)) :
  keeps k -> keeps (St:=St) (when c k).
Proof.
  intros Hk w. unfold when. destruct c; [apply Hk | apply kept_refl].
Qed.

Lemma optionally_keeps {A} (o : option A) (k : A -> World St -> Res (World St)) :
  (forall a, keeps (St:=St) (k a)) -> keeps (St:=St) (PresetManager.optionally o k).
Proof.
  intros Hk w. unfold PresetManager.optionally.
  destruct o; [apply Hk | apply kept_refl].
Qed.

Lemma on_reader_keeps (f : EpubReader.t -> Res EpubReader.t) : keeps (St:=St) (on_reader f).
Proof. intros w. unfold on_reader. destruct (f (reader w)); repeat split. Qed.

Lemma on_bgManager_keeps (f : BackgroundManager.t -> Res BackgroundManager.t) :
  keeps (St:=St) (on_bgManager f).
Proof. intros w. unfold on_bgManager. destruct (f (bgManager w)); repeat split. Qed.

Lemma on_overlayManager_keeps (f : OverlayManager.t -> Res OverlayManager.t) :
  keeps (St:=St) (on_overlayManager f).
Proof. intros w. unfold on_overlayManager. destruct (f (overlayManager w)); repeat split. Qed.

Lemma with_reader_keeps (f : World St -> EpubReader.t) :
  keeps (St:=St) (fun w => Ok (with_reader (f w) w)).
Proof. intros w. repeat split. Qed.

Lemma detached_setFlow_keeps (f : Js string) :
  keeps (St:=St) (fun w => Ok (detached_setFlow f w)).
Proof. intros w. repeat split. Qed.

Lemma apply_background_keeps (b : Preset.Background) :
  keeps (St:=St) (PresetManager.apply_background pf be b).
Proof.
  intros w. unfold PresetManager.apply_background.
  destruct (js_is (Preset.bg_type b) "media" && is_truthy (Preset.bg_path b)).
  { apply on_bgManager_keeps. }
  destruct (js_is (Preset.bg_type b) "image" && is_truthy (Preset.bg_path b)).
  - destruct (isTauri pf); [|apply on_bgManager_keeps].
    cbn zeta. change (store (logged Inv_get_app_dir w)) with (store w).
    destruct (get_app_dir be (store w)).
    + eapply kept_trans; [|apply on_bgManager_keeps]. repeat split.
    + repeat split.
  - repeat split.
Qed.

Lemma apply_overlay_keeps (o : Preset.Overlay) :
  keeps (St:=St) (PresetManager.apply_overlay o).
Proof. apply on_overlayManager_keeps. Qed.

Lemma apply_reader_keeps (r : Preset.Reader) :
  keeps (St:=St) (PresetManager.apply_reader r).
Proof.
  intros w. unfold PresetManager.apply_reader.
  repeat (apply bind_kept;
          [| first [ apply when_keeps;
                     first [ apply on_reader_keeps
                           | apply with_reader_keeps with (f := fun w => _ (reader w))
                           | apply detached_setFlow_keeps ] ] ]).
  apply kept_refl.
Qed.

Lemma apply_settings_keeps (preset : Preset.t) :
  keeps (St:=St) (PresetManager.apply_settings pf be preset).
Proof.
  intros w. unfold PresetManager.apply_settings.
  apply bind_kept; [apply bind_kept; [apply bind_kept; [apply kept_refl|]|]|].
  - apply optionally_keeps, apply_background_keeps.
  - apply optionally_keeps, apply_overlay_keeps.
  - apply optionally_keeps, apply_reader_keeps.
Qed.

(** A failed [applyPreset] leaves the cache, the current preset and the
    preferences alone. *)
Lemma apply_found_failure (preset : Preset.t) (w : World St) :
  fst (PresetManager.apply_found pf be preset w) = false ->
  let w' := snd (PresetManager.apply_found pf be preset w) in
  presets w' = presets w /\ currentPreset w' = currentPreset w /\
  currentPrefs w' = currentPrefs w /\ store w' = store w.
Proof.
  unfold PresetManager.apply_found.
  pose proof (apply_settings_keeps preset w) as Hk.
  destruct (PresetManager.apply_settings pf be preset w) as [w1|w1];
    cbn [fst snd state_of] in *; [discriminate|].
  intros _. destruct Hk as (H1 & H2 & H3 & H4 & _). repeat split; assumption.
Qed.

(** C1, amended.  [applyPreset] on a name that is in neither the cache nor
    the backend returns [false] and leaves the reader, the background, the
    overlay, the cache, the current preset, the preferences and the store as
    they were.  When a setter throws while the preset is applied,
    [applyPreset] returns [false] as well, and the state it leaves is the
    state at the throw with the error toast added: what the setters had
    written before the throw is not undone.  Whenever it returns [false],
    for whatever reason, the cache, the current preset, the preferences and
    the store are as they were. *)
Theorem applyPreset_failure (presetName : string) (w : World St) :
  (unknown pf be presetName w ->
     fst (PresetManager.applyPreset pf be presetName w) = false /\
     let w' := snd (PresetManager.applyPreset pf be presetName w) in
     reader w' = reader w /\ bgManager w' = bgManager w /\
     overlayManager w' = overlayManager w /\ toasts w' = toasts w) /\
  (forall thrown : World St,
     setter_throws pf be presetName w thrown ->
     PresetManager.applyPreset pf be presetName w
     = (false, showToast "Failed to apply preset" "error" thrown)) /\
  (fst (PresetManager.applyPreset pf be presetName w) = false ->
     let w' := snd (PresetManager.applyPreset pf be presetName w) in
     presets w' = presets w /\ currentPreset w' = currentPreset w /\
     currentPrefs w' = currentPrefs w /\ store w' = store w).
Proof.
  split; [|split].
  - intros [Hfind Hload]. unfold PresetManager.applyPreset. rewrite Hfind.
    destruct (isTauri pf) eqn:Ht.
    + destruct Hload as [Hload|Hload]; [discriminate|].
      cbn zeta. change (store (logged (Inv_load_preset presetName) w)) with (store w).
      rewrite Hload. repeat split.
    + repeat split.
  - intros thrown (preset & w0 & Hfound & Hthrow).
    unfold found in Hfound. unfold PresetManager.applyPreset.
    destruct (PresetManager.find_preset presetName (presets w)) as [p|].
    + injection Hfound as -> ->.
      unfold PresetManager.apply_found. rewrite Hthrow. reflexivity.
    + destruct (isTauri pf); [|discriminate Hfound].
      cbn zeta. change (store (logged (Inv_load_preset presetName) w)) with (store w).
      destruct (load_preset be presetName (store w)) as [p|]; [|discriminate Hfound].
      injection Hfound as -> <-.
      unfold PresetManager.apply_found. rewrite Hthrow. reflexivity.
  - unfold PresetManager.applyPreset.
    destruct (PresetManager.find_preset presetName (presets w)) as [p|].
    + apply apply_found_failure.
    + destruct (isTauri pf).
      * cbn zeta. change (store (logged (Inv_load_preset presetName) w)) with (store w).
        destruct (load_preset be presetName (store w)) as [p|].
        -- intros H. apply (apply_found_failure p) in H. cbn zeta in *.
           exact H.
        -- intros _. repeat split.
      * intros _. repeat split.
Qed.

Lemma load_each_spec (names : list string) (w : World St) :
  let w' := PresetManager.load_each be names w in
  presets w' = (presets w ++ loaded_from be (store w) names)%list /\
  store w' = store w /\
  reader w' = reader w /\ bgManager w' = bgManager w /\
  overlayManager w' = overlayManager w /\ currentPreset w' = currentPreset w /\
  currentPrefs w' = currentPrefs w /\ toasts w' = toasts w.
Proof.
  revert w. induction names as [|n names IH]; intros w; cbn zeta.
  - cbn. rewrite app_nil_r. repeat split.
  - cbn [PresetManager.load_each loaded_from flat_map].
    change (store (logged (Inv_load_preset n) w)) with (store w).
    destruct (load_preset be n (store w)) as [p|].
    + specialize (IH (with_presets (presets (logged (Inv_load_preset n) w) ++ [p])
                        (logged (Inv_load_preset n) w))).
      cbn zeta in IH. destruct IH as (H1 & H2 & H3 & H4 & H5 & H6 & H7 & H8).
      rewrite H1. cbn. rewrite <- app_assoc. repeat split; assumption.
    + specialize (IH (logged (Inv_load_preset n) w)).
      cbn zeta in IH. destruct IH as (H1 & H2 & H3 & H4 & H5 & H6 & H7 & H8).
      rewrite H1. cbn. repeat split; assumption.
Qed.

Lemma loadPresets_store (w : World St) :
  store (snd (PresetManager.loadPresets pf be w)) = store w.
Proof.
  unfold PresetManager.loadPresets. destruct (isTauri pf); cbn; [|reflexivity].
  destruct (list_presets be (store w)) as [names|]; cbn; [|reflexivity].
  destruct (load_each_spec names (with_presets [] (logged Inv_list_presets w)))
    as (_ & H & _).
  exact H.
Qed.

Lemma loadPresets_invoked (w : World St) :
  exists more, invoked (snd (PresetManager.loadPresets pf be w)) = (invoked w ++ more)%list.
Proof.
  unfold PresetManager.loadPresets. destruct (isTauri pf); cbn.
  - destruct (list_presets be (store w)) as [names|]; cbn.
    + assert (H : forall ns v, exists more,
                 invoked (PresetManager.load_each be ns v) = (invoked v ++ more)%list).
      { induction ns as [|n ns IH]; intros v; cbn [PresetManager.load_each].
        - exists []. now rewrite app_nil_r.
        - cbn zeta. destruct (load_preset be n (store (logged (Inv_load_preset n) v))).
          + destruct (IH (with_presets (presets (logged (Inv_load_preset n) v) ++ [t])
                            (logged (Inv_load_preset n) v))) as [m Hm].
            rewrite Hm. cbn. rewrite <- app_assoc. eexists. reflexivity.
          + destruct (IH (logged (Inv_load_preset n) v)) as [m Hm].
            rewrite Hm. cbn. rewrite <- app_assoc. eexists. reflexivity. }
      destruct (H names (with_presets [] (logged Inv_list_presets w))) as [m Hm].
      rewrite Hm. cbn. rewrite <- app_assoc. eexists. reflexivity.
    + eexists. reflexivity.
  - exists []. now rewrite app_nil_r.
Qed.

(** C2, amended.  The preset list is the three built-ins (Cozy Reading, Focus
    Mode, Night Reading, in that order) when there is no backend or its
    listing fails; when the backend answers, the list is exactly the presets
    it hands out, so it is empty when it reports none.  [deletePreset] makes
    no difference between names: without a backend it does nothing, with one
    it sends the request on and the store is whatever the backend makes of
    it. *)
Theorem preset_list_and_delete (name : string) (w : World St) :
  fst (PresetManager.loadPresets pf be w)
  = (if isTauri pf then
       match list_presets be (store w) with
       | Some names => loaded_from be (store w) names
       | None => PresetManager._getFallbackPresets
       end
     else PresetManager._getFallbackPresets) /\
  presets (snd (PresetManager.loadPresets pf be w))
  = fst (PresetManager.loadPresets pf be w) /\
  map Preset.name (PresetManager._getFallbackPresets)
  = ["Cozy Reading"; "Focus Mode"; "Night Reading"] /\
  (if isTauri pf then
     store (PresetManager.deletePreset pf be name w)
     = fst (delete_preset be name (store w)) /\
     In (Inv_delete_preset name) (invoked (PresetManager.deletePreset pf be name w))
   else PresetManager.deletePreset pf be name w = w).
Proof.
  split; [|split; [|split]].
  - unfold PresetManager.loadPresets. destruct (isTauri pf); cbn; [|reflexivity].
    destruct (list_presets be (store w)) as [names|]; cbn; [|reflexivity].
    destruct (load_each_spec names (with_presets [] (logged Inv_list_presets w)))
      as (H & _). cbn zeta in H. rewrite H. reflexivity.
  - unfold PresetManager.loadPresets. destruct (isTauri pf); cbn; [|reflexivity].
    destruct (list_presets be (store w)) as [names|]; reflexivity.
  - reflexivity.
  - unfold PresetManager.deletePreset. destruct (isTauri pf); cbn [negb]; [|reflexivity].
    cbn zeta. change (store (logged (Inv_delete_preset name) w)) with (store w).
    destruct (delete_preset be name (store w)) as [st [|]]; cbn [fst].
    + split.
      * cbn. rewrite loadPresets_store. reflexivity.
      * cbn.
        destruct (loadPresets_invoked
                    (with_store st (logged (Inv_delete_preset name) w))) as [m Hm].
        rewrite Hm. cbn. rewrite <- app_assoc. apply in_or_app. right.
        left. reflexivity.
    + split; [reflexivity|]. cbn. apply in_or_app. right. left. reflexivity.
Qed.

End PresetProperties.

(** *** Concrete runs *)

(** C1, as stated, fails: the thumb colour of [null] makes
    [setScrollbarColors] throw, [applyPreset] returns [false], and the overlay
    tint and the font the earlier setters wrote are still there. *)
Lemma applyPreset_partial_mutation :
  let w := snd (PresetManager.loadPresets MemoryBackend.desktop MemoryBackend.backend
                  (Main.initial (store_with [half_preset "Nook"]))) in
  let result := PresetManager.applyPreset MemoryBackend.desktop MemoryBackend.backend
                  "Nook" w in
  fst result = false /\
  OverlayManager.currentColor (overlayManager w) = Null /\
  OverlayManager.currentColor (overlayManager (snd result)) = Val "#112233" /\
  EpubReader.fontFamily (reader w) = Val "serif" /\
  EpubReader.fontFamily (reader (snd result)) = Val "monospace" /\
  overlayManager (snd result) <> overlayManager w /\
  reader (snd result) <> reader w.
Proof.
  cbv zeta. repeat split.
  - intros H. apply (f_equal OverlayManager.currentColor) in H. discriminate H.
  - intros H. apply (f_equal EpubReader.fontFamily) in H. discriminate H.
Qed.

Lemma applyPreset_failure_witness :
  let w := Main.initial MemoryBackend.empty in
  let w2 := snd (PresetManager.loadPresets MemoryBackend.desktop MemoryBackend.backend
                   (Main.initial (store_with [half_preset "Nook"]))) in
  (fst (PresetManager.applyPreset MemoryBackend.desktop MemoryBackend.backend "Nook" w)
   = false /\
   let w' := snd (PresetManager.applyPreset MemoryBackend.desktop MemoryBackend.backend
                    "Nook" w) in
   reader w' = reader w /\ bgManager w' = bgManager w /\
   overlayManager w' = overlayManager w /\ toasts w' = toasts w) /\
  PresetManager.applyPreset MemoryBackend.desktop MemoryBackend.backend "Nook" w2
  = (false,
     showToast "Failed to apply preset" "error"
       (state_of (PresetManager.apply_settings MemoryBackend.desktop MemoryBackend.backend
                    (half_preset "Nook") w2))) /\
  (let w' := snd (PresetManager.applyPreset MemoryBackend.desktop MemoryBackend.backend
                    "Nook" w2) in
   presets w' = presets w2 /\ currentPreset w' = currentPreset w2 /\
   currentPrefs w' = currentPrefs w2 /\ store w' = store w2).
Proof.
  cbv zeta.
  destruct (applyPreset_failure MemoryBackend.desktop MemoryBackend.backend "Nook"
              (Main.initial MemoryBackend.empty)) as [H1 _].
  destruct (applyPreset_failure MemoryBackend.desktop MemoryBackend.backend "Nook"
              (snd (PresetManager.loadPresets MemoryBackend.desktop MemoryBackend.backend
                      (Main.initial (store_with [half_preset "Nook"])))))
    as (_ & H2 & H3).
  split; [|split].
  - apply H1. split; [reflexivity | right; reflexivity].
  - apply H2. exists (half_preset "Nook"). eexists. split; reflexivity.
  - apply H3. reflexivity.
Defined.

(** C2, as stated, fails: on the desktop, with a backend that answers and
    has no preset stored, the list is empty and no built-in is in it. *)
Lemma builtins_absent_when_backend_reports_none :
  let listing := PresetManager.loadPresets MemoryBackend.desktop MemoryBackend.backend
                   (Main.initial MemoryBackend.empty) in
  list_presets MemoryBackend.backend MemoryBackend.empty = Some [] /\
  fst listing = [] /\
  PresetManager.getPresets (snd listing) = [] /\
  ~ In "Cozy Reading" (map Preset.name (PresetManager.getPresets (snd listing))) /\
  ~ In "Focus Mode" (map Preset.name (PresetManager.getPresets (snd listing))) /\
  ~ In "Night Reading" (map Preset.name (PresetManager.getPresets (snd listing))).
Proof.
  cbv zeta. repeat split; intros H; exact H.
Qed.

(** With a backend that stores the built-ins as it stores any preset and
    deletes what it is asked to, [deletePreset] on a built-in name removes it:
    the refusal is the missing delete button in the list, not this method. *)
Example deletePreset_builtin_forwarded :
  let w := Main.initial (store_with PresetManager._getFallbackPresets) in
  let w' := PresetManager.deletePreset MemoryBackend.desktop MemoryBackend.backend
              "Cozy Reading" w in
  map Preset.name (MemoryBackend.stored_presets (store w'))
  = ["Focus Mode"; "Night Reading"] /\
  map Preset.name (PresetManager.getPresets w') = ["Focus Mode"; "Night Reading"] /\
  invoked w' = [Inv_delete_preset "Cozy Reading"; Inv_list_presets;
                Inv_load_preset "Focus Mode"; Inv_load_preset "Night Reading"].
Proof. repeat split. Qed.

(** The end-to-end example of the specification: applying Night Reading. *)
Example apply_night_reading :
  let w := snd (PresetManager.loadPresets MemoryBackend.browser MemoryBackend.backend
                  (Main.initial MemoryBackend.empty)) in
  let result := PresetManager.applyPreset MemoryBackend.browser MemoryBackend.backend
                  "Night Reading" w in
  fst result = true /\
  EpubReader.textColor (reader (snd result)) = Val "#e0e0e0" /\
  EpubReader.backgroundColor (reader (snd result)) = Val "#2d2d2d" /\
  EpubReader.opacity (reader (snd result)) = ratio 85 100 /\
  OverlayManager.getCurrentTint (overlayManager (snd result)) = (Val "#1a1a2e", ratio 4 10) /\
  EpubReader.fontSize (reader (snd result)) = num 20.
Proof. repeat split. Qed.

(** ** Capture and apply *)

Lemma js_or_truthy {A} `{Truthy A} (v : Js A) (d : A) :
  truthy d = true -> truthy (js_or v d) = true.
Proof.
  intros Hd. unfold js_or. destruct v as [| |a]; try exact Hd.
  destruct (truthy a) eqn:Ha; [exact Ha | exact Hd].
Qed.

#[local] Arguments Math_max : simpl never.
#[local] Arguments Math_min : simpl never.

Ltac reader_cases r H :=
  destruct r as [bk rd rop rbg rtc rgl rbl rst rsth rff rfs rfl lg];
  destruct H as [[s0 H] Hfs]; cbn in H, Hfs; subst rbg.

Ltac still_ready s0 Hfs :=
  split; [exists s0; reflexivity | exact Hfs].

Lemma setOpacity_sets (o : Js JsNum) :
  sets (EpubReader.setOpacity o) (put_opacity (clamp 0 1 (ToNumber o))).
Proof.
  intros r H. reader_cases r H.
  unfold EpubReader.setOpacity, EpubReader.updateContainerStyle. cbn.
  destruct (hex_channels s0) as [[c1 c2] c3].
  eexists. split; [reflexivity|]. split; [reflexivity|]. still_ready s0 Hfs.
Qed.

Lemma setBackgroundColor_sets (c : string) :
  sets (EpubReader.setBackgroundColor (Val c)) (put_backgroundColor (Val c)).
Proof.
  intros r H. reader_cases r H.
  unfold EpubReader.setBackgroundColor, EpubReader.updateContainerStyle. cbn.
  destruct (hex_channels c) as [[c1 c2] c3].
  eexists. split; [reflexivity|]. split; [reflexivity|]. still_ready c Hfs.
Qed.

Lemma setTextColor_sets (c : Js string) :
  sets (fun r => Ok (EpubReader.setTextColor c r)) (put_textColor c).
Proof.
  intros r H. reader_cases r H. unfold EpubReader.setTextColor.
  destruct rd; cbn; eexists; (split; [reflexivity|]);
    (split; [reflexivity|]); still_ready s0 Hfs.
Qed.

Lemma setFontFamily_sets (c : Js string) :
  sets (fun r => Ok (EpubReader.setFontFamily c r)) (put_fontFamily c).
Proof.
  intros r H. reader_cases r H. unfold EpubReader.setFontFamily.
  destruct rd; cbn; eexists; (split; [reflexivity|]);
    (split; [reflexivity|]); still_ready s0 Hfs.
Qed.

Lemma setFontSize_sets (n : Js JsNum) :
  sets (fun r => Ok (EpubReader.setFontSize n r)) (put_fontSize (clamp 12 32 (ToNumber n))).
Proof.
  intros r H. reader_cases r H. unfold EpubReader.setFontSize.
  destruct rd; cbn; eexists; (split; [reflexivity|]);
    (split; [reflexivity|]);
    (split; [exists s0; reflexivity | apply clamp_idempotent; lia]).
Qed.

Lemma setGlassmorphism_sets (g : Js bool) :
  sets (EpubReader.setGlassmorphism g) (put_glassmorphism g).
Proof.
  intros r H. reader_cases r H.
  unfold EpubReader.setGlassmorphism, EpubReader.updateContainerStyle. cbn.
  destruct (hex_channels s0) as [[c1 c2] c3].
  eexists. split; [reflexivity|]. split; [reflexivity|]. still_ready s0 Hfs.
Qed.

Lemma setBlur_sets (px : Js JsNum) :
  sets (EpubReader.setBlur px) (put_blur (clamp 0 40 (ToNumber px))).
Proof.
  intros r H. reader_cases r H.
  unfold EpubReader.setBlur, EpubReader.updateContainerStyle. cbn.
  destruct (hex_channels s0) as [[c1 c2] c3].
  eexists. split; [reflexivity|]. split; [reflexivity|]. still_ready s0 Hfs.
Qed.

Lemma setScrollbarColors_sets (track thumb : string) :
  sets (EpubReader.setScrollbarColors (Val track) (Val thumb))
    (fun a => put_scrollbarThumb (Val thumb) (put_scrollbarTrack (Val track) a)).
Proof.
  intros r H. reader_cases r H.
  unfold EpubReader.setScrollbarColors, EpubReader._applyIframeStyles. cbn.
  destruct rd; cbn; eexists; (split; [reflexivity|]);
    (split; [reflexivity|]); still_ready s0 Hfs.
Qed.

(** The un-awaited [setFlow]: whatever happens inside, the flow is stored
    and no other appearance field moves. *)
Lemma setFlow_sets (f : Js string) :
  sets (fun r => Ok (state_of (EpubReader.setFlow f r))) (put_flow f).
Proof.
  intros r H. reader_cases r H.
  unfold EpubReader.setFlow, EpubReader._getRenderOptions, EpubReader.is_scrolled,
    EpubReader.updateContainerStyle, EpubReader._applyIframeStyles,
    EpubReader._applyContainerMode, EpubReader.setFontFamily, EpubReader.setFontSize,
    EpubReader.setTextColor.
  cbn.
  destruct bk, rd; cbn;
    try (eexists; (split; [reflexivity|]); (split; [reflexivity|]);
         still_ready s0 Hfs).
  change (Math_max (num 12) (Math_min (num 32) rfs)) with (clamp 12 32 rfs).
  rewrite Hfs.
  destruct (match f with Val f0 => (f0 =? "scrolled")%string | _ => false end); cbn;
    destruct (hex_channels s0) as [[c1 c2] c3]; cbn;
    eexists; (split; [reflexivity|]); (split; [reflexivity|]); still_ready s0 Hfs.
Qed.

Section CaptureApply.

Context {St : Type} (pf : Platform) (be : Backend St).

Lemma wsets_start : wsets (St:=St) (fun w => Ok w) (fun a => a).
Proof.
  intros w H. exists w.
  split; [reflexivity|]. split; [reflexivity|]. split; [exact H|]. split; reflexivity.
Qed.

Lemma wsets_bind (k1 k2 : World St -> Res (World St)) (g1 g2 : Appearance -> Appearance) :
  wsets k1 g1 -> wsets k2 g2 -> wsets (St:=St) (fun w => bind (k1 w) k2) (fun a => g2 (g1 a)).
Proof.
  intros H1 H2 w Hw.
  destruct (H1 w Hw) as (w1 & E1 & A1 & R1 & B1 & O1).
  destruct (H2 w1 R1) as (w2 & E2 & A2 & R2 & B2 & O2).
  exists w2. rewrite E1. cbn [bind]. rewrite E2, A2, A1.
  split; [reflexivity|]. split; [reflexivity|]. split; [exact R2|].
  split; congruence.
Qed.

Lemma wsets_when (c : bool) (k : World St -> Res (World St)) (g : Appearance -> Appearance) :
  c = true -> wsets k g -> wsets (St:=St) (when c k) g.
Proof. intros -> H. exact H. Qed.

Lemma on_reader_wsets (f : EpubReader.t -> Res EpubReader.t) (g : Appearance -> Appearance) :
  sets f g -> wsets (St:=St) (on_reader f) g.
Proof.
  intros H w Hw. destruct (H (reader w) Hw) as (r' & E & A & R).
  exists (with_reader r' w). unfold on_reader. rewrite E.
  split; [reflexivity|]. split; [exact A|]. split; [exact R|]. split; reflexivity.
Qed.

Lemma with_reader_wsets (f : EpubReader.t -> EpubReader.t) (g : Appearance -> Appearance) :
  sets (fun r => Ok (f r)) g -> wsets (St:=St) (fun w => Ok (with_reader (f (reader w)) w)) g.
Proof.
  intros H w Hw. destruct (H (reader w) Hw) as (r' & E & A & R).
  injection E as E. subst r'.
  eexists. split; [reflexivity|]. split; [exact A|]. split; [exact R|].
  split; reflexivity.
Qed.

Lemma detached_setFlow_wsets (f : Js string) :
  wsets (St:=St) (fun w => Ok (detached_setFlow f w)) (put_flow f).
Proof.
  intros w Hw. destruct (setFlow_sets f (reader w) Hw) as (r' & E & A & R).
  injection E as E. subst r'.
  eexists. split; [reflexivity|]. split; [exact A|]. split; [exact R|].
  split; reflexivity.
Qed.

(** Applying a reader group whose ten fields are all set, to a reader whose
    background colour is a string. *)
Lemma apply_reader_full (w : World St)
    (op fs bl : JsNum) (bg tc ff fl st sth : string) (gl : bool) :
  truthy bg = true -> truthy tc = true -> truthy ff = true -> truthy fs = true ->
  truthy fl = true -> truthy st = true ->
  ready (reader w) ->
  exists w',
    PresetManager.apply_reader
      {| Preset.rd_opacity := Val op;
         Preset.rd_backgroundColor := Val bg;
         Preset.rd_textColor := Val tc;
         Preset.rd_fontFamily := Val ff;
         Preset.rd_fontSize := Val fs;
         Preset.rd_readingMode := Val fl;
         Preset.rd_glassmorphism := Val gl;
         Preset.rd_glassBlur := Val bl;
         Preset.rd_scrollbarTrack := Val st;
         Preset.rd_scrollbarThumb := Val sth |} w = Ok w' /\
    appearance (reader w')
    = {| a_opacity := clamp 0 1 op;
         a_backgroundColor := Val bg;
         a_textColor := Val tc;
         a_fontFamily := Val ff;
         a_fontSize := clamp 12 32 fs;
         a_flow := Val fl;
         a_glassmorphism := Val gl;
         a_blur := clamp 0 40 bl;
         a_scrollbarTrack := Val st;
         a_scrollbarThumb := Val sth |} /\
    bgManager w' = bgManager w /\ overlayManager w' = overlayManager w.
Proof.
  intros Hbg Htc Hff Hfs Hfl Hst Hw.
  assert (Hk : wsets (St:=St)
                 (PresetManager.apply_reader
                    {| Preset.rd_opacity := Val op;
                       Preset.rd_backgroundColor := Val bg;
                       Preset.rd_textColor := Val tc;
                       Preset.rd_fontFamily := Val ff;
                       Preset.rd_fontSize := Val fs;
                       Preset.rd_readingMode := Val fl;
                       Preset.rd_glassmorphism := Val gl;
                       Preset.rd_glassBlur := Val bl;
                       Preset.rd_scrollbarTrack := Val st;
                       Preset.rd_scrollbarThumb := Val sth |})
                 (fun a => put_scrollbarThumb (Val sth) (put_scrollbarTrack (Val st)
                   (put_blur (clamp 0 40 bl) (put_glassmorphism (Val gl)
                   (put_flow (Val fl) (put_fontSize (clamp 12 32 fs)
                   (put_fontFamily (Val ff) (put_textColor (Val tc)
                   (put_backgroundColor (Val bg) (put_opacity (clamp 0 1 op) a))))))))))).
  { unfold PresetManager.apply_reader.
    cbn [Preset.rd_opacity Preset.rd_backgroundColor Preset.rd_textColor
         Preset.rd_fontFamily Preset.rd_fontSize Preset.rd_readingMode
         Preset.rd_glassmorphism Preset.rd_glassBlur Preset.rd_scrollbarTrack
         Preset.rd_scrollbarThumb].
    apply (wsets_bind _ _ _ (fun a => put_scrollbarThumb (Val sth) (put_scrollbarTrack (Val st) a))).
    apply (wsets_bind _ _ _ (put_blur (clamp 0 40 bl))).
    apply (wsets_bind _ _ _ (put_glassmorphism (Val gl))).
    apply (wsets_bind _ _ _ (put_flow (Val fl))).
    apply (wsets_bind _ _ _ (put_fontSize (clamp 12 32 fs))).
    apply (wsets_bind _ _ _ (put_fontFamily (Val ff))).
    apply (wsets_bind _ _ _ (put_textColor (Val tc))).
    apply (wsets_bind _ _ _ (put_backgroundColor (Val bg))).
    apply (wsets_bind _ _ (fun a => a) (put_opacity (clamp 0 1 op))).
    - apply wsets_start.
    - apply wsets_when; [reflexivity|]. apply on_reader_wsets, setOpacity_sets.
    - apply wsets_when; [exact Hbg|]. apply on_reader_wsets, setBackgroundColor_sets.
    - apply wsets_when; [exact Htc|].
      apply (with_reader_wsets (EpubReader.setTextColor (Val tc))), setTextColor_sets.
    - apply wsets_when; [exact Hff|].
      apply (with_reader_wsets (EpubReader.setFontFamily (Val ff))), setFontFamily_sets.
    - apply wsets_when; [exact Hfs|].
      apply (with_reader_wsets (EpubReader.setFontSize (Val fs))), setFontSize_sets.
    - apply wsets_when; [exact Hfl|]. apply detached_setFlow_wsets.
    - apply wsets_when; [reflexivity|]. apply on_reader_wsets, setGlassmorphism_sets.
    - apply wsets_when; [reflexivity|]. apply on_reader_wsets, setBlur_sets.
    - apply wsets_when; [cbn [is_truthy]; rewrite Hst; reflexivity|].
      apply on_reader_wsets, setScrollbarColors_sets. }
  destruct (Hk w Hw) as (w' & E & A & _ & B & O).
  exists w'. split; [exact E|]. split; [|split; assumption].
  rewrite A. reflexivity.
Qed.

End CaptureApply.

Section RoundTrip.

Context {St : Type} (pf : Platform) (be : Backend St).

Lemma apply_background_captured (w0 w : World St) :
  media_consistent (bgManager w0) ->
  bgManager w = bgManager w0 ->
  let media := BackgroundManager.getCurrentMedia (bgManager w0) in
  exists w',
    PresetManager.apply_background pf be
      {| Preset.bg_type := Val (if is_truthy (fst media) then "media" else "none");
         Preset.bg_path := js_or_null (fst media) |} w = Ok w' /\
    BackgroundManager.getCurrentMedia (bgManager w')
    = BackgroundManager.getCurrentMedia (bgManager w0) /\
    media_consistent (bgManager w') /\
    overlayManager w' = overlayManager w /\ reader w' = reader w.
Proof.
  intros Hc Hb. cbn zeta. unfold BackgroundManager.getCurrentMedia. cbn [fst].
  unfold PresetManager.apply_background, js_or_null.
  destruct Hc as [[Hm Hty]|(path & ty & Hne & Hm & Hext & Hty)].
  - rewrite Hm. cbn.
    eexists. split; [reflexivity|]. cbn. rewrite Hty.
    split; [reflexivity|]. split; [apply clearMedia_media_consistent|].
    split; reflexivity.
  - rewrite Hm. cbn [is_truthy Preset.bg_type Preset.bg_path].
    rewrite (truthy_string_nonempty path Hne). cbn [js_is is_truthy].
    rewrite (truthy_string_nonempty path Hne). cbn [String.eqb andb].
    change (("media" =? "media")%string) with true. cbn [andb].
    unfold on_bgManager, BackgroundManager.setMedia. cbn [is_truthy negb].
    rewrite (truthy_string_nonempty path Hne), Hext. cbn [negb].
    eexists. split; [reflexivity|]. cbn [bgManager with_bgManager].
    split.
    + rewrite Hty. destruct ty; reflexivity.
    + split; [|split; reflexivity].
      right. exists path, ty. repeat split; try assumption; destruct ty; reflexivity.
Qed.

Lemma apply_overlay_captured (w0 w : World St) :
  overlay_tinted (overlayManager w0) ->
  exists w',
    PresetManager.apply_overlay
      {| Preset.ov_color :=
           Val (js_or (OverlayManager.currentColor (overlayManager w0)) "#000000");
         Preset.ov_opacity :=
           Val (js_or (Val (OverlayManager.currentOpacity (overlayManager w0))) (num 0)) |}
      w = Ok w' /\
    OverlayManager.getCurrentTint (overlayManager w')
    = OverlayManager.getCurrentTint (overlayManager w0) /\
    bgManager w' = bgManager w /\ reader w' = reader w.
Proof.
  intros (s & q & Hcol & Hne & Hop & Hrange).
  unfold PresetManager.apply_overlay, on_overlayManager, OverlayManager.setTint,
    OverlayManager.getCurrentTint.
  cbn [Preset.ov_color Preset.ov_opacity]. rewrite Hcol, Hop.
  unfold js_or. rewrite (truthy_string_nonempty s Hne).
  cbn [is_truthy]. rewrite (truthy_string_nonempty s Hne). cbn [negb ToNumber].
  assert (Hq : Math_max (num 0) (Math_min (num 1)
                 (if truthy (Num q) then Num q else num 0)) = Num q).
  { change (Math_max (num 0) (Math_min (num 1) ?x)) with (clamp 0 1 x).
    unfold truthy, truthy_num.
    destruct (Qeq_bool q 0) eqn:Hz; cbn [negb].
    - apply Qeq_bool_iff in Hz.
      assert (Hq0 : q = Q2Qc (inject_Z 0)).
      { apply Qc_is_canon. rewrite Hz. reflexivity. }
      rewrite Hq0. reflexivity.
    - apply clamp_in_range. exact Hrange. }
  rewrite Hq. cbn [OverlayManager.hexToRgba].
  destruct (hex_channels s) as [[c1 c2] c3].
  eexists. split; [reflexivity|]. repeat split.
Qed.

Lemma in_sync_ready (w : World St) : reader_in_sync w -> ready (reader w).
Proof.
  unfold reader_in_sync. intros H. split.
  - apply (f_equal a_backgroundColor) in H. cbn in H. eexists. exact H.
  - apply (f_equal a_fontSize) in H. cbn in H. rewrite H.
    apply clamp_idempotent. lia.
Qed.

(** C3, amended.  In every state the background manager can reach, when the
    overlay shows a tint (a colour, and an opacity in 0..1) and the reader
    shows what ApplicationPreferences hold, capturing the current state and
    applying the captured preset at once succeeds and leaves the background
    media (path and type), the overlay colour and opacity, and every
    appearance field of the reader at their values from before the capture. *)
Theorem capture_then_apply_restores (name : string) (w : World St) :
  BackgroundManager.reachable pf (bgManager w) ->
  overlay_tinted (overlayManager w) ->
  reader_in_sync w ->
  let result := capture_then_apply pf be name w in
  fst result = true /\
  BackgroundManager.getCurrentMedia (bgManager (snd result))
  = BackgroundManager.getCurrentMedia (bgManager w) /\
  OverlayManager.getCurrentTint (overlayManager (snd result))
  = OverlayManager.getCurrentTint (overlayManager w) /\
  appearance (reader (snd result)) = appearance (reader w).
Proof.
  intros Hmedia Htint Hsync. cbn zeta.
  apply reachable_media_consistent in Hmedia.
  unfold capture_then_apply, PresetManager.applyPreset, PresetManager.find_preset.
  cbn [presets with_presets find PresetManager.buildPresetFromCurrent Preset.name].
  rewrite String.eqb_refl.
  set (captured := PresetManager.buildPresetFromCurrent name (currentPrefs w) w).
  set (w1 := with_presets _ w).
  assert (Happly : exists w4,
             PresetManager.apply_settings pf be captured w1 = Ok w4 /\
             BackgroundManager.getCurrentMedia (bgManager w4)
             = BackgroundManager.getCurrentMedia (bgManager w) /\
             OverlayManager.getCurrentTint (overlayManager w4)
             = OverlayManager.getCurrentTint (overlayManager w) /\
             appearance (reader w4) = appearance (reader w)).
  { unfold PresetManager.apply_settings, captured,
      PresetManager.buildPresetFromCurrent.
    cbv zeta.
    cbn [Preset.background Preset.overlay Preset.reader PresetManager.optionally bind].
    destruct (apply_background_captured w w1 Hmedia eq_refl)
      as (w2 & E2 & M2 & _ & O2 & R2).
    cbn zeta in E2. rewrite E2. cbn [bind PresetManager.optionally].
    destruct (apply_overlay_captured w w2 Htint) as (w3 & E3 & T3 & B3 & R3).
    rewrite E3. cbn [bind PresetManager.optionally].
    assert (Hready : ready (reader w3)).
    { rewrite R3, R2. apply (in_sync_ready w Hsync). }
    edestruct (apply_reader_full w3) as (w4 & E4 & A4 & B4 & O4);
      [| | | | | | exact Hready |].
    7: { exists w4. split; [exact E4|].
         rewrite A4, B4, B3, M2, O4, T3, Hsync. repeat split. }
    all: apply js_or_truthy; reflexivity. }
  destruct Happly as (w4 & E4 & M4 & T4 & A4).
  unfold PresetManager.apply_found. rewrite E4.
  cbn [fst snd reader bgManager overlayManager with_currentPreset].
  repeat split; assumption.
Qed.

End RoundTrip.

(** C3, as stated, fails in the state the application starts in: no tint has
    been set, the capture writes the default colour #000000 for it, and
    applying that leaves the overlay with a colour where it had none. *)
Lemma capture_then_apply_changes_overlay :
  let w := state_of (Main.init MemoryBackend.desktop MemoryBackend.backend
                       (Main.initial MemoryBackend.empty)) in
  let result := capture_then_apply MemoryBackend.desktop MemoryBackend.backend "Evening" w in
  completed (Main.init MemoryBackend.desktop MemoryBackend.backend
               (Main.initial MemoryBackend.empty)) = true /\
  fst result = true /\
  OverlayManager.getCurrentTint (overlayManager w) = (Null, num 0) /\
  OverlayManager.getCurrentTint (overlayManager (snd result)) = (Val "#000000", num 0) /\
  OverlayManager.getCurrentTint (overlayManager (snd result))
  <> OverlayManager.getCurrentTint (overlayManager w).
Proof.
  cbv zeta. repeat split. intros H. vm_compute in H. discriminate H.
Qed.

(** The capture reads the reader group from the preferences, not from the
    reader: where the two disagree (here after a session preset that could
    not be applied to the end) the round trip replaces what the reader
    showed. *)
Example capture_reads_preferences :
  let w := state_of (Main.init MemoryBackend.desktop MemoryBackend.backend
                       (Main.initial (store_after_session (half_preset "_last_session")))) in
  let result := capture_then_apply MemoryBackend.desktop MemoryBackend.backend "Evening" w in
  fst result = true /\
  EpubReader.fontFamily (reader w) = Val "monospace" /\
  EpubReader.fontFamily (reader (snd result)) = Val "serif".
Proof. cbv zeta. repeat split. Qed.

Lemma capture_then_apply_restores_witness :
  let w0 := state_of (Main.init MemoryBackend.browser MemoryBackend.backend
                        (Main.initial MemoryBackend.empty)) in
  let w := Main.selectPreset MemoryBackend.browser MemoryBackend.backend
             PresetManager.night_reading w0 in
  let result := capture_then_apply MemoryBackend.browser MemoryBackend.backend "Evening" w in
  fst result = true /\
  BackgroundManager.getCurrentMedia (bgManager (snd result))
  = BackgroundManager.getCurrentMedia (bgManager w) /\
  OverlayManager.getCurrentTint (overlayManager (snd result))
  = OverlayManager.getCurrentTint (overlayManager w) /\
  appearance (reader (snd result)) = appearance (reader w).
Proof.
  cbv zeta.
  apply (capture_then_apply_restores MemoryBackend.browser MemoryBackend.backend "Evening").
  - change (BackgroundManager.reachable MemoryBackend.browser
              (BackgroundManager.clearMedia
                 (BackgroundManager.setMuted true BackgroundManager.constructor))).
    apply BackgroundManager.reach_clearMedia, BackgroundManager.reach_setMuted,
      BackgroundManager.reach_new.
  - exists "#1a1a2e", (Q2Qc (4 # 10)).
    split; [reflexivity|]. split; [discriminate|]. split; [reflexivity|].
    split; intros H; discriminate H.
  - reflexivity.
Defined.

(** ** Startup *)

Section Startup.

Context {St : Type} (pf : Platform) (be : Backend St).

Lemma hasLastSession_find (l : list Preset.t) :
  Main.hasLastSession l
  = match PresetManager.find_preset "_last_session" l with
    | Some _ => true
    | None => false
    end.
Proof.
  unfold Main.hasLastSession, PresetManager.find_preset.
  induction l as [|p l IH]; [reflexivity|]. cbn [existsb find].
  destruct (Preset.name p =? "_last_session")%string; [reflexivity | exact IH].
Qed.

Lemma apply_reader_preferences_spec (p : Prefs.t) (w : World St) :
  ready (reader w) ->
  exists w',
    Main.apply_reader_preferences p w = Ok w' /\
    appearance (reader w') = appearance_applied p /\
    bgManager w' = bgManager w /\ overlayManager w' = overlayManager w /\
    kept w w'.
Proof.
  intros Hw.
  assert (Hk : wsets (St:=St) (Main.apply_reader_preferences p)
                 (fun a =>
                    put_scrollbarThumb (Val (js_or (Prefs.scrollbarThumb p) "#4a9eff"))
                      (put_scrollbarTrack (Val (js_or (Prefs.scrollbarTrack p) "#1a1a1a"))
                      (put_blur (clamp 0 40 (js_nullish (Prefs.glassBlur p) (num 12)))
                      (put_glassmorphism (Val (js_or (Prefs.glassmorphism p) false))
                      (put_opacity
                         (clamp 0 1 (js_div (js_nullish (Prefs.containerOpacity p) (num 95))
                                       (num 100)))
                      (put_backgroundColor (Val (js_or (Prefs.containerColor p) "#FFFFFF"))
                      (put_textColor (Val (js_or (Prefs.textColor p) "#1a1a1a"))
                      (put_flow (Val (js_or (Prefs.readingMode p) "paginated"))
                      (put_fontSize (clamp 12 32 (ToNumber (Prefs.fontSize p)))
                      (put_fontFamily (Prefs.fontFamily p) a))))))))))).
  { unfold Main.apply_reader_preferences, Main.reader_does.
    apply (wsets_bind _ _ _ (fun a => put_scrollbarThumb _ (put_scrollbarTrack _ a))).
    apply (wsets_bind _ _ _ (put_blur _)).
    apply (wsets_bind _ _ _ (put_glassmorphism _)).
    apply (wsets_bind _ _ _ (put_opacity _)).
    apply (wsets_bind _ _ _ (put_backgroundColor _)).
    apply (wsets_bind _ _ _ (put_textColor _)).
    apply (wsets_bind _ _ _ (put_flow _)).
    apply (wsets_bind _ _ _ (put_fontSize _)).
    apply (wsets_bind _ _ (fun a => a) (put_fontFamily _)).
    - apply wsets_start.
    - apply (with_reader_wsets (EpubReader.setFontFamily _)), setFontFamily_sets.
    - apply (with_reader_wsets (EpubReader.setFontSize _)), setFontSize_sets.
    - apply detached_setFlow_wsets.
    - apply (with_reader_wsets (EpubReader.setTextColor _)), setTextColor_sets.
    - apply on_reader_wsets, setBackgroundColor_sets.
    - apply on_reader_wsets, setOpacity_sets.
    - apply on_reader_wsets, setGlassmorphism_sets.
    - apply on_reader_wsets, setBlur_sets.
    - apply on_reader_wsets, setScrollbarColors_sets. }
  destruct (Hk w Hw) as (w' & E & A & _ & B & O).
  exists w'. split; [exact E|]. split; [rewrite A; reflexivity|].
  split; [exact B|]. split; [exact O|].
  assert (Hkeeps : keeps (St:=St) (Main.apply_reader_preferences p)).
  { intros v. unfold Main.apply_reader_preferences, Main.reader_does.
    repeat (apply bind_kept;
            [| first [ apply on_reader_keeps
                     | apply with_reader_keeps with (f := fun w => _ (reader w))
                     | apply detached_setFlow_keeps ] ]).
    apply kept_refl. }
  specialize (Hkeeps w). rewrite E in Hkeeps. exact Hkeeps.
Qed.

Lemma apply_background_preferences_spec (p : Prefs.t) (w : World St) :
  exists w',
    Main.apply_background_preferences pf p w = Ok w' /\
    bgManager w'
    = BackgroundManager.setMuted (js_nullish (Prefs.bgAudioMuted p) true)
        (if is_truthy (Prefs.bgMediaPath p)
         then state_of (BackgroundManager.setMedia pf (Prefs.bgMediaPath p) (bgManager w))
         else bgManager w) /\
    reader w' = reader w /\ overlayManager w' = overlayManager w /\ kept w w'.
Proof.
  unfold Main.apply_background_preferences, when.
  destruct (is_truthy (Prefs.bgMediaPath p)) eqn:Ht.
  - unfold on_bgManager, BackgroundManager.setMedia. rewrite Ht. cbn [negb].
    destruct (Prefs.bgMediaPath p) as [| |path]; try discriminate.
    destruct (BackgroundManager._getMediaType path); cbn;
      eexists; (split; [reflexivity|]); repeat split.
  - cbn. eexists. split; [reflexivity|]. repeat split.
Qed.

Lemma loadPresets_frame (w : World St) :
  let w' := snd (PresetManager.loadPresets pf be w) in
  fst (PresetManager.loadPresets pf be w) = presets w' /\
  reader w' = reader w /\ bgManager w' = bgManager w /\
  overlayManager w' = overlayManager w /\ currentPrefs w' = currentPrefs w /\
  currentPreset w' = currentPreset w.
Proof.
  unfold PresetManager.loadPresets. destruct (isTauri pf); cbn; [|repeat split].
  destruct (list_presets be (store w)) as [names|]; cbn; [|repeat split].
  destruct (load_each_spec be names (with_presets [] (logged Inv_list_presets w)))
    as (_ & _ & H3 & H4 & H5 & H6 & H7 & _).
  repeat split; assumption.
Qed.

Lemma load_preferences_reader (w : World St) :
  reader (Main.load_preferences pf be w) = reader w.
Proof.
  unfold Main.load_preferences. destruct (main_isTauri pf); [|reflexivity].
  cbn zeta. destruct (get_preferences be _); reflexivity.
Qed.

(** C4, amended.  At startup, after the preferences and the preset list have
    been loaded: if the list has a preset named _last_session, that preset
    (the first of that name) is applied and the appearance and background
    preferences are not applied to any state holder; when the application
    succeeds, the preferences are overwritten from the preset
    ([Object.assign] of what [extractPrefsFromPreset] takes from it) and it
    becomes the current preset; when a setter throws, the preferences stay
    as loaded.  If the list has no such preset, the preferences are applied
    to the reader and the background, the overlay is not touched and the
    preferences stay as loaded.  Either way this step completes and leaves
    the music preferences as loaded; the music is then restored from them,
    the recent books are fetched and the toast "Epilogue ready" ends the
    startup. *)
Theorem startup_restore (w0 : World St) :
  ready (reader w0) ->
  let w := snd (PresetManager.loadPresets pf be (Main.load_preferences pf be w0)) in
  Main.init pf be w0
  = (Main.restore_atmosphere pf be (presets w) w
     >>= Main.restore_music pf
     >>= (fun w => Ok (LibraryManager.init pf w))
     >>= (fun w => Ok (showToast "Epilogue ready" "info" w)))%res /\
  (exists wa,
     Main.restore_atmosphere pf be (presets w) w = Ok wa /\
     music_prefs (currentPrefs wa) = music_prefs (currentPrefs w)) /\
  match PresetManager.find_preset "_last_session" (presets w) with
  | Some session =>
      Main.hasLastSession (presets w) = true /\
      match PresetManager.apply_settings pf be session w with
      | Ok w1 =>
          Main.restore_atmosphere pf be (presets w) w
          = Ok (with_currentPrefs
                  (Prefs.assign (currentPrefs w)
                     (PresetManager.extractPrefsFromPreset session))
                  (with_currentPreset (Some session) w1))
      | Throw w1 =>
          Main.restore_atmosphere pf be (presets w) w
          = Ok (showToast "Failed to apply preset" "error" w1) /\
          currentPrefs w1 = currentPrefs w /\ currentPreset w1 = currentPreset w
      end
  | None =>
      Main.hasLastSession (presets w) = false /\
      exists w',
        Main.restore_atmosphere pf be (presets w) w = Ok w' /\
        appearance (reader w') = appearance_applied (currentPrefs w) /\
        bgManager w'
        = BackgroundManager.setMuted
            (js_nullish (Prefs.bgAudioMuted (currentPrefs w)) true)
            (if is_truthy (Prefs.bgMediaPath (currentPrefs w))
             then state_of (BackgroundManager.setMedia pf
                              (Prefs.bgMediaPath (currentPrefs w)) (bgManager w))
             else bgManager w) /\
        overlayManager w' = overlayManager w /\
        currentPrefs w' = currentPrefs w /\
        currentPreset w' = currentPreset w
  end.
Proof.
  intros Hready0. cbn zeta.
  set (wp := Main.load_preferences pf be w0).
  destruct (loadPresets_frame wp) as (Hfst & Hrd & _).
  cbn zeta in Hfst, Hrd.
  set (w := snd (PresetManager.loadPresets pf be wp)) in *.
  assert (Hready : ready (reader w)).
  { rewrite Hrd. unfold wp. rewrite load_preferences_reader. exact Hready0. }
  split.
  { unfold Main.init. fold wp.
    destruct (PresetManager.loadPresets pf be wp) as [loaded w'] eqn:El.
    cbn [fst snd] in *. subst w. rewrite Hfst. reflexivity. }
  unfold Main.restore_atmosphere. rewrite hasLastSession_find.
  unfold PresetManager.applyPreset.
  destruct (PresetManager.find_preset "_last_session" (presets w)) as [session|].
  - unfold PresetManager.apply_found.
    pose proof (apply_settings_keeps pf be session w) as Hk.
    destruct (PresetManager.apply_settings pf be session w) as [w1|w1];
      cbn [state_of] in Hk; destruct Hk as (_ & Hcp & Hprefs & _).
    + cbn [PresetManager.getCurrentPreset currentPreset with_currentPreset currentPrefs].
      rewrite Hprefs. split.
      * eexists. split; [reflexivity|]. reflexivity.
      * split; reflexivity.
    + split.
      * eexists. split; [reflexivity|].
        change (currentPrefs (showToast "Failed to apply preset" "error" w1))
          with (currentPrefs w1).
        rewrite Hprefs. reflexivity.
      * split; [reflexivity|]. split; [reflexivity|]. split; assumption.
  - unfold Main.apply_preferences. cbn zeta.
    destruct (apply_reader_preferences_spec (currentPrefs w) w Hready)
      as (w1 & E1 & A1 & B1 & O1 & K1).
    rewrite E1. cbn [bind].
    destruct (apply_background_preferences_spec (currentPrefs w) w1)
      as (w2 & E2 & B2 & R2 & O2 & K2).
    destruct K1 as (_ & K1c & K1p & _). destruct K2 as (_ & K2c & K2p & _).
    assert (Hp : currentPrefs w2 = currentPrefs w) by congruence.
    split.
    + exists w2. split; [exact E2|]. rewrite Hp. reflexivity.
    + split; [reflexivity|].
      exists w2. split; [exact E2|].
      split; [rewrite R2; exact A1|].
      split; [rewrite B2, B1; reflexivity|].
      split; [congruence|].
      split; congruence.
Qed.

End Startup.

(** C4, as stated, fails when the session preset cannot be applied to the
    end: here its scrollbar thumb is [null].  The list has a _last_session
    preset and its font has reached the reader, yet the preferences are not
    synchronized from it (they still say serif) and it is not the current
    preset. *)
Lemma session_preset_not_synchronized :
  let st := store_after_session (half_preset "_last_session") in
  let started := Main.init MemoryBackend.desktop MemoryBackend.backend (Main.initial st) in
  let w := state_of started in
  completed started = true /\
  Main.hasLastSession (presets w) = true /\
  EpubReader.fontFamily (reader w) = Val "monospace" /\
  Prefs.fontFamily (currentPrefs w) = Val "serif" /\
  currentPrefs w = Prefs.defaults /\
  currentPreset w = None /\
  toasts w = [("Failed to apply preset", "error"); ("Epilogue ready", "info")].
Proof.
  cbv zeta. repeat split.
Qed.

(** The session preset the application itself writes on shutdown is applied
    to the end, and takes precedence over the stored preferences. *)
Example session_preset_takes_precedence :
  let session :=
    PresetManager.buildPresetFromCurrent (St := MemoryBackend.Store) "_last_session"
      (Prefs.with_fontSize (Val (num 24))
         (Prefs.with_fontFamily (Val "monospace") Prefs.defaults))
      (snd (PresetManager.apply_found MemoryBackend.desktop MemoryBackend.backend
              PresetManager.night_reading (Main.initial MemoryBackend.empty))) in
  let started := Main.init MemoryBackend.desktop MemoryBackend.backend
                   (Main.initial (store_after_session session)) in
  let w := state_of started in
  completed started = true /\
  Prefs.fontFamily (currentPrefs w) = Val "monospace" /\
  Prefs.fontSize (currentPrefs w) = Val (num 24) /\
  EpubReader.fontFamily (reader w) = Val "monospace" /\
  EpubReader.fontSize (reader w) = num 24 /\
  OverlayManager.getCurrentTint (overlayManager w) = (Val "#1a1a2e", ratio 4 10) /\
  option_map Preset.name (currentPreset w) = Some "_last_session".
Proof.
  cbv zeta. repeat split.
Qed.

Lemma constructor_ready : ready EpubReader.constructor.
Proof. split; [exists "#FFFFFF"; reflexivity | reflexivity]. Qed.

Lemma startup_restore_witness :
  let pf := MemoryBackend.desktop in
  let be := MemoryBackend.backend in
  let w0 := Main.initial (store_after_session (half_preset "_last_session")) in
  ready (reader w0) /\
  let w := snd (PresetManager.loadPresets pf be (Main.load_preferences pf be w0)) in
  Main.init pf be w0
  = (Main.restore_atmosphere pf be (presets w) w
     >>= Main.restore_music pf
     >>= (fun w => Ok (LibraryManager.init pf w))
     >>= (fun w => Ok (showToast "Epilogue ready" "info" w)))%res /\
  (exists wa,
     Main.restore_atmosphere pf be (presets w) w = Ok wa /\
     music_prefs (currentPrefs wa) = music_prefs (currentPrefs w)) /\
  match PresetManager.find_preset "_last_session" (presets w) with
  | Some session =>
      Main.hasLastSession (presets w) = true /\
      match PresetManager.apply_settings pf be session w with
      | Ok w1 =>
          Main.restore_atmosphere pf be (presets w) w
          = Ok (with_currentPrefs
                  (Prefs.assign (currentPrefs w)
                     (PresetManager.extractPrefsFromPreset session))
                  (with_currentPreset (Some session) w1))
      | Throw w1 =>
          Main.restore_atmosphere pf be (presets w) w
          = Ok (showToast "Failed to apply preset" "error" w1) /\
          currentPrefs w1 = currentPrefs w /\ currentPreset w1 = currentPreset w
      end
  | None =>
      Main.hasLastSession (presets w) = false /\
      exists w',
        Main.restore_atmosphere pf be (presets w) w = Ok w' /\
        appearance (reader w') = appearance_applied (currentPrefs w) /\
        bgManager w'
        = BackgroundManager.setMuted
            (js_nullish (Prefs.bgAudioMuted (currentPrefs w)) true)
            (if is_truthy (Prefs.bgMediaPath (currentPrefs w))
             then state_of (BackgroundManager.setMedia pf
                              (Prefs.bgMediaPath (currentPrefs w)) (bgManager w))
             else bgManager w) /\
        overlayManager w' = overlayManager w /\
        currentPrefs w' = currentPrefs w /\
        currentPreset w' = currentPreset w
  end.
Proof.
  intros pf be w0. split.
  - exact constructor_ready.
  - exact (startup_restore pf be w0 constructor_ready).
Defined.

(** ** Debounced progress saving *)

#[local] Open Scope nat_scope.

Lemma nondecreasing_from (t0 : nat) (times : list nat) :
  nondecreasing (t0 :: times) -> Forall (fun t => t0 <= t) times.
Proof.
  revert t0. induction times as [|t times IH]; intros t0 H; constructor.
  - apply H.
  - destruct H as [H1 H2]. specialize (IH t H2).
    eapply Forall_impl; [|exact IH]. cbn. intros a Ha. lia.
Qed.

Lemma nondecreasing_tail (t0 : nat) (times : list nat) :
  nondecreasing (t0 :: times) -> nondecreasing times.
Proof. destruct times as [|t times]; [intros _; exact I | intros [_ H]; exact H]. Qed.



Lemma events_of_relocations (events : list (nat * Js Location)) :
  events_of (relocations events) = events.
Proof.
  induction events as [|[t l] events IH]; [reflexivity|].
  cbn. f_equal. exact IH.
Qed.

Section Debounce.

Context {St : Type} (pf : Platform) (be : Backend St).


(** The first event finds no timer and arms one. *)
Lemma relocated_arms (w : World St) (t : nat) (l : Js Location) :
  timers w = [] ->
  Main.relocated t l w = armed w t l (nextTimerId w) (S (nextTimerId w)).
Proof.
  destruct w as [r b o ps cp prefs bid sto tms nid tst sre inv]. cbn. intros ->.
  unfold Main.relocated, Main.clearTimeout, Main.setTimeout, armed.
  cbn. destruct sto; reflexivity.
Qed.

(** An event that finds the timer of the one before it still pending
    cancels that timer and arms its own, however long the other has been
    pending. *)
Lemma relocated_rearms (w : World St) (t t' : nat) (l l' : Js Location) (id next : nat) :
  Main.relocated t' l' (armed w t l id next) = armed w t' l' next (S next).
Proof.
  destruct w as [r b o ps cp prefs bid sto tms nid tst sre inv].
  unfold Main.relocated, Main.clearTimeout, Main.setTimeout, armed.
  cbn -[Nat.eqb Nat.add]. rewrite Nat.eqb_refl. reflexivity.
Qed.


(** The state once the pending timer has run. *)
Lemma timeout_armed (w : World St) (now t : nat) (l : Js Location) (id id' next : nat) :
  Main.timeout pf be now id' (armed w t l id next)
  = if (id =? id') && (t + 2000 <=? now)
    then Some (Main.save_progress pf be l
                 (with_timers [] (armed w t l id next)))
    else None.
Proof.
  unfold Main.timeout, Main.clearTimeout, armed.
  cbn -[Nat.eqb Nat.leb Nat.add].
  destruct (id =? id') eqn:E; cbn -[Nat.eqb Nat.leb Nat.add]; [|reflexivity].
  destruct (t + 2000 <=? now); reflexivity.
Qed.



Lemma save_progress_written (w : World St) (b : EpubReader.Book) (c : string) :
  isTauri pf = true ->
  is_truthy (currentBookId w) = true ->
  EpubReader.book (reader w) = Some b ->
  Main.save_progress pf be (at_cfi c) w
  = with_store
      (fst (update_progress be (currentBookId w) (progress_of b c) c (store w)))
      (logged (progress_write (currentBookId w) b c) w).
Proof.
  intros Ht Hid Hb.
  unfold Main.save_progress, at_cfi, LibraryManager.updateProgress, progress_of,
    progress_write.
  cbn [start cfi]. rewrite Hid, Hb, Ht. reflexivity.
Qed.




End Debounce.


(** The three events of the specification's example, run: one write, with
    the token and the fraction of the event at 1000 ms, whether the browser
    runs the timer on time or late. *)
Example debounce_three_events :
  let w := reading MemoryBackend.empty in
  let events := relocations [(0, at_cfi "epubcfi(/6/4)"); (500, at_cfi "epubcfi(/6/6)");
                             (1000, at_cfi "epubcfi(/6/8)")] in
  let on_time := Main.run MemoryBackend.desktop MemoryBackend.backend
                   (events ++ [(3000, Main.Timeout 3)]) w in
  let late := Main.run MemoryBackend.desktop MemoryBackend.backend
                (events ++ [(3250, Main.Timeout 3)]) w in
  option_map (fun w' => MemoryBackend.stored_progress (store w')) on_time
  = Some [(Val "book:/books/walden.epub", ratio 3 10, "epubcfi(/6/8)")] /\
  option_map (fun w' => MemoryBackend.stored_progress (store w')) late
  = option_map (fun w' => MemoryBackend.stored_progress (store w')) on_time /\
  (* the browser runs no timer before its deadline, and none that was cancelled *)
  Main.run MemoryBackend.desktop MemoryBackend.backend
    (events ++ [(2999, Main.Timeout 3)]) w = None /\
  Main.run MemoryBackend.desktop MemoryBackend.backend
    (events ++ [(3000, Main.Timeout 1)]) w = None.
Proof.
  cbv zeta.
  split; [vm_compute; reflexivity|]. split; [vm_compute; reflexivity|].
  split; vm_compute; reflexivity.
Qed.

(** The listener sits on the rendition [openBookFromFile] created.  A
    change of the reading mode replaces that rendition, the new one has no
    progress listener, and from then on page turns are not written. *)
Example mode_change_ends_progress_tracking :
  let w := Main.selectMode MemoryBackend.desktop MemoryBackend.backend "scrolled"
             (reading MemoryBackend.empty) in
  EpubReader.listens "relocated" (reader (reading MemoryBackend.empty)) = true /\
  EpubReader.listens "relocated" (reader w) = false /\
  Main.run MemoryBackend.desktop MemoryBackend.backend
    (relocations [(0, at_cfi "epubcfi(/6/4)"); (1000, at_cfi "epubcfi(/6/8)")]) w
  = Some w /\
  timers w = [].
Proof.
  cbv zeta.
  split; [vm_compute; reflexivity|]. split; [vm_compute; reflexivity|].
  split; vm_compute; reflexivity.
Qed.

(** * Further properties *)

(** ** Colours and the overlay *)

Lemma clamp_is_in_range (lo hi : Z) (x : JsNum) :
  (lo <= hi)%Z -> in_range lo hi (clamp lo hi x).
Proof.
  intros Hlh. destruct x as [|q].
  - left. reflexivity.
  - right. destruct (clamp_Num lo hi q Hlh) as (r & Hr & Hrange & _).
    exists r. split; assumption.
Qed.

Lemma num_in_range (lo hi z : Z) : (lo <= z <= hi)%Z -> in_range lo hi (num z).
Proof.
  intros [H1 H2]. right. exists (Q2Qc (inject_Z z)). split; [reflexivity|].
  unfold Qcle. cbn [this Q2Qc]. rewrite !Qred_correct.
  split; rewrite <- Zle_Qle; assumption.
Qed.

(** X1.  In every state the overlay manager can reach, the stored opacity is NaN
    or lies in 0..1, a stored colour is a non-empty string, and when that
    colour and opacity make a value CSS accepts (no NaN among the channels
    and the opacity) the element is painted with exactly it; without a
    colour the opacity is 0 and the element is transparent (or still
    untouched).  A [setTint] whose value CSS does not accept stores the
    colour and the opacity all the same and leaves the element with the
    paint it had. *)
Theorem overlay_always_consistent (o : OverlayManager.t) :
  OverlayManager.reachable o ->
  overlay_consistent o /\
  forall (color : string) (opacity : Js JsNum),
    color <> "" ->
    let o' := state_of (OverlayManager.setTint (Val color) opacity o) in
    OverlayManager.currentColor o' = Val color /\
    OverlayManager.background o'
    = style_assign (tint_paint color (OverlayManager.currentOpacity o'))
        (OverlayManager.background o).
Proof.
  intros Hr. split.
  - induction Hr as [|o _ _|o color opacity _ _].
    + split; [apply (num_in_range 0 1 0); lia|]. cbn. split; [reflexivity|].
      right. reflexivity.
    + split; [apply (num_in_range 0 1 0); lia|]. cbn. split; [reflexivity|].
      left. reflexivity.
    + unfold OverlayManager.setTint.
      destruct (is_truthy color) eqn:Hc; cbn [negb].
      * destruct color as [| |c]; try discriminate Hc.
        cbn [OverlayManager.hexToRgba]. unfold tint_paint.
        destruct (hex_channels c) as [[cr cg] cb] eqn:Hch. cbn [state_of].
        split.
        -- cbn. apply (clamp_is_in_range 0 1). lia.
        -- cbn [OverlayManager.currentColor OverlayManager.background
                OverlayManager.currentOpacity].
           split; [apply truthy_string_inv; exact Hc|].
           unfold tint_paint. rewrite Hch.
           unfold style_assign. intros ->. reflexivity.
      * cbn [state_of]. split; [apply (num_in_range 0 1 0); lia|].
        cbn. split; [reflexivity|]. left. reflexivity.
  - intros color opacity Hne. cbn zeta.
    unfold OverlayManager.setTint. cbn [is_truthy].
    rewrite (truthy_string_nonempty color Hne). cbn [negb OverlayManager.hexToRgba].
    unfold tint_paint.
    destruct (hex_channels color) as [[cr cg] cb]. cbn [state_of].
    split; reflexivity.
Qed.

Lemma overlay_always_consistent_witness :
  let o := state_of (OverlayManager.setTint (Val "#8B4513") (Val (ratio 7 2))
                       (OverlayManager.clearTint OverlayManager.constructor)) in
  overlay_consistent o /\
  let o' := state_of (OverlayManager.setTint (Val "red") (Val (ratio 1 2)) o) in
  OverlayManager.currentColor o' = Val "red" /\
  OverlayManager.background o'
  = style_assign (tint_paint "red" (OverlayManager.currentOpacity o'))
      (OverlayManager.background o).
Proof.
  cbv zeta.
  destruct (overlay_always_consistent
              (state_of (OverlayManager.setTint (Val "#8B4513") (Val (ratio 7 2))
                           (OverlayManager.clearTint OverlayManager.constructor))))
    as [H1 H2].
  - apply OverlayManager.reach_set, OverlayManager.reach_clear, OverlayManager.reach_new.
  - split; [exact H1|]. apply (H2 "red" (Val (ratio 1 2))). discriminate.
Defined.

(** A colour name is no hex colour: two of its channels come out as NaN,
    CSS drops the value, and the element keeps the paint of the tint set
    before while [getCurrentTint] reports the new one. *)
Example setTint_with_a_colour_name :
  let o := state_of (OverlayManager.setTint (Val "#8B4513") (Val (ratio 1 5))
                       OverlayManager.constructor) in
  let o' := state_of (OverlayManager.setTint (Val "red") (Val (ratio 1 2)) o) in
  OverlayManager.hexToRgba (Val "red") (ratio 1 2)
  = Some (CssRgba NaN (num 13) NaN (ratio 1 2)) /\
  OverlayManager.getCurrentTint o' = (Val "red", ratio 1 2) /\
  OverlayManager.background o' = OverlayManager.background o /\
  OverlayManager.background o = CssRgba (num 139) (num 69) (num 19) (ratio 1 5).
Proof. vm_compute. repeat split. Qed.

Ltac each_char c H :=
  destruct c as [[] [] [] [] [] [] [] []]; vm_compute in H; try discriminate H.

Lemma hex_digit_bounds (c : ascii) (d : Z) :
  Str.hex_digit c = Some d -> (0 <= d <= 15)%Z.
Proof.
  intros H. each_char c H; injection H as <-; lia.
Qed.

Lemma hex_digit_not_space (c : ascii) (d : Z) :
  Str.hex_digit c = Some d -> Str.is_space c = false.
Proof. intros H. each_char c H; reflexivity. Qed.

Lemma hex_digit_not_x (c : ascii) (d : Z) :
  Str.hex_digit c = Some d ->
  (Ascii.eqb c "x" || Ascii.eqb c "X")%char = false.
Proof. intros H. each_char c H; reflexivity. Qed.

Lemma hex_digit_no_sign (c : ascii) (d : Z) (r : string) :
  Str.hex_digit c = Some d ->
  match String c r with
  | String "-" r' => (true, r')
  | String "+" r' => (false, r')
  | _ => (false, String c r)
  end = (false, String c r).
Proof. intros H. each_char c H; reflexivity. Qed.

Lemma hex_digit_no_prefix (c1 c2 : ascii) (d2 : Z) (r : string) :
  Str.hex_digit c2 = Some d2 ->
  match String c1 (String c2 r) with
  | String "0" (String x r') =>
      if (Ascii.eqb x "x" || Ascii.eqb x "X")%char then r' else String c1 (String c2 r)
  | _ => String c1 (String c2 r)
  end = String c1 (String c2 r).
Proof.
  intros H. pose proof (hex_digit_not_x c2 d2 H) as Hx.
  destruct c1 as [[] [] [] [] [] [] [] []]; try reflexivity.
  rewrite Hx. reflexivity.
Qed.

(** [parseInt] of two hexadecimal digits. *)
Lemma parseInt16_two_digits (c1 c2 : ascii) (d1 d2 : Z) :
  Str.hex_digit c1 = Some d1 -> Str.hex_digit c2 = Some d2 ->
  Str.parseInt16 (String c1 (String c2 "")) = num (16 * d1 + d2).
Proof.
  intros H1 H2. unfold Str.parseInt16. cbn [Str.skip_spaces].
  rewrite (hex_digit_not_space c1 d1 H1). cbv zeta.
  rewrite (hex_digit_no_sign c1 d1 _ H1).
  rewrite (hex_digit_no_prefix c1 c2 d2 "" H2).
  cbn [Str.hex_prefix]. rewrite H1, H2.
  replace (16 * (16 * 0 + d1) + d2)%Z with (16 * d1 + d2)%Z by lia.
  reflexivity.
Qed.

(** X2.  For every colour written as # and six hexadecimal digits, the three
    channels [hexToRgba] and [updateContainerStyle] compute are the numbers
    the digit pairs denote, each between 0 and 255; none is NaN. *)
Theorem hex_channels_of_hex6 (c1 c2 c3 c4 c5 c6 : ascii) (d1 d2 d3 d4 d5 d6 : Z) :
  Str.hex_digit c1 = Some d1 -> Str.hex_digit c2 = Some d2 ->
  Str.hex_digit c3 = Some d3 -> Str.hex_digit c4 = Some d4 ->
  Str.hex_digit c5 = Some d5 -> Str.hex_digit c6 = Some d6 ->
  hex_channels (hex6 c1 c2 c3 c4 c5 c6)
  = (num (16 * d1 + d2), num (16 * d3 + d4), num (16 * d5 + d6)) /\
  (0 <= 16 * d1 + d2 <= 255)%Z /\
  (0 <= 16 * d3 + d4 <= 255)%Z /\
  (0 <= 16 * d5 + d6 <= 255)%Z /\
  forall opacity,
    OverlayManager.hexToRgba (Val (hex6 c1 c2 c3 c4 c5 c6)) opacity
    = Some (CssRgba (num (16 * d1 + d2)) (num (16 * d3 + d4)) (num (16 * d5 + d6))
              opacity).
Proof.
  intros H1 H2 H3 H4 H5 H6.
  assert (Hch : hex_channels (hex6 c1 c2 c3 c4 c5 c6)
                = (num (16 * d1 + d2), num (16 * d3 + d4), num (16 * d5 + d6))).
  { unfold hex_channels, hex6.
    change (Str.remove_first "#" (String "#" ?r)) with r.
    change (Str.substring 0 2 (String c1 (String c2 ?r))) with (String c1 (String c2 "")).
    change (Str.substring 2 4 (String c1 (String c2 (String c3 (String c4 ?r)))))
      with (String c3 (String c4 "")).
    change (Str.substring 4 6
              (String c1 (String c2 (String c3 (String c4 (String c5 (String c6 "")))))))
      with (String c5 (String c6 "")).
    rewrite (parseInt16_two_digits c1 c2 d1 d2 H1 H2),
      (parseInt16_two_digits c3 c4 d3 d4 H3 H4),
      (parseInt16_two_digits c5 c6 d5 d6 H5 H6).
    reflexivity. }
  pose proof (hex_digit_bounds _ _ H1). pose proof (hex_digit_bounds _ _ H2).
  pose proof (hex_digit_bounds _ _ H3). pose proof (hex_digit_bounds _ _ H4).
  pose proof (hex_digit_bounds _ _ H5). pose proof (hex_digit_bounds _ _ H6).
  split; [exact Hch|]. repeat (split; [lia|]).
  intros opacity. unfold OverlayManager.hexToRgba. rewrite Hch. reflexivity.
Qed.

Lemma hex_channels_of_hex6_witness :
  hex_channels (hex6 "8" "B" "4" "5" "1" "3")
  = (num (16 * 8 + 11), num (16 * 4 + 5), num (16 * 1 + 3)) /\
  (0 <= 16 * 8 + 11 <= 255)%Z /\
  (0 <= 16 * 4 + 5 <= 255)%Z /\
  (0 <= 16 * 1 + 3 <= 255)%Z /\
  forall opacity,
    OverlayManager.hexToRgba (Val (hex6 "8" "B" "4" "5" "1" "3")) opacity
    = Some (CssRgba (num (16 * 8 + 11)) (num (16 * 4 + 5)) (num (16 * 1 + 3)) opacity).
Proof.
  apply (hex_channels_of_hex6 "8" "B" "4" "5" "1" "3" 8 11 4 5 1 3); reflexivity.
Defined.

(** ** The background layers *)

(** X3.  In every state the background manager can reach, at most one of the two
    background elements is showing, it is the one of the current type with
    the URL of the current path, and the other is hidden, stopped and
    without a source: new media fully replaces the old, and clearing leaves
    nothing playing. *)
Theorem background_layers_consistent (pf : Platform) (b : BackgroundManager.t) :
  BackgroundManager.reachable pf b -> layers_consistent pf b.
Proof.
  induction 1 as [|b filePath _ IH|b _ _|b m _ IH|b filePath _ IH|b _ IH
                  |b volume _ IH|b m _ IH].
  - cbn. repeat split.
  - unfold BackgroundManager.setMedia.
    destruct (is_truthy filePath) eqn:Ht; cbn [negb].
    + destruct filePath as [| |p]; try discriminate Ht.
      destruct (BackgroundManager._getMediaType p) as [[|]|]; cbn [state_of].
      * cbn. repeat split.
      * cbn. repeat split.
      * exact IH.
    + cbn. repeat split.
  - cbn. repeat split.
  - unfold layers_consistent in *. cbn.
    destruct (BackgroundManager.currentMedia b) as [| |p];
      destruct (BackgroundManager.currentType b) as [[|]|]; try exact IH.
    destruct IH as (H1 & H2 & _ & H4 & H5). repeat split; assumption.
  - unfold BackgroundManager.setMusic.
    destruct filePath as [| |p]; try exact IH. destruct (truthy p); exact IH.
  - exact IH.
  - unfold BackgroundManager.setMusicVolume.
    destruct (Math_max (num 0) (Math_min (num 1) (js_div volume (num 100)))); exact IH.
  - exact IH.
Qed.

Lemma background_layers_consistent_witness :
  layers_consistent MemoryBackend.desktop
    (state_of
       (BackgroundManager.setMedia MemoryBackend.desktop (Val "rain.webm")
          (state_of
             (BackgroundManager.setMedia MemoryBackend.desktop (Val "forest.png")
                BackgroundManager.constructor)))).
Proof.
  apply background_layers_consistent.
  apply BackgroundManager.reach_setMedia, BackgroundManager.reach_setMedia,
    BackgroundManager.reach_new.
Defined.

Lemma setMusicVolume_result (volume : JsNum) (b : BackgroundManager.t) :
  (BackgroundManager.setMusicVolume volume b = Throw b /\
   Math_max (num 0) (Math_min (num 1) (js_div volume (num 100))) = NaN) \/
  exists q : Qc,
    (0 <= q <= 1)%Qc /\
    Math_max (num 0) (Math_min (num 1) (js_div volume (num 100))) = Num q /\
    BackgroundManager.setMusicVolume volume b
    = Ok (BackgroundManager.with_audio (BackgroundManager.bgAudio_src b)
            (BackgroundManager.bgAudio_muted b) (Num q)
            (BackgroundManager.bgAudio_playing b) (BackgroundManager.musicPath b)
            (BackgroundManager.musicMuted b) b).
Proof.
  unfold BackgroundManager.setMusicVolume.
  pose proof (clamp_is_in_range 0 1 (js_div volume (num 100)) ltac:(lia)) as Hr.
  unfold clamp in Hr.
  destruct (Math_max (num 0) (Math_min (num 1) (js_div volume (num 100)))) as [|q].
  - left. split; reflexivity.
  - right. exists q. destruct Hr as [Hr|(q' & Hq & Hr)]; [discriminate|].
    injection Hq as <-. repeat split; apply Hr.
Qed.

(** X4.  In every state the background manager can reach, the audio element has
    no source and is not playing when no track is set, has the track's URL
    and the manager's mute flag when one is set, loops, and has a volume that
    is a number in 0..1. *)
Theorem background_audio_consistent (pf : Platform) (b : BackgroundManager.t) :
  BackgroundManager.reachable pf b -> audio_consistent pf b.
Proof.
  induction 1 as [|b filePath _ IH|b _ IH|b m _ IH|b filePath _ IH|b _ IH
                  |b volume _ IH|b m _ IH].
  - split; [split; reflexivity|]. split; [|reflexivity].
    exists (Q2Qc (1 # 2)). split; [reflexivity|]. split; intros H; discriminate H.
  - unfold BackgroundManager.setMedia.
    destruct (is_truthy filePath) eqn:Ht; cbn [negb].
    + destruct filePath as [| |p]; try discriminate Ht.
      destruct (BackgroundManager._getMediaType p) as [[|]|]; exact IH.
    + exact IH.
  - exact IH.
  - exact IH.
  - destruct IH as (_ & Hv & Hl).
    unfold BackgroundManager.setMusic.
    destruct filePath as [| |p].
    + split; [split; reflexivity|]. split; assumption.
    + split; [split; reflexivity|]. split; assumption.
    + destruct (truthy p) eqn:Hp.
      * split; [|split; assumption]. cbn.
        split; [apply truthy_string_inv; exact Hp|]. split; reflexivity.
      * split; [split; reflexivity|]. split; assumption.
  - destruct IH as (_ & Hv & Hl). split; [split; reflexivity|]. split; assumption.
  - destruct (setMusicVolume_result volume b) as [[-> _]|(q & Hq & _ & ->)];
      cbn [state_of]; [exact IH|].
    destruct IH as (Hp & _ & Hl). split; [exact Hp|]. split; [|exact Hl].
    exists q. split; [reflexivity | exact Hq].
  - destruct IH as (Hp & Hv & Hl). split; [|split; assumption].
    unfold audio_consistent in *. cbn.
    destruct (BackgroundManager.musicPath b) as [| |p] eqn:Hpath; try exact Hp.
    + destruct Hp as [H1 H2]. split; [exact H1|].
      rewrite Bool.andb_false_r. exact H2.
    + destruct Hp as (H1 & H2 & _). repeat split; assumption.
Qed.

Lemma background_audio_consistent_witness :
  audio_consistent MemoryBackend.desktop
    (BackgroundManager.clearMusic
       (BackgroundManager.setMusicMuted false
          (BackgroundManager.setMusic MemoryBackend.desktop (Val "rain.mp3")
             BackgroundManager.constructor))).
Proof.
  apply background_audio_consistent.
  apply BackgroundManager.reach_clearMusic, BackgroundManager.reach_setMusicMuted,
    BackgroundManager.reach_setMusic, BackgroundManager.reach_new.
Defined.

Lemma Q2Qc_le (a b : Q) : (Q2Qc a <= Q2Qc b)%Qc <-> (a <= b)%Q.
Proof.
  unfold Qcle. cbn [this Q2Qc]. rewrite !Qred_correct. reflexivity.
Qed.

Lemma Q2Qc_lt (a b : Q) : (Q2Qc a < Q2Qc b)%Qc <-> (a < b)%Q.
Proof.
  unfold Qclt. cbn [this Q2Qc]. rewrite !Qred_correct. reflexivity.
Qed.

(** [v / 100] as an exact fraction. *)
Lemma div_100 (v : Z) : js_div (num v) (num 100) = Num (Q2Qc (v # 100)).
Proof.
  unfold js_div, num. f_equal. apply Qc_is_canon.
  unfold Qcdiv, Qcmult, Qcinv. cbn [this Q2Qc]. rewrite !Qred_correct.
  unfold Qeq, Qmult, Qinv, inject_Z. cbn. lia.
Qed.

(** [Math.round(x * 100)] on the fraction [z / 100]. *)
Lemma round_times_100 (z : Z) :
  Math_round (js_mul (Num (Q2Qc (z # 100))) (num 100)) = num z.
Proof.
  unfold Math_round, js_mul, num. do 2 f_equal.
  assert (H : (this (Q2Qc (z # 100) * Q2Qc (inject_Z 100))%Qc + (1 # 2) == (2 * z + 1) # 2)%Q).
  { unfold Qcmult. cbn [this Q2Qc]. rewrite !Qred_correct.
    unfold Qeq, Qplus, Qmult, inject_Z.
    cbn [Qnum Qden Pos.mul]. lia. }
  rewrite H. unfold Qfloor. f_equal.
  symmetry. apply (Z.div_unique (2 * z + 1) 2 z 1); lia.
Qed.

(** What the clamp of [setMusicVolume] stores for an integer volume. *)
Lemma volume_clamp (v : Z) :
  Math_max (num 0) (Math_min (num 1) (js_div (num v) (num 100)))
  = Num (Q2Qc (Z.max 0 (Z.min 100 v) # 100)).
Proof.
  rewrite div_100.
  destruct (clamp_Num 0 1 (Q2Qc (v # 100)) ltac:(lia)) as (r & Hr & _ & Hin & Hlo & Hhi).
  unfold clamp in Hr. rewrite Hr. f_equal.
  destruct (Z_lt_le_dec v 0) as [Hneg|Hpos].
  - rewrite Hlo.
    + replace (Z.max 0 (Z.min 100 v)) with 0%Z by lia. apply Qc_is_canon. reflexivity.
    + apply Q2Qc_lt. unfold Qlt, inject_Z. cbn. lia.
  - destruct (Z_le_gt_dec v 100) as [Hle|Hgt].
    + rewrite Hin.
      * replace (Z.max 0 (Z.min 100 v)) with v by lia. reflexivity.
      * split; apply Q2Qc_le; unfold Qle, inject_Z; cbn; lia.
    + rewrite Hhi.
      * replace (Z.max 0 (Z.min 100 v)) with 100%Z by lia. apply Qc_is_canon. reflexivity.
      * apply Q2Qc_lt. unfold Qlt, inject_Z. cbn. lia.
Qed.

(** ** Background music *)

(** X5.  For every integer volume, [setMusicVolume] completes and
    [getCurrentMusic] then reports that volume brought into 0..100: the
    division by 100, the clamp to 0..1, the multiplication by 100 and the
    rounding cancel out.  The track and the mute flag are as before. *)
Theorem music_volume_round_trip (v : Z) (b : BackgroundManager.t) :
  exists b' : BackgroundManager.t,
    BackgroundManager.setMusicVolume (num v) b = Ok b' /\
    BackgroundManager.getCurrentMusic b'
    = {| BackgroundManager.music_path := BackgroundManager.musicPath b;
         BackgroundManager.music_volume := num (Z.max 0 (Z.min 100 v));
         BackgroundManager.music_muted := BackgroundManager.musicMuted b |}.
Proof.
  unfold BackgroundManager.setMusicVolume. rewrite volume_clamp.
  eexists. split; [reflexivity|].
  unfold BackgroundManager.getCurrentMusic.
  cbn [BackgroundManager.with_audio BackgroundManager.bgAudio_volume
       BackgroundManager.musicPath BackgroundManager.musicMuted].
  rewrite round_times_100. reflexivity.
Qed.

(** ** The reader's fields *)

Lemma updateContainerStyle_state (r : EpubReader.t) :
  exists l, state_of (EpubReader.updateContainerStyle r) = EpubReader.with_log l r.
Proof.
  unfold EpubReader.updateContainerStyle.
  destruct (EpubReader.backgroundColor r) as [| |hex];
    try (exists (EpubReader.log r); destruct r; reflexivity).
  destruct (hex_channels hex) as [[c1 c2] c3]. eexists. reflexivity.
Qed.

Lemma in_range_clamped (lo hi : Z) (x : JsNum) :
  (lo <= hi)%Z -> in_range lo hi x -> clamp lo hi x = x.
Proof.
  intros Hlh [->|(q & -> & Hq)]; [reflexivity|].
  apply clamp_in_range. exact Hq.
Qed.

Lemma ratio_in_range (n : Z) (d : positive) :
  (0 <= n <= Z.pos d)%Z -> in_range 0 1 (ratio n d).
Proof.
  intros H. right. exists (Q2Qc (n # d)). split; [reflexivity|].
  split; apply Q2Qc_le; unfold Qle, inject_Z; cbn [Qnum Qden]; lia.
Qed.

Ltac reader_fields :=
  cbn [EpubReader.book EpubReader.rendition EpubReader.opacity
       EpubReader.backgroundColor EpubReader.textColor EpubReader.glassmorphism
       EpubReader.blur EpubReader.scrollbarTrack EpubReader.scrollbarThumb
       EpubReader.fontFamily EpubReader.fontSize EpubReader.flow EpubReader.log
       EpubReader.with_book EpubReader.with_rendition EpubReader.with_opacity
       EpubReader.with_backgroundColor EpubReader.with_textColor
       EpubReader.with_glassmorphism EpubReader.with_blur
       EpubReader.with_scrollbarTrack EpubReader.with_scrollbarThumb
       EpubReader.with_fontFamily EpubReader.with_fontSize EpubReader.with_flow
       EpubReader.with_log EpubReader.emit EpubReader._applyContainerMode
       EpubReader._applyIframeStyles EpubReader.setFontFamily
       EpubReader.setFontSize EpubReader.setTextColor].

Lemma constructor_consistent : reader_consistent EpubReader.constructor.
Proof.
  split; [apply (ratio_in_range 95 100); lia|].
  split; [apply (num_in_range 12 32 18); lia|].
  split; [apply (num_in_range 0 40 12); lia|].
  split; [intros H; exfalso; apply H; reflexivity|]. split; discriminate.
Qed.

Lemma setFlow_consistent (f : Js string) (r : EpubReader.t) :
  reader_consistent r -> reader_consistent (state_of (EpubReader.setFlow f r)).
Proof.
  intros H. pose proof H as (Ho & Hf & Hb & Hd & Ht & Hth).
  pose proof (clamp_is_in_range 12 32 (EpubReader.fontSize r) ltac:(lia)) as Hc.
  unfold clamp in Hc.
  unfold EpubReader.setFlow.
  cbn [EpubReader.book EpubReader.rendition EpubReader.with_flow].
  destruct (EpubReader.book r) as [bk|] eqn:Hbk; [|exact H].
  destruct (EpubReader.rendition r) as [rd|] eqn:Hrd; [|exact H].
  destruct (EpubReader._getRenderOptions _) as [fl mgr].
  match goal with
  | |- context [EpubReader.updateContainerStyle ?x] =>
      destruct (updateContainerStyle_state x) as [l Hl];
      destruct (EpubReader.updateContainerStyle x) as [r1|r1];
      cbn [state_of] in *; subst r1
  end;
    (split; [exact Ho|]); (split; [exact Hc|]); (split; [exact Hb|]);
    (split; [intros _; reader_fields; rewrite Hbk; discriminate|]);
    split; assumption.
Qed.

Lemma destroy_consistent (r : EpubReader.t) :
  reader_consistent r -> reader_consistent (EpubReader.destroy r).
Proof.
  intros (Ho & Hf & Hb & Hd & Ht & Hth).
  unfold EpubReader.destroy.
  destruct (EpubReader.rendition r) as [rd|] eqn:Hrd;
    cbn [EpubReader.book EpubReader.with_rendition EpubReader.emit EpubReader.with_log];
    destruct (EpubReader.book r) as [bk|] eqn:Hbk;
    (split; [exact Ho|]); (split; [exact Hf|]); (split; [exact Hb|]);
    (split; [|split; assumption]);
    cbn; rewrite ?Hrd; intros H0; exfalso; apply H0; reflexivity.
Qed.

Lemma openBook_consistent (b : EpubReader.Book) (start : Js string) (r : EpubReader.t) :
  reader_consistent r -> reader_consistent (EpubReader.openBook b start r).
Proof.
  intros H. apply destroy_consistent in H.
  destruct H as (Ho & Hf & Hb & Hd & Ht & Hth).
  unfold EpubReader.openBook.
  destruct (EpubReader._getRenderOptions _) as [fl mgr].
  split; [exact Ho|]. split; [exact Hf|]. split; [exact Hb|].
  split; [intros _; discriminate|]. split; assumption.
Qed.

Lemma setScrollbarColors_consistent (track thumb : Js string) (r : EpubReader.t) :
  reader_consistent r ->
  reader_consistent (state_of (EpubReader.setScrollbarColors track thumb r)).
Proof.
  intros (Ho & Hf & Hb & Hd & Ht & Hth).
  unfold EpubReader.setScrollbarColors.
  destruct track as [| |tr], thumb as [| |th]; cbn [is_defined]; reader_fields;
    try (destruct (EpubReader.scrollbarThumb r) as [| |th0] eqn:Hsth);
    cbn [state_of]; unfold EpubReader._applyIframeStyles; reader_fields;
    try solve [exfalso; apply Hth; reflexivity];
    try (destruct (EpubReader.rendition r) eqn:Hrd); reader_fields;
    (split; [exact Ho|]); (split; [exact Hf|]); (split; [exact Hb|]);
    (split; [reader_fields; rewrite ?Hrd; exact Hd|]);
    split; reader_fields; rewrite ?Hsth; solve [assumption | discriminate].
Qed.

(** X6.  In every state the reader can reach, whatever was passed to its
    setters and whether or not they threw, the container opacity is NaN or
    in 0..1, the font size NaN or in 12..32, the blur NaN or in 0..40, there
    is a rendition only while a book is open, and neither scrollbar colour is
    [undefined]. *)
Theorem reader_always_consistent (r : EpubReader.t) :
  reader_reachable r -> reader_consistent r.
Proof.
  induction 1 as [|r f _ IH|r b start _ IH|r _ IH|r _ IH|r target _ IH
                  |r o _ IH|r c _ IH|r c _ IH|r g _ IH|r px _ IH
                  |r track thumb _ IH|r f _ IH|r n _ IH|r _ IH].
  - exact constructor_consistent.
  - apply setFlow_consistent. exact IH.
  - apply openBook_consistent. exact IH.
  - unfold EpubReader.nextPage. destruct (EpubReader.rendition r); exact IH.
  - unfold EpubReader.prevPage. destruct (EpubReader.rendition r); exact IH.
  - unfold EpubReader.display. destruct (EpubReader.rendition r); exact IH.
  - unfold EpubReader.setOpacity.
    destruct (updateContainerStyle_state
                (EpubReader.with_opacity
                   (Math_max (num 0) (Math_min (num 1) (ToNumber o))) r)) as [l ->].
    destruct IH as (Ho & Hf & Hb & Hd & Ht & Hth).
    split; [apply (clamp_is_in_range 0 1); lia|].
    split; [exact Hf|]. split; [exact Hb|]. split; [exact Hd|]. split; assumption.
  - unfold EpubReader.setBackgroundColor.
    destruct (updateContainerStyle_state (EpubReader.with_backgroundColor c r)) as [l ->].
    exact IH.
  - unfold EpubReader.setTextColor.
    cbn [EpubReader.rendition EpubReader.with_textColor].
    destruct (EpubReader.rendition r); exact IH.
  - unfold EpubReader.setGlassmorphism.
    destruct (updateContainerStyle_state (EpubReader.with_glassmorphism g r)) as [l ->].
    exact IH.
  - unfold EpubReader.setBlur.
    destruct (updateContainerStyle_state
                (EpubReader.with_blur
                   (Math_max (num 0) (Math_min (num 40) (ToNumber px))) r)) as [l ->].
    destruct IH as (Ho & Hf & Hb & Hd & Ht & Hth).
    split; [exact Ho|]. split; [exact Hf|].
    split; [apply (clamp_is_in_range 0 40); lia|].
    split; [exact Hd|]. split; assumption.
  - apply setScrollbarColors_consistent. exact IH.
  - unfold EpubReader.setFontFamily.
    cbn [EpubReader.rendition EpubReader.with_fontFamily].
    destruct (EpubReader.rendition r); exact IH.
  - destruct IH as (Ho & Hf & Hb & Hd & Ht & Hth).
    unfold EpubReader.setFontSize.
    cbn [EpubReader.rendition EpubReader.with_fontSize].
    destruct (EpubReader.rendition r) eqn:Hr;
      (split; [exact Ho|]);
      (split; [apply (clamp_is_in_range 12 32); lia|]);
      (split; [exact Hb|]); (split; [|split; assumption]);
      cbn; rewrite ?Hr; exact Hd.
  - apply destroy_consistent. exact IH.
Qed.

Lemma reader_always_consistent_witness :
  reader_consistent
    (EpubReader.setFontSize (Val (num 200))
       (state_of
          (EpubReader.setScrollbarColors (Val "#101010") Null
             (EpubReader.openBook {| EpubReader.percentageFromCfi := None |}
                (Val "epubcfi(/6/2)") EpubReader.constructor)))).
Proof.
  apply reader_always_consistent.
  apply reader_setFontSize, reader_setScrollbarColors, reader_openBook, reader_new.
Defined.

(** ** The reader's document *)

#[local] Arguments hex_channels : simpl never.
#[local] Arguments EpubReader.font_override : simpl never.

(** The font stack the rendition is given: that of the family's own key,
    the serif stack for a family the table does not have, and for a name
    of [Object.prototype] no font stack at all but the member the table
    inherits. *)
Lemma font_override_cases (family : Js string) :
  EpubReader.font_override (Val "sans-serif")
  = EpubReader.ThemesOverride "font-family"
      (Val "-apple-system, BlinkMacSystemFont, 'Segoe UI', Roboto, sans-serif") /\
  EpubReader.font_override (Val "constructor")
  = EpubReader.ThemesOverrideInherited "font-family" "constructor" /\
  (is_truthy family = false ->
   EpubReader.font_override family = EpubReader.font_override (Val "serif")) /\
  is_font_call (EpubReader.font_override family) = true.
Proof.
  split; [reflexivity|]. split; [reflexivity|]. split.
  - intros H. destruct family as [| |f]; try reflexivity.
    cbn in H. unfold truthy, truthy_string in H.
    destruct (String.eqb_spec f ""); [subst f; reflexivity | discriminate H].
  - unfold EpubReader.font_override.
    destruct (EpubReader.familyMap family); reflexivity.
Qed.

(** X7.  With a document open, [setFlow] completes (the background colour being
    a string), tears the rendition down and renders the book again in the
    new mode, re-applies the reader's own font, size, text colour and
    container style in that order, and displays the new rendition at the
    position the old one reported.  The font goes through the table lookup
    of [setFontFamily], inherited members included.  Of the reader's
    appearance only the flow changes (the font size is stored again through
    its clamp). *)
Theorem setFlow_redraws_document (f : Js string) (r : EpubReader.t)
    (b : EpubReader.Book) (rend : EpubReader.Rendition) (bg : string) :
  EpubReader.book r = Some b ->
  EpubReader.rendition r = Some rend ->
  EpubReader.backgroundColor r = Val bg ->
  exists r' : EpubReader.t,
    EpubReader.setFlow f r = Ok r' /\
    EpubReader.log r'
    = (EpubReader.log r ++
       [EpubReader.RenditionDestroy;
        EpubReader.BookRenderTo
          (if js_is f "scrolled" then "scrolled-doc" else "paginated")
          (if js_is f "scrolled" then Some "default" else None);
        EpubReader.ThemesDefault (js_is f "scrolled")
          (EpubReader.scrollbarTrack r) (EpubReader.scrollbarThumb r);
        EpubReader.ContainerMode (js_is f "scrolled");
        EpubReader.font_override (EpubReader.fontFamily r);
        EpubReader.ThemesFontSize (clamp 12 32 (EpubReader.fontSize r));
        EpubReader.ThemesOverride "color" (EpubReader.textColor r);
        EpubReader.ContainerStyle
          (let '(cr, cg, cb) := hex_channels bg in
           CssRgba cr cg cb (EpubReader.opacity r))
          (is_truthy (EpubReader.glassmorphism r)) (EpubReader.blur r);
        EpubReader.RenditionDisplay (EpubReader.currentLocation rend)])%list /\
    EpubReader.book r' = Some b /\
    EpubReader.rendition r'
    = Some {| EpubReader.currentLocation := EpubReader.currentLocation rend |} /\
    appearance r'
    = put_fontSize (clamp 12 32 (EpubReader.fontSize r)) (put_flow f (appearance r)).
Proof.
  intros Hbk Hrd Hbg.
  destruct r as [bk rd rop rbg rtc rgl rbl rst rsth rff rfs rfl lg].
  cbn in Hbk, Hrd, Hbg. subst bk rd rbg.
  unfold EpubReader.setFlow, EpubReader._getRenderOptions, EpubReader.is_scrolled,
    EpubReader.updateContainerStyle, EpubReader._applyIframeStyles,
    EpubReader._applyContainerMode, EpubReader.setFontFamily, EpubReader.setFontSize,
    EpubReader.setTextColor, js_is, clamp.
  destruct f as [| |x]; [| |destruct (x =? "scrolled")%string eqn:E];
    cbn; rewrite ?E; cbn;
    destruct (hex_channels bg) as [[c1 c2] c3]; cbn;
    eexists; (split; [reflexivity|]); cbn; rewrite <- ?app_assoc; cbn [app];
    unfold EpubReader.is_scrolled; cbn; rewrite ?E;
    (split; [reflexivity|]); (split; [reflexivity|]); split; reflexivity.
Qed.

Lemma setFlow_redraws_document_witness :
  exists r' : EpubReader.t,
    EpubReader.setFlow (Val "scrolled")
      (EpubReader.openBook {| EpubReader.percentageFromCfi := None |}
         (Val "epubcfi(/6/14)") EpubReader.constructor) = Ok r' /\
    EpubReader.rendition r'
    = Some {| EpubReader.currentLocation := Val "epubcfi(/6/14)" |}.
Proof.
  destruct (setFlow_redraws_document (Val "scrolled")
              (EpubReader.openBook {| EpubReader.percentageFromCfi := None |}
                 (Val "epubcfi(/6/14)") EpubReader.constructor)
              {| EpubReader.percentageFromCfi := None |}
              {| EpubReader.currentLocation := Val "epubcfi(/6/14)" |}
              "#FFFFFF" eq_refl eq_refl eq_refl)
    as (r' & E & _ & _ & R & _).
  exists r'. split; [exact E | exact R].
Defined.

(** X8.  [setScrollbarColors] stores each colour that is not [undefined], writes
    the track and the thumb to the document's custom properties, and then
    completes exactly when the thumb it now holds is a string: with [null]
    there it throws after those two writes, before the hover colour and the
    rendition's styles.  No other appearance field changes either way. *)
Theorem setScrollbarColors_outcome (track thumb : Js string) (r : EpubReader.t) :
  let track' := if is_defined track then track else EpubReader.scrollbarTrack r in
  let thumb' := if is_defined thumb then thumb else EpubReader.scrollbarThumb r in
  let res := EpubReader.setScrollbarColors track thumb r in
  completed res = match thumb' with Val _ => true | _ => false end /\
  appearance (state_of res)
  = put_scrollbarThumb thumb' (put_scrollbarTrack track' (appearance r)) /\
  exists rest : list EpubReader.Call,
    EpubReader.log (state_of res)
    = (EpubReader.log r ++
       EpubReader.SetCssVar "--scrollbar-track" track' ::
       EpubReader.SetCssVar "--scrollbar-thumb" thumb' :: rest)%list /\
    (completed res = false -> rest = []).
Proof.
  cbn zeta. unfold EpubReader.setScrollbarColors.
  destruct r as [bk rd rop rbg rtc rgl rbl rst rsth rff rfs rfl lg].
  destruct track as [| |tr], thumb as [| |th]; cbn [is_defined]; reader_fields;
    try (destruct rsth as [| |th0]);
    cbn [state_of completed]; unfold EpubReader._applyIframeStyles; reader_fields;
    try (destruct rd as [rd|]); reader_fields;
    (split; [reflexivity|]); (split; [reflexivity|]);
    eexists; rewrite <- ?app_assoc; cbn [app];
    (split; [reflexivity|]); intros H; first [discriminate H | reflexivity].
Qed.

(** X9.  [destroy] closes the document: afterwards there is neither book nor
    rendition, the appearance is what it was, the page-turn and display
    methods do nothing at all and [setFlow] only stores the flow.  The
    rendition is destroyed before the book, and only what exists is
    destroyed. *)
Theorem destroy_closes_document (r : EpubReader.t) :
  let r' := EpubReader.destroy r in
  EpubReader.book r' = None /\ EpubReader.rendition r' = None /\
  appearance r' = appearance r /\
  EpubReader.log r'
  = (EpubReader.log r ++
     (match EpubReader.rendition r with
      | Some _ => [EpubReader.RenditionDestroy] | None => [] end) ++
     (match EpubReader.book r with
      | Some _ => [EpubReader.BookDestroy] | None => [] end) ++
     [EpubReader.ContainerEmpty true; EpubReader.ContainerModeCleared])%list /\
  EpubReader.nextPage r' = r' /\ EpubReader.prevPage r' = r' /\
  (forall target, EpubReader.display target r' = r') /\
  (forall f, EpubReader.setFlow f r' = Ok (EpubReader.with_flow f r')).
Proof.
  cbn zeta. unfold EpubReader.destroy.
  destruct r as [bk rd rop rbg rtc rgl rbl rst rsth rff rfs rfl lg].
  destruct bk, rd; reader_fields; rewrite <- ?app_assoc; cbn [app];
    (split; [reflexivity|]); (split; [reflexivity|]); (split; [reflexivity|]);
    (split; [reflexivity|]); (split; [reflexivity|]); (split; [reflexivity|]);
    split; intros; reflexivity.
Qed.

(** X10.  [openBook] destroys whatever document was open before it renders the
    new one, keeps the reader's appearance, and leaves the new rendition at
    the position it reports.  It styles the new rendition with the reader's
    scrollbar colours and text colour but never with its font family or
    size: no font call is among the calls it makes. *)
Theorem openBook_replaces_document
    (b : EpubReader.Book) (start : Js string) (r : EpubReader.t) :
  let r' := EpubReader.openBook b start r in
  EpubReader.book r' = Some b /\
  EpubReader.rendition r' = Some {| EpubReader.currentLocation := start |} /\
  appearance r' = appearance r /\
  exists calls : list EpubReader.Call,
    EpubReader.log r' = (EpubReader.log (EpubReader.destroy r) ++ calls)%list /\
    filter EpubReader.is_surface_work calls
    = [EpubReader.BookRenderTo (fst (EpubReader._getRenderOptions r))
         (snd (EpubReader._getRenderOptions r));
       EpubReader.RenditionDisplay Undefined] /\
    filter is_font_call calls = [] /\
    In (EpubReader.ThemesOverride "color" (EpubReader.textColor r)) calls.
Proof.
  cbn zeta. unfold EpubReader.openBook, EpubReader.destroy, EpubReader._getRenderOptions,
    EpubReader.is_scrolled, EpubReader._applyIframeStyles.
  destruct r as [bk rd rop rbg rtc rgl rbl rst rsth rff rfs rfl lg].
  destruct bk, rd; reader_fields;
    destruct (match rfl with Val x => (x =? "scrolled")%string | _ => false end);
    reader_fields; unfold EpubReader.is_scrolled; reader_fields;
    (split; [reflexivity|]); (split; [reflexivity|]); (split; [reflexivity|]);
    eexists; rewrite <- ?app_assoc; cbn [app];
    (split; [reflexivity|]); (split; [reflexivity|]); (split; [reflexivity|]);
    cbn; tauto.
Qed.

(** ** What applying a preset leaves alone *)

Section PresetFrames.

Context {St : Type} (pf : Platform) (be : Backend St).

Lemma bind_preserved {A} (part : World St -> A) (r : Res (World St))
    (k : World St -> Res (World St)) (x : A) :
  part (state_of r) = x -> preserves part k -> part (state_of (r >>= k)%res) = x.
Proof.
  intros Hr Hk. destruct r as [w|w]; cbn [bind state_of] in *; [|exact Hr].
  rewrite Hk. exact Hr.
Qed.

Lemma when_preserves {A} (part : World St -> A) (c : bool)
    (k : World St -> Res (World St)) :
  preserves part k -> preserves part (when c k).
Proof.
  intros Hk w. unfold when. destruct c; [apply Hk | reflexivity].
Qed.

Lemma optionally_preserves {A B} (part : World St -> A) (o : option B)
    (k : B -> World St -> Res (World St)) :
  (forall b, preserves part (k b)) -> preserves part (PresetManager.optionally o k).
Proof.
  intros Hk w. unfold PresetManager.optionally. destruct o; [apply Hk | reflexivity].
Qed.

Lemma on_reader_preserves {A} (part : World St -> A)
    (f : EpubReader.t -> Res EpubReader.t) :
  (forall r w, part (with_reader r w) = part w) -> preserves part (on_reader f).
Proof.
  intros H w. unfold on_reader. destruct (f (reader w)); apply H.
Qed.

Lemma on_bgManager_preserves {A} (part : World St -> A)
    (f : BackgroundManager.t -> Res BackgroundManager.t) :
  (forall b w, part (with_bgManager b w) = part w) -> preserves part (on_bgManager f).
Proof.
  intros H w. unfold on_bgManager. destruct (f (bgManager w)); apply H.
Qed.

Lemma on_overlayManager_preserves {A} (part : World St -> A)
    (f : OverlayManager.t -> Res OverlayManager.t) :
  (forall o w, part (with_overlayManager o w) = part w) ->
  preserves part (on_overlayManager f).
Proof.
  intros H w. unfold on_overlayManager. destruct (f (overlayManager w)); apply H.
Qed.

(** The reader group writes to the reader only. *)
Lemma apply_reader_preserves {A} (part : World St -> A) (rd : Preset.Reader) :
  (forall r w, part (with_reader r w) = part w) ->
  preserves part (PresetManager.apply_reader rd).
Proof.
  intros H w. unfold PresetManager.apply_reader.
  repeat (apply bind_preserved;
          [|apply when_preserves;
            first [apply on_reader_preserves; exact H
                  | intros w'; cbn [state_of]; unfold detached_setFlow; apply H]]).
  reflexivity.
Qed.

(** The overlay group writes to the overlay manager only. *)
Lemma apply_overlay_preserves {A} (part : World St -> A) (o : Preset.Overlay) :
  (forall m w, part (with_overlayManager m w) = part w) ->
  preserves part (PresetManager.apply_overlay o).
Proof.
  intros H. apply on_overlayManager_preserves. exact H.
Qed.

(** The background group writes to the background manager only, apart
    from asking the backend for the application directory. *)
Lemma apply_background_preserves {A} (part : World St -> A) (b : Preset.Background) :
  (forall m w, part (with_bgManager m w) = part w) ->
  (forall i w, part (logged i w) = part w) ->
  preserves part (PresetManager.apply_background pf be b).
Proof.
  intros H Hl w. unfold PresetManager.apply_background.
  destruct (js_is (Preset.bg_type b) "media" && is_truthy (Preset.bg_path b)).
  - apply on_bgManager_preserves. exact H.
  - destruct (js_is (Preset.bg_type b) "image" && is_truthy (Preset.bg_path b)).
    + destruct (isTauri pf).
      * cbn zeta.
        destruct (get_app_dir be (store (logged Inv_get_app_dir w))).
        -- rewrite (on_bgManager_preserves part _ H). apply Hl.
        -- cbn [state_of]. apply Hl.
      * apply on_bgManager_preserves. exact H.
    + cbn [state_of]. apply H.
Qed.

Lemma apply_background_browser (b : Preset.Background) :
  isTauri pf = false -> preserves invoked (PresetManager.apply_background pf be b).
Proof.
  intros Ht w. unfold PresetManager.apply_background. rewrite Ht.
  destruct (js_is (Preset.bg_type b) "media" && is_truthy (Preset.bg_path b));
    [apply on_bgManager_preserves; reflexivity|].
  destruct (js_is (Preset.bg_type b) "image" && is_truthy (Preset.bg_path b));
    [apply on_bgManager_preserves; reflexivity|].
  reflexivity.
Qed.

(** X11.  A preset group that is missing leaves its state holder exactly as it
    was, whatever the other groups do and whether or not they throw: without
    a background group the background manager is untouched, without an
    overlay group the overlay manager, without a reader group the reader. *)
Theorem apply_settings_missing_groups (preset : Preset.t) (w : World St) :
  let w' := state_of (PresetManager.apply_settings pf be preset w) in
  (Preset.background preset = None -> bgManager w' = bgManager w) /\
  (Preset.overlay preset = None -> overlayManager w' = overlayManager w) /\
  (Preset.reader preset = None -> reader w' = reader w).
Proof.
  cbn zeta. unfold PresetManager.apply_settings. split; [|split]; intros Hnone;
    rewrite Hnone.
  - apply bind_preserved;
      [|apply optionally_preserves; intros rd; apply apply_reader_preserves; reflexivity].
    apply bind_preserved;
      [|apply optionally_preserves; intros o; apply apply_overlay_preserves; reflexivity].
    reflexivity.
  - apply bind_preserved;
      [|apply optionally_preserves; intros rd; apply apply_reader_preserves; reflexivity].
    apply bind_preserved; [|intros w'; reflexivity].
    apply bind_preserved;
      [|apply optionally_preserves; intros b; apply apply_background_preserves;
        reflexivity].
    reflexivity.
  - apply bind_preserved; [|intros w'; reflexivity].
    apply bind_preserved;
      [|apply optionally_preserves; intros o; apply apply_overlay_preserves; reflexivity].
    apply bind_preserved;
      [|apply optionally_preserves; intros b; apply apply_background_preserves;
        reflexivity].
    reflexivity.
Qed.

(** X12.  [applyPreset] looks in the cache first and asks the backend only when
    the name is not cached.  When it returns [true] the current preset is
    the preset it found that way; when it returns [false] the current preset
    is what it was.  Either way the cache is unchanged: a preset fetched from
    the backend is not added to it. *)
Theorem applyPreset_current (presetName : string) (w : World St) :
  let result := PresetManager.applyPreset pf be presetName w in
  presets (snd result) = presets w /\
  if fst result then
    exists preset : Preset.t,
      currentPreset (snd result) = Some preset /\
      toasts (snd result) = toasts w /\
      match PresetManager.find_preset presetName (presets w) with
      | Some cached =>
          preset = cached /\ Preset.name preset = presetName /\
          filter (fun i => match i with Inv_load_preset _ => true | _ => false end)
            (invoked (snd result))
          = filter (fun i => match i with Inv_load_preset _ => true | _ => false end)
              (invoked w)
      | None =>
          isTauri pf = true /\ load_preset be presetName (store w) = Some preset
      end
  else currentPreset (snd result) = currentPreset w.
Proof.
  cbn zeta.
  assert (Hfound : forall preset w0,
            presets w0 = presets w -> currentPreset w0 = currentPreset w ->
            toasts w0 = toasts w ->
            let result := PresetManager.apply_found pf be preset w0 in
            presets (snd result) = presets w /\
            if fst result then
              currentPreset (snd result) = Some preset /\
              toasts (snd result) = toasts w /\
              exists more,
                invoked (snd result) = (invoked w0 ++ more)%list /\
                forall i, In i more -> i = Inv_get_app_dir
            else currentPreset (snd result) = currentPreset w).
  { intros preset w0 Hp Hc Ht. cbn zeta. unfold PresetManager.apply_found.
    pose proof (apply_settings_keeps pf be preset w0) as Hk.
    assert (Hinv : exists more,
               invoked (state_of (PresetManager.apply_settings pf be preset w0))
               = (invoked w0 ++ more)%list /\
               forall i, In i more -> i = Inv_get_app_dir).
    { unfold PresetManager.apply_settings.
      assert (Hbg : exists more,
                 invoked (state_of (PresetManager.optionally (Preset.background preset)
                                      (PresetManager.apply_background pf be) w0))
                 = (invoked w0 ++ more)%list /\
                 forall i, In i more -> i = Inv_get_app_dir).
      { unfold PresetManager.optionally.
        destruct (Preset.background preset) as [b|];
          [|exists []; split; [now rewrite app_nil_r | intros i []]].
        unfold PresetManager.apply_background.
        destruct (js_is (Preset.bg_type b) "media" && is_truthy (Preset.bg_path b)).
        { exists []. rewrite app_nil_r.
          split; [apply on_bgManager_preserves; reflexivity | intros i []]. }
        destruct (js_is (Preset.bg_type b) "image" && is_truthy (Preset.bg_path b)).
        - destruct (isTauri pf).
          + exists [Inv_get_app_dir]. cbn zeta.
            split; [|intros i [<-|[]]; reflexivity].
            destruct (get_app_dir be (store (logged Inv_get_app_dir w0)));
              [|reflexivity].
            rewrite (on_bgManager_preserves invoked); reflexivity.
          + exists []. rewrite app_nil_r.
            split; [apply on_bgManager_preserves; reflexivity | intros i []].
        - exists []. rewrite app_nil_r. split; [reflexivity | intros i []]. }
      destruct Hbg as (more & Hbg & Hmore). exists more. split; [|exact Hmore].
      apply bind_preserved;
        [|apply optionally_preserves; intros rd; apply apply_reader_preserves;
          reflexivity].
      apply bind_preserved;
        [|apply optionally_preserves; intros o; apply apply_overlay_preserves;
          reflexivity].
      exact Hbg. }
    destruct (PresetManager.apply_settings pf be preset w0) as [w1|w1];
      cbn [fst snd state_of] in *;
      destruct Hk as (K1 & K2 & _ & _ & K5 & _).
    - split; [cbn; congruence|]. split; [reflexivity|].
      split; [cbn; congruence|]. exact Hinv.
    - split; [cbn; congruence|]. cbn. congruence. }
  unfold PresetManager.applyPreset.
  destruct (PresetManager.find_preset presetName (presets w)) as [cached|] eqn:Hfind.
  - specialize (Hfound cached w eq_refl eq_refl eq_refl). cbn zeta in Hfound.
    destruct Hfound as [Hp Hrest]. split; [exact Hp|].
    destruct (fst (PresetManager.apply_found pf be cached w)); [|exact Hrest].
    destruct Hrest as (Hc & Ht & more & Hinv & Hmore).
    exists cached. split; [exact Hc|]. split; [exact Ht|].
    split; [reflexivity|]. split.
    + unfold PresetManager.find_preset in Hfind. apply find_some in Hfind.
      destruct Hfind as [_ Hn]. apply String.eqb_eq. exact Hn.
    + rewrite Hinv, filter_app.
      assert (Hno : filter (fun i => match i with Inv_load_preset _ => true
                                            | _ => false end) more = []).
      { clear Hinv. induction more as [|i more IH]; [reflexivity|].
        cbn [filter]. rewrite (Hmore i (or_introl eq_refl)).
        apply IH. intros j Hj. apply Hmore. right. exact Hj. }
      rewrite Hno. apply app_nil_r.
  - destruct (isTauri pf); [|split; reflexivity].
    cbn zeta. change (store (logged (Inv_load_preset presetName) w)) with (store w).
    destruct (load_preset be presetName (store w)) as [preset|]; [|split; reflexivity].
    specialize (Hfound preset (logged (Inv_load_preset presetName) w)
                  eq_refl eq_refl eq_refl). cbn zeta in Hfound.
    destruct Hfound as [Hp Hrest]. split; [exact Hp|].
    destruct (fst (PresetManager.apply_found pf be preset
                     (logged (Inv_load_preset presetName) w))); [|exact Hrest].
    destruct Hrest as (Hc & Ht & _).
    exists preset. split; [exact Hc|]. split; [exact Ht|]. split; reflexivity.
Qed.

End PresetFrames.

Lemma apply_settings_missing_groups_witness :
  let w := Main.initial MemoryBackend.empty in
  let w' := state_of (PresetManager.apply_settings MemoryBackend.desktop
                        MemoryBackend.backend (half_preset "Nook") w) in
  bgManager w' = bgManager w.
Proof.
  cbn zeta.
  apply (apply_settings_missing_groups MemoryBackend.desktop MemoryBackend.backend
           (half_preset "Nook") (Main.initial MemoryBackend.empty)).
  reflexivity.
Defined.

(** ** Persistence *)

Section Persistence.

Context {St : Type} (pf : Platform) (be : Backend St).

Lemma apply_settings_browser (preset : Preset.t) :
  isTauri pf = false -> preserves invoked (PresetManager.apply_settings pf be preset).
Proof.
  intros Ht w. unfold PresetManager.apply_settings.
  apply bind_preserved;
    [|apply optionally_preserves; intros rd; apply apply_reader_preserves; reflexivity].
  apply bind_preserved;
    [|apply optionally_preserves; intros o; apply apply_overlay_preserves; reflexivity].
  apply bind_preserved;
    [|apply optionally_preserves; intros b; apply apply_background_browser; exact Ht].
  reflexivity.
Qed.

(** X13.  Without the desktop runtime nothing is ever persisted and the backend
    is never called: loading, applying, saving and deleting presets, saving
    the session, writing the reading progress, and loading and saving the
    preferences all leave the store and the list of commands sent as they
    were. *)
Theorem browser_mode_never_persists
    (w : World St) (name : string) (prefs : Prefs.t)
    (bookId : Js string) (c : string) (percentage : JsNum) :
  isTauri pf = false ->
  nothing_persisted w (snd (PresetManager.loadPresets pf be w)) /\
  nothing_persisted w (snd (PresetManager.applyPreset pf be name w)) /\
  nothing_persisted w (snd (PresetManager.saveCurrentAsPreset pf be name prefs w)) /\
  nothing_persisted w (PresetManager.saveLastSession pf be prefs w) /\
  nothing_persisted w (PresetManager.deletePreset pf be name w) /\
  nothing_persisted w (LibraryManager.updateProgress pf be bookId c percentage w) /\
  nothing_persisted w (Main.load_preferences pf be w) /\
  nothing_persisted w (Main.savePreferences pf be w).
Proof.
  intros Ht.
  split. { unfold PresetManager.loadPresets. rewrite Ht. split; reflexivity. }
  split.
  { unfold PresetManager.applyPreset.
    destruct (PresetManager.find_preset name (presets w)) as [p|];
      [|rewrite Ht; split; reflexivity].
    unfold PresetManager.apply_found.
    pose proof (apply_settings_keeps pf be p w) as (_ & _ & _ & Hs & _).
    pose proof (apply_settings_browser p Ht w) as Hi.
    destruct (PresetManager.apply_settings pf be p w) as [w1|w1];
      cbn [state_of] in *; split; assumption. }
  split. { unfold PresetManager.saveCurrentAsPreset. rewrite Ht. split; reflexivity. }
  split. { unfold PresetManager.saveLastSession. rewrite Ht. split; reflexivity. }
  split. { unfold PresetManager.deletePreset. rewrite Ht. split; reflexivity. }
  split. { unfold LibraryManager.updateProgress. rewrite Ht. split; reflexivity. }
  split.
  - unfold Main.load_preferences, main_isTauri. rewrite Ht. split; reflexivity.
  - unfold Main.savePreferences, main_isTauri. rewrite Ht. split; reflexivity.
Qed.

(** X14.  Saving a preset, saving the session and deleting a preset never touch
    the reader, the background, the overlay, the preferences or the current
    preset (so deleting the current preset leaves it current).  Saving a
    preset shows exactly one toast in every case, the browser included;
    deleting shows one on the desktop and none in the browser; saving the
    session never shows any and does not reload the cache. *)
Theorem preset_persistence_frame (name : string) (prefs : Prefs.t) (w : World St) :
  let saved := snd (PresetManager.saveCurrentAsPreset pf be name prefs w) in
  let session := PresetManager.saveLastSession pf be prefs w in
  let deleted := PresetManager.deletePreset pf be name w in
  holders_untouched w saved /\ holders_untouched w session /\
  holders_untouched w deleted /\
  length (toasts saved) = S (length (toasts w)) /\
  toasts session = toasts w /\ presets session = presets w /\
  length (toasts deleted) = (if isTauri pf then S (length (toasts w))
                             else length (toasts w)).
Proof.
  cbn zeta.
  assert (Hload : forall w0, holders_untouched w0 (snd (PresetManager.loadPresets pf be w0)) /\
                             toasts (snd (PresetManager.loadPresets pf be w0)) = toasts w0).
  { intros w0. destruct (loadPresets_frame pf be w0) as (_ & H1 & H2 & H3 & H4 & H5).
    cbn zeta in *. split; [repeat split; assumption|].
    unfold PresetManager.loadPresets. destruct (isTauri pf); cbn [negb]; [|reflexivity].
    cbn zeta. destruct (list_presets be (store (logged Inv_list_presets w0)));
      [|reflexivity].
    cbn [snd].
    destruct (load_each_spec be l (with_presets [] (logged Inv_list_presets w0)))
      as (_ & _ & _ & _ & _ & _ & _ & Ht).
    exact Ht. }
  assert (Hsaved :
            holders_untouched w (snd (PresetManager.saveCurrentAsPreset pf be name prefs w)) /\
            length (toasts (snd (PresetManager.saveCurrentAsPreset pf be name prefs w)))
            = S (length (toasts w))).
  { unfold PresetManager.saveCurrentAsPreset.
    destruct (isTauri pf); cbn [negb];
      [|cbn; rewrite length_app; cbn [length]; split; [repeat split | lia]].
    cbn zeta.
    match goal with
    | |- context [save_custom_preset be ?a ?b ?c] =>
        destruct (save_custom_preset be a b c) as [st1 [sv|]]
    end; cbn [snd].
    - match goal with
      | |- context [PresetManager.loadPresets pf be ?x] =>
          destruct (Hload x) as [(H1 & H2 & H3 & H4 & H5) T];
          generalize dependent (snd (PresetManager.loadPresets pf be x))
      end.
      intros w1 H1 H2 H3 H4 H5 T. cbn in *. rewrite length_app, T. cbn [length].
      split; [repeat split; assumption | lia].
    - cbn. rewrite length_app. cbn [length]. split; [repeat split | lia]. }
  assert (Hdeleted :
            holders_untouched w (PresetManager.deletePreset pf be name w) /\
            length (toasts (PresetManager.deletePreset pf be name w))
            = (if isTauri pf then S (length (toasts w)) else length (toasts w))).
  { unfold PresetManager.deletePreset.
    destruct (isTauri pf); cbn [negb]; [|split; [repeat split | reflexivity]].
    cbn zeta.
    match goal with
    | |- context [delete_preset be ?a ?b] =>
        destruct (delete_preset be a b) as [st1 [|]]
    end.
    - match goal with
      | |- context [PresetManager.loadPresets pf be ?x] =>
          destruct (Hload x) as [(H1 & H2 & H3 & H4 & H5) T];
          generalize dependent (snd (PresetManager.loadPresets pf be x))
      end.
      intros w1 H1 H2 H3 H4 H5 T. cbn in *. rewrite length_app, T. cbn [length].
      split; [repeat split; assumption | lia].
    - cbn. rewrite length_app. cbn [length]. split; [repeat split | lia]. }
  destruct Hsaved as [Hs1 Hs2]. destruct Hdeleted as [Hd1 Hd2].
  split; [exact Hs1|]. split.
  { unfold PresetManager.saveLastSession. destruct (isTauri pf); repeat split. }
  split; [exact Hd1|]. split; [exact Hs2|].
  split; [unfold PresetManager.saveLastSession; destruct (isTauri pf); reflexivity|].
  split; [unfold PresetManager.saveLastSession; destruct (isTauri pf); reflexivity|].
  exact Hd2.
Qed.

End Persistence.

Lemma browser_mode_never_persists_witness :
  nothing_persisted (Main.initial MemoryBackend.empty)
    (snd (PresetManager.applyPreset MemoryBackend.browser MemoryBackend.backend
            "Night Reading"
            (snd (PresetManager.loadPresets MemoryBackend.browser MemoryBackend.backend
                    (Main.initial MemoryBackend.empty))))).
Proof.
  destruct (browser_mode_never_persists MemoryBackend.browser MemoryBackend.backend
              (snd (PresetManager.loadPresets MemoryBackend.browser MemoryBackend.backend
                      (Main.initial MemoryBackend.empty)))
              "Night Reading" Prefs.defaults Null "" NaN eq_refl)
    as (_ & H & _).
  exact H.
Defined.

(** ** When a preset applies *)

Section Outcome.

Context {St : Type} (pf : Platform) (be : Backend St).

Lemma setTint_completes (color : Js string) (opacity : Js JsNum) (o : OverlayManager.t) :
  exists o', OverlayManager.setTint color opacity o = Ok o'.
Proof.
  unfold OverlayManager.setTint.
  destruct (is_truthy color) eqn:Hc; cbn [negb]; [|eexists; reflexivity].
  destruct color as [| |c]; try discriminate Hc.
  unfold OverlayManager.hexToRgba. destruct (hex_channels c) as [[r g] b].
  eexists. reflexivity.
Qed.

Lemma setMedia_completes (filePath : Js string) (b : BackgroundManager.t) :
  exists b', BackgroundManager.setMedia pf filePath b = Ok b'.
Proof.
  unfold BackgroundManager.setMedia.
  destruct (is_truthy filePath) eqn:Hp; cbn [negb]; [|eexists; reflexivity].
  destruct filePath as [| |p]; try discriminate Hp.
  destruct (BackgroundManager._getMediaType p); eexists; reflexivity.
Qed.

(** The background group fails in one way only. *)
Lemma background_step (preset : Preset.t) (w : World St) :
  exists w',
    PresetManager.optionally (Preset.background preset)
      (PresetManager.apply_background pf be) w
    = (if background_applies pf be preset w then Ok w' else Throw w') /\
    reader w' = reader w.
Proof.
  unfold PresetManager.optionally, background_applies, needs_app_dir.
  destruct (Preset.background preset) as [b|]; [|exists w; split; reflexivity].
  unfold PresetManager.apply_background.
  destruct (js_is (Preset.bg_type b) "media" && is_truthy (Preset.bg_path b));
    cbn [negb andb].
  { unfold on_bgManager.
    destruct (setMedia_completes (Preset.bg_path b) (bgManager w)) as [b' ->].
    eexists. split; reflexivity. }
  destruct (js_is (Preset.bg_type b) "image" && is_truthy (Preset.bg_path b));
    cbn [andb]; [|eexists; split; reflexivity].
  destruct (isTauri pf).
  - cbn zeta. change (store (logged Inv_get_app_dir w)) with (store w).
    destruct (get_app_dir be (store w)) as [dir|]; [|eexists; split; reflexivity].
    unfold on_bgManager.
    match goal with
    | |- context [BackgroundManager.setMedia pf ?p ?m] =>
        destruct (setMedia_completes p m) as [b' ->]
    end.
    eexists. split; reflexivity.
  - unfold on_bgManager.
    destruct (setMedia_completes (Preset.bg_path b) (bgManager w)) as [b' ->].
    eexists. split; reflexivity.
Qed.

(** The overlay group never fails. *)
Lemma overlay_step (preset : Preset.t) (w : World St) :
  exists w',
    PresetManager.optionally (Preset.overlay preset) PresetManager.apply_overlay w = Ok w' /\
    reader w' = reader w.
Proof.
  unfold PresetManager.optionally.
  destruct (Preset.overlay preset) as [o|]; [|exists w; split; reflexivity].
  unfold PresetManager.apply_overlay, on_overlayManager.
  destruct (setTint_completes (Preset.ov_color o) (Preset.ov_opacity o) (overlayManager w))
    as [o' ->].
  eexists. split; reflexivity.
Qed.

Lemma wsets_steady (k : World St -> Res (World St)) (g : Appearance -> Appearance) :
  wsets k g -> (forall a, a_scrollbarThumb (g a) = a_scrollbarThumb a) -> steady k.
Proof.
  intros Hk Hg w Hw. destruct (Hk w Hw) as (w' & E & A & R & _).
  exists w'. split; [exact E|]. split; [exact R|].
  change (a_scrollbarThumb (appearance (reader w'))
          = a_scrollbarThumb (appearance (reader w))).
  rewrite A. apply Hg.
Qed.

Lemma steady_start : steady (St:=St) (fun w => Ok w).
Proof.
  intros w Hw. exists w. split; [reflexivity|]. split; [exact Hw | reflexivity].
Qed.

Lemma steady_bind (k1 k2 : World St -> Res (World St)) :
  steady k1 -> steady k2 -> steady (fun w => bind (k1 w) k2).
Proof.
  intros H1 H2 w Hw.
  destruct (H1 w Hw) as (w1 & E1 & R1 & T1).
  destruct (H2 w1 R1) as (w2 & E2 & R2 & T2).
  exists w2. rewrite E1. cbn [bind]. split; [exact E2|]. split; [exact R2|]. congruence.
Qed.

Lemma steady_when (c : bool) (k : World St -> Res (World St)) :
  (c = true -> steady k) -> steady (when c k).
Proof.
  intros H. destruct c; [apply H; reflexivity | apply steady_start].
Qed.

(** The reader group up to the scrollbar colours never fails on a ready
    reader. *)
Lemma reader_group_prefix (rd : Preset.Reader) :
  steady (St:=St) (fun w =>
    (Ok w
     >>= when (is_defined (Preset.rd_opacity rd))
           (on_reader (EpubReader.setOpacity (Preset.rd_opacity rd)))
     >>= when (is_truthy (Preset.rd_backgroundColor rd))
           (on_reader (EpubReader.setBackgroundColor (Preset.rd_backgroundColor rd)))
     >>= when (is_truthy (Preset.rd_textColor rd))
           (fun w => Ok (with_reader
                           (EpubReader.setTextColor (Preset.rd_textColor rd) (reader w)) w))
     >>= when (is_truthy (Preset.rd_fontFamily rd))
           (fun w => Ok (with_reader
                           (EpubReader.setFontFamily (Preset.rd_fontFamily rd) (reader w)) w))
     >>= when (is_truthy (Preset.rd_fontSize rd))
           (fun w => Ok (with_reader
                           (EpubReader.setFontSize (Preset.rd_fontSize rd) (reader w)) w))
     >>= when (is_truthy (Preset.rd_readingMode rd))
           (fun w => Ok (detached_setFlow (Preset.rd_readingMode rd) w))
     >>= when (is_defined (Preset.rd_glassmorphism rd))
           (on_reader (EpubReader.setGlassmorphism (Preset.rd_glassmorphism rd)))
     >>= when (is_defined (Preset.rd_glassBlur rd))
           (on_reader (EpubReader.setBlur (Preset.rd_glassBlur rd))))%res).
Proof.
  repeat apply steady_bind.
  - apply steady_start.
  - apply steady_when. intros _.
    apply (wsets_steady _ _ (on_reader_wsets _ _ (setOpacity_sets _))). reflexivity.
  - apply steady_when. intros Hc.
    destruct (Preset.rd_backgroundColor rd) as [| |c]; try discriminate Hc.
    apply (wsets_steady _ _ (on_reader_wsets _ _ (setBackgroundColor_sets c))).
    reflexivity.
  - apply steady_when. intros _.
    apply (wsets_steady _ _
             (with_reader_wsets (EpubReader.setTextColor (Preset.rd_textColor rd)) _
                (setTextColor_sets _))).
    reflexivity.
  - apply steady_when. intros _.
    apply (wsets_steady _ _
             (with_reader_wsets (EpubReader.setFontFamily (Preset.rd_fontFamily rd)) _
                (setFontFamily_sets _))).
    reflexivity.
  - apply steady_when. intros _.
    apply (wsets_steady _ _
             (with_reader_wsets (EpubReader.setFontSize (Preset.rd_fontSize rd)) _
                (setFontSize_sets _))).
    reflexivity.
  - apply steady_when. intros _.
    apply (wsets_steady _ _ (detached_setFlow_wsets _)). reflexivity.
  - apply steady_when. intros _.
    apply (wsets_steady _ _ (on_reader_wsets _ _ (setGlassmorphism_sets _))). reflexivity.
  - apply steady_when. intros _.
    apply (wsets_steady _ _ (on_reader_wsets _ _ (setBlur_sets _))). reflexivity.
Qed.

Lemma setScrollbarColors_completed (track thumb : Js string) (r : EpubReader.t) :
  completed (EpubReader.setScrollbarColors track thumb r)
  = match (if is_defined thumb then thumb else EpubReader.scrollbarThumb r) with
    | Val _ => true
    | _ => false
    end.
Proof.
  unfold EpubReader.setScrollbarColors.
  destruct track as [| |tr], thumb as [| |th]; cbn [is_defined]; reader_fields;
    try (destruct (EpubReader.scrollbarThumb r) as [| |th0]);
    reflexivity.
Qed.

(** The reader group fails in one way only. *)
Lemma reader_step (preset : Preset.t) (w : World St) :
  ready (reader w) ->
  completed (PresetManager.optionally (Preset.reader preset) PresetManager.apply_reader w)
  = scrollbars_apply preset (reader w).
Proof.
  intros Hw. unfold PresetManager.optionally, scrollbars_apply.
  destruct (Preset.reader preset) as [rd|]; [|reflexivity].
  unfold PresetManager.apply_reader.
  destruct (reader_group_prefix rd w Hw) as (w8 & E & R & T).
  cbn beta in E. rewrite E. cbn [bind]. unfold when.
  destruct (is_truthy (Preset.rd_scrollbarTrack rd)
            || is_truthy (Preset.rd_scrollbarThumb rd)); [|reflexivity].
  rewrite <- T.
  rewrite <- (setScrollbarColors_completed (Preset.rd_scrollbarTrack rd)
                (Preset.rd_scrollbarThumb rd) (reader w8)).
  unfold on_reader.
  destruct (EpubReader.setScrollbarColors (Preset.rd_scrollbarTrack rd)
              (Preset.rd_scrollbarThumb rd) (reader w8)); reflexivity.
Qed.

(** X15.  On a reader whose container can be styled, applying a preset that has
    been found fails in two ways only: its background group needs the
    application directory and the backend refuses it, or its scrollbar
    colours leave the reader with a thumb colour that is not a string.  In
    every other case [true] is returned and the preset becomes current. *)
Theorem applyPreset_succeeds_iff (preset : Preset.t) (w : World St) :
  ready (reader w) ->
  let result := PresetManager.apply_found pf be preset w in
  fst result = background_applies pf be preset w && scrollbars_apply preset (reader w) /\
  (fst result = true -> currentPreset (snd result) = Some preset) /\
  (fst result = false ->
   toasts (snd result) = (toasts w ++ [("Failed to apply preset", "error")])%list).
Proof.
  intros Hw. cbn zeta. unfold PresetManager.apply_found, PresetManager.apply_settings.
  cbn [bind].
  destruct (background_step preset w) as (w1 & E1 & R1).
  pose proof (apply_background_keeps pf be) as Kb.
  assert (T1 : toasts w1 = toasts w).
  { assert (K : kept w (state_of (PresetManager.optionally (Preset.background preset)
                                   (PresetManager.apply_background pf be) w))).
    { apply (optionally_keeps (Preset.background preset)). exact Kb. }
    rewrite E1 in K. destruct K as (_ & _ & _ & _ & K & _).
    destruct (background_applies pf be preset w); exact K. }
  rewrite E1.
  destruct (background_applies pf be preset w); cbn [bind andb];
    [|cbn; split; [reflexivity|]; split; [discriminate | intros _; now rewrite T1]].
  destruct (overlay_step preset w1) as (w2 & E2 & R2).
  assert (T2 : toasts w2 = toasts w1).
  { assert (K : kept w1 (state_of (PresetManager.optionally (Preset.overlay preset)
                                    PresetManager.apply_overlay w1))).
    { apply (optionally_keeps (Preset.overlay preset)). apply apply_overlay_keeps. }
    rewrite E2 in K. destruct K as (_ & _ & _ & _ & K & _). exact K. }
  rewrite E2. cbn [bind].
  assert (Hw2 : ready (reader w2)) by (rewrite R2, R1; exact Hw).
  pose proof (reader_step preset w2 Hw2) as Hc. rewrite R2, R1 in Hc.
  assert (T3 : toasts (state_of (PresetManager.optionally (Preset.reader preset)
                                   PresetManager.apply_reader w2)) = toasts w2).
  { assert (K : kept w2 (state_of (PresetManager.optionally (Preset.reader preset)
                                    PresetManager.apply_reader w2))).
    { apply (optionally_keeps (Preset.reader preset)). apply apply_reader_keeps. }
    destruct K as (_ & _ & _ & _ & K & _). exact K. }
  destruct (PresetManager.optionally (Preset.reader preset) PresetManager.apply_reader w2)
    as [w3|w3]; cbn [completed state_of fst snd] in *; rewrite <- Hc.
  - split; [reflexivity|]. split; [reflexivity | discriminate].
  - split; [reflexivity|]. split; [discriminate|]. intros _. cbn. congruence.
Qed.

End Outcome.

Lemma applyPreset_succeeds_iff_witness :
  fst (PresetManager.apply_found MemoryBackend.desktop MemoryBackend.backend
         (half_preset "Nook") (Main.initial MemoryBackend.empty)) = false.
Proof.
  destruct (applyPreset_succeeds_iff MemoryBackend.desktop MemoryBackend.backend
              (half_preset "Nook") (Main.initial MemoryBackend.empty)
              constructor_ready) as (H & _).
  rewrite H. reflexivity.
Defined.

(** ** Preferences and presets *)

Lemma js_or_val {A} `{Truthy A} (x d : A) : is_truthy (Val x) = true -> js_or (Val x) d = x.
Proof. cbn. intros ->. reflexivity. Qed.

Lemma round_percent (z : Z) :
  Math_round (js_mul (js_div (num z) (num 100)) (num 100)) = num z.
Proof. rewrite div_100. apply round_times_100. Qed.

Section PrefsRoundTrip.

Context {St : Type}.

(** X16.  Capturing the preferences into a preset and reading them back out of
    it gives the same preferences when they are complete, with a container
    opacity that is a whole number of percent from 0 to 100, except for the
    background path, which is taken from the background manager and not from
    the preferences. *)
Theorem capture_extract_round_trip (name : string) (p : Prefs.t) (w : World St) :
  prefs_complete p ->
  Prefs.assign p
    (PresetManager.extractPrefsFromPreset (PresetManager.buildPresetFromCurrent name p w))
  = Prefs.with_bgMediaPath
      (js_or_null (BackgroundManager.currentMedia (bgManager w))) p.
Proof.
  intros (Hff & Hfs & Hrm & Htc & Hcc & (z & _ & Hco) & [g Hgl] & [x Hgb] & Hst & Hsth).
  destruct p as [ff fs lp rm tc cc co gl gb bmp bam bmu bmv bmm st sth].
  cbn [Prefs.fontFamily Prefs.fontSize Prefs.readingMode Prefs.textColor
       Prefs.containerColor Prefs.containerOpacity Prefs.glassmorphism Prefs.glassBlur
       Prefs.scrollbarTrack Prefs.scrollbarThumb] in *.
  subst co gl gb.
  destruct ff as [| |ff]; try discriminate Hff.
  destruct fs as [| |fs]; try discriminate Hfs.
  destruct rm as [| |rm]; try discriminate Hrm.
  destruct tc as [| |tc]; try discriminate Htc.
  destruct cc as [| |cc]; try discriminate Hcc.
  destruct st as [| |st]; try discriminate Hst.
  destruct sth as [| |sth]; try discriminate Hsth.
  unfold PresetManager.extractPrefsFromPreset, PresetManager.buildPresetFromCurrent,
    Prefs.assign, Prefs.with_bgMediaPath, BackgroundManager.getCurrentMedia.
  cbn [Preset.reader Preset.background Preset.rd_opacity Preset.rd_backgroundColor
       Preset.rd_textColor Preset.rd_fontFamily Preset.rd_fontSize Preset.rd_readingMode
       Preset.rd_glassmorphism Preset.rd_glassBlur Preset.rd_scrollbarTrack
       Preset.rd_scrollbarThumb Preset.bg_path Preset.bg_type fst
       Prefs.fontFamily Prefs.fontSize Prefs.readingMode Prefs.textColor
       Prefs.containerColor Prefs.containerOpacity Prefs.glassmorphism Prefs.glassBlur
       Prefs.scrollbarTrack Prefs.scrollbarThumb Prefs.lastPreset Prefs.bgMediaPath
       Prefs.bgAudioMuted Prefs.bgMusicPath Prefs.bgMusicVolume Prefs.bgMusicMuted
       Prefs.set_fontFamily Prefs.set_fontSize Prefs.set_readingMode Prefs.set_textColor
       Prefs.set_containerColor Prefs.set_containerOpacity Prefs.set_glassmorphism
       Prefs.set_glassBlur Prefs.set_scrollbarTrack Prefs.set_scrollbarThumb
       Prefs.set_bgMediaPath js_nullish is_defined ToNumber].
  rewrite (js_or_val ff), (js_or_val fs), (js_or_val rm), (js_or_val tc),
    (js_or_val cc), (js_or_val st), (js_or_val sth) by assumption.
  rewrite Hff, Hfs, Hrm, Htc, Hcc, Hst, Hsth.
  rewrite round_percent.
  assert (Hg : js_or (Val g) false = g) by (destruct g; reflexivity).
  rewrite Hg.
  assert (Hm : (if is_truthy (js_or_null (BackgroundManager.currentMedia (bgManager w)))
                then js_or_null (BackgroundManager.currentMedia (bgManager w))
                else Null)
               = js_or_null (BackgroundManager.currentMedia (bgManager w))).
  { unfold js_or_null.
    destruct (is_truthy (BackgroundManager.currentMedia (bgManager w))) eqn:Hm;
      [rewrite Hm|]; reflexivity. }
  rewrite Hm. reflexivity.
Qed.

End PrefsRoundTrip.

Lemma capture_extract_round_trip_witness :
  Prefs.assign Prefs.defaults
    (PresetManager.extractPrefsFromPreset
       (PresetManager.buildPresetFromCurrent "Mine" Prefs.defaults
          (Main.initial MemoryBackend.empty)))
  = Prefs.defaults.
Proof.
  apply (capture_extract_round_trip "Mine" Prefs.defaults (Main.initial MemoryBackend.empty)).
  unfold prefs_complete. cbn [Prefs.defaults Prefs.fontFamily Prefs.fontSize
    Prefs.readingMode Prefs.textColor Prefs.containerColor Prefs.containerOpacity
    Prefs.glassmorphism Prefs.glassBlur Prefs.scrollbarTrack Prefs.scrollbarThumb].
  split; [reflexivity|]. split; [reflexivity|]. split; [reflexivity|].
  split; [reflexivity|]. split; [reflexivity|]. split; [exists 95%Z; split; [lia | reflexivity]|].
  split; [exists false; reflexivity|]. split; [exists (num 12); reflexivity|].
  split; reflexivity.
Defined.

Section SelectPreset.

Context {St : Type} (pf : Platform) (be : Backend St).

Lemma savePreferences_frame (w : World St) :
  let w' := Main.savePreferences pf be w in
  reader w' = reader w /\ currentPrefs w' = currentPrefs w /\
  currentPreset w' = currentPreset w /\ toasts w' = toasts w /\
  bgManager w' = bgManager w /\ overlayManager w' = overlayManager w /\
  invoked w' = (if main_isTauri pf
                then (invoked w ++ [Inv_set_preferences (currentPrefs w)])%list
                else invoked w).
Proof.
  cbn zeta. unfold Main.savePreferences.
  destruct (main_isTauri pf); cbn [negb]; repeat split.
Qed.

(** X17.  Clicking a cached preset whose reader group is complete (its opacity a
    whole number of percent), on a reader whose container can be styled and
    with the application directory at hand if it is needed: the preset is
    applied and becomes current, the preferences are overwritten from it, and
    the reader then shows exactly what the preferences hold.  On the desktop
    the last command sent to the backend stores those preferences. *)
Theorem selectPreset_in_sync (preset : Preset.t) (w : World St)
    (z : Z) (fs bl : JsNum) (bg tc ff fl st sth : string) (gl : bool) :
  Preset.reader preset
  = Some {| Preset.rd_opacity := Val (ratio z 100);
            Preset.rd_backgroundColor := Val bg;
            Preset.rd_textColor := Val tc;
            Preset.rd_fontFamily := Val ff;
            Preset.rd_fontSize := Val fs;
            Preset.rd_readingMode := Val fl;
            Preset.rd_glassmorphism := Val gl;
            Preset.rd_glassBlur := Val bl;
            Preset.rd_scrollbarTrack := Val st;
            Preset.rd_scrollbarThumb := Val sth |} ->
  truthy bg = true -> truthy tc = true -> truthy ff = true -> truthy fs = true ->
  truthy fl = true -> truthy st = true -> truthy sth = true ->
  PresetManager.find_preset (Preset.name preset) (presets w) = Some preset ->
  background_applies pf be preset w = true ->
  ready (reader w) ->
  let w' := Main.selectPreset pf be preset w in
  reader_in_sync w' /\
  currentPreset w' = Some preset /\
  currentPrefs w'
  = Prefs.assign (currentPrefs w) (PresetManager.extractPrefsFromPreset preset) /\
  last (toasts w') ("", "") = ("Applied preset: " ++ Preset.name preset, "success") /\
  (main_isTauri pf = true ->
   last (invoked w') Inv_list_presets = Inv_set_preferences (currentPrefs w')).
Proof.
  intros Hrd Hbg Htc Hff Hfs Hfl Hst Hsth Hfind Hdir Hw. cbn zeta.
  unfold Main.selectPreset, PresetManager.applyPreset. rewrite Hfind.
  unfold PresetManager.apply_found, PresetManager.apply_settings. cbn [bind].
  destruct (background_step pf be preset w) as (w1 & E1 & R1).
  assert (K1 : kept w (state_of (PresetManager.optionally (Preset.background preset)
                                   (PresetManager.apply_background pf be) w))).
  { apply (optionally_keeps (Preset.background preset)). apply apply_background_keeps. }
  rewrite E1, Hdir in *. cbn [bind state_of] in *.
  destruct (overlay_step preset w1) as (w2 & E2 & R2).
  assert (K2 : kept w1 (state_of (PresetManager.optionally (Preset.overlay preset)
                                    PresetManager.apply_overlay w1))).
  { apply (optionally_keeps (Preset.overlay preset)). apply apply_overlay_keeps. }
  rewrite E2 in *. cbn [bind state_of] in *.
  assert (Hw2 : ready (reader w2)) by (rewrite R2, R1; exact Hw).
  rewrite Hrd. cbn [PresetManager.optionally].
  destruct (apply_reader_full w2 (ratio z 100) fs bl bg tc ff fl st sth gl
              Hbg Htc Hff Hfs Hfl Hst Hw2) as (w3 & E3 & A3 & _).
  assert (K3 : kept w2 (state_of (PresetManager.apply_reader
            {| Preset.rd_opacity := Val (ratio z 100);
               Preset.rd_backgroundColor := Val bg;
               Preset.rd_textColor := Val tc;
               Preset.rd_fontFamily := Val ff;
               Preset.rd_fontSize := Val fs;
               Preset.rd_readingMode := Val fl;
               Preset.rd_glassmorphism := Val gl;
               Preset.rd_glassBlur := Val bl;
               Preset.rd_scrollbarTrack := Val st;
               Preset.rd_scrollbarThumb := Val sth |} w2))) by apply apply_reader_keeps.
  rewrite E3 in *. cbn [state_of] in K3.
  assert (Hprefs : currentPrefs w3 = currentPrefs w).
  { destruct K1 as (_ & _ & K1 & _), K2 as (_ & _ & K2 & _), K3 as (_ & _ & K3 & _).
    congruence. }
  set (prefs' := Prefs.assign (currentPrefs w)
                   (PresetManager.extractPrefsFromPreset preset)).
  set (w4 := with_currentPrefs
               (Prefs.assign (currentPrefs (with_currentPreset (Some preset) w3))
                  (PresetManager.extractPrefsFromPreset preset))
               (with_currentPreset (Some preset) w3)).
  destruct (savePreferences_frame w4) as (S1 & S2 & S3 & S4 & _ & _ & S7).
  cbn zeta in S1, S2, S3, S4, S7.
  assert (P4 : currentPrefs w4 = prefs').
  { unfold w4, prefs'. cbn [currentPrefs with_currentPrefs with_currentPreset].
    rewrite Hprefs. reflexivity. }
  split.
  { unfold reader_in_sync.
    cbn [reader currentPrefs showToast with_toasts].
    rewrite S1, S2, P4.
    change (reader w4) with (reader w3). rewrite A3.
    unfold prefs', PresetManager.extractPrefsFromPreset. rewrite Hrd.
    unfold appearance_of_prefs, Prefs.assign.
    cbn [Preset.rd_opacity Preset.rd_backgroundColor Preset.rd_textColor
         Preset.rd_fontFamily Preset.rd_fontSize Preset.rd_readingMode
         Preset.rd_glassmorphism Preset.rd_glassBlur Preset.rd_scrollbarTrack
         Preset.rd_scrollbarThumb is_truthy is_defined ToNumber
         Prefs.fontFamily Prefs.fontSize Prefs.readingMode Prefs.textColor
         Prefs.containerColor Prefs.containerOpacity Prefs.glassmorphism Prefs.glassBlur
         Prefs.scrollbarTrack Prefs.scrollbarThumb
         Prefs.set_fontFamily Prefs.set_fontSize Prefs.set_readingMode Prefs.set_textColor
         Prefs.set_containerColor Prefs.set_containerOpacity Prefs.set_glassmorphism
         Prefs.set_glassBlur Prefs.set_scrollbarTrack Prefs.set_scrollbarThumb].
    rewrite Hbg, Htc, Hff, Hfs, Hfl, Hst, Hsth.
    cbn [PresetManager.keep_if Prefs.put js_nullish].
    rewrite (js_or_val bg), (js_or_val tc), (js_or_val ff), (js_or_val fs),
      (js_or_val fl), (js_or_val st), (js_or_val sth) by assumption.
    change (ratio z 100) with (Num (Q2Qc (z # 100))).
    rewrite round_times_100, div_100.
    assert (Hg : js_or (Val gl) false = gl) by (destruct gl; reflexivity).
    rewrite Hg. reflexivity. }
  cbn [currentPreset currentPrefs toasts invoked showToast with_toasts].
  split; [rewrite S3; reflexivity|].
  split; [rewrite S2; exact P4|].
  split; [apply last_last|].
  intros Hm. rewrite S7, Hm, S2. apply last_last.
Qed.

End SelectPreset.

Lemma selectPreset_in_sync_witness :
  reader_in_sync
    (Main.selectPreset MemoryBackend.browser MemoryBackend.backend
       PresetManager.night_reading
       (snd (PresetManager.loadPresets MemoryBackend.browser MemoryBackend.backend
               (Main.initial MemoryBackend.empty)))).
Proof.
  apply (selectPreset_in_sync MemoryBackend.browser MemoryBackend.backend
           PresetManager.night_reading
           (snd (PresetManager.loadPresets MemoryBackend.browser MemoryBackend.backend
                   (Main.initial MemoryBackend.empty)))
           85 (num 20) (num 8) "#2d2d2d" "#e0e0e0" "serif" "paginated"
           "#1a1a1a" "#555555" false);
    first [reflexivity | exact constructor_ready].
Defined.

(** ** Progress writes *)

Section ProgressWrites.

Context {St : Type} (pf : Platform) (be : Backend St).

Lemma destroy_fields (r : EpubReader.t) :
  EpubReader.book (EpubReader.destroy r) = None /\
  EpubReader.rendition (EpubReader.destroy r) = None.
Proof.
  unfold EpubReader.destroy.
  destruct r as [bk rd rop rbg rtc rgl rbl rst rsth rff rfs rfl lg].
  destruct bk, rd; split; reflexivity.
Qed.

(** The callback of a timer writes nothing while no book is tracked. *)
Lemma save_progress_untracked (l : Js Location) (w : World St) :
  is_truthy (currentBookId w) = false -> Main.save_progress pf be l w = w.
Proof.
  intros Hid. unfold Main.save_progress.
  destruct l as [| |l]; try reflexivity.
  destruct (start l) as [| |s]; try reflexivity.
  rewrite Hid. reflexivity.
Qed.

Lemma openBook_book (b : EpubReader.Book) (start : Js string) (r : EpubReader.t) :
  EpubReader.book (EpubReader.openBook b start r) = Some b /\
  exists rend, EpubReader.rendition (EpubReader.openBook b start r) = Some rend.
Proof.
  unfold EpubReader.openBook.
  destruct (EpubReader._getRenderOptions
              (EpubReader.with_book (Some b) (EpubReader.destroy r))) as [fl mgr].
  reader_fields. split; [reflexivity | eexists; reflexivity].
Qed.

Lemma setFontFamily_book (family : Js string) (r : EpubReader.t) :
  EpubReader.book (EpubReader.setFontFamily family r) = EpubReader.book r /\
  EpubReader.rendition (EpubReader.setFontFamily family r) = EpubReader.rendition r.
Proof.
  unfold EpubReader.setFontFamily. cbn [EpubReader.with_fontFamily EpubReader.rendition].
  destruct (EpubReader.rendition r) eqn:E; reader_fields; rewrite ?E; split; reflexivity.
Qed.

Lemma setFontSize_book (size : Js JsNum) (r : EpubReader.t) :
  EpubReader.book (EpubReader.setFontSize size r) = EpubReader.book r /\
  EpubReader.rendition (EpubReader.setFontSize size r) = EpubReader.rendition r.
Proof.
  unfold EpubReader.setFontSize. cbn [EpubReader.with_fontSize EpubReader.rendition].
  destruct (EpubReader.rendition r) eqn:E; reader_fields; rewrite ?E; split; reflexivity.
Qed.

Lemma open_in_reader_frame (f : Main.Epub) (w : World St) :
  let w' := Main.open_in_reader f w in
  timers w' = timers w /\ saveTimeout w' = saveTimeout w /\
  nextTimerId w' = nextTimerId w /\ currentBookId w' = currentBookId w /\
  EpubReader.book (reader w') = Some (Main.epub_book f).
Proof.
  cbn zeta. unfold Main.open_in_reader.
  cbn [timers saveTimeout nextTimerId currentBookId reader with_reader].
  split; [reflexivity|]. split; [reflexivity|]. split; [reflexivity|].
  split; [reflexivity|].
  destruct (openBook_book (Main.epub_book f) (Main.epub_start f) (reader w))
    as (Hb & rend & Hr).
  rewrite Hr.
  rewrite (proj1 (setFontSize_book _ _)), (proj1 (setFontFamily_book _ _)).
  cbn [EpubReader.book EpubReader.emit EpubReader.with_log]. exact Hb.
Qed.

Lemma addBook_frame (path title author : string) (cover : Js string) (w : World St) :
  let res := LibraryManager.addBook pf be path title author cover w in
  reader (snd res) = reader w /\ timers (snd res) = timers w /\
  saveTimeout (snd res) = saveTimeout w /\ nextTimerId (snd res) = nextTimerId w /\
  currentBookId (snd res) = currentBookId w /\
  (fst res <> None -> isTauri pf = true).
Proof.
  cbn zeta. unfold LibraryManager.addBook.
  destruct (isTauri pf); cbn [negb].
  - cbn zeta.
    match goal with
    | |- context [add_book be ?a ?b ?c ?d ?e] =>
        destruct (add_book be a b c d e) as [st [id|]]
    end; cbn [fst snd]; repeat split.
  - cbn [fst snd]. repeat split. intros H. exfalso. apply H. reflexivity.
Qed.

Lemma track_frame (f : Main.Epub) (id : Js string) (w : World St) :
  let w' := state_of (Main.track pf be f id w) in
  timers w' = timers w /\ saveTimeout w' = saveTimeout w /\
  nextTimerId w' = nextTimerId w /\ currentBookId w' = id /\
  EpubReader.book (reader w') = EpubReader.book (reader w).
Proof.
  cbn zeta. unfold Main.track, LibraryManager.getBookProgress.
  destruct w as [r b o ps cp prefs bid sto tms nid tst sre inv].
  destruct (isTauri pf); cbn [negb].
  - cbn zeta.
    match goal with
    | |- context [get_book_progress be ?a ?b] =>
        destruct (get_book_progress be a b) as [saved|]
    end;
      cbn [reader with_currentBookId logged with_invoked];
      destruct (EpubReader.rendition r);
      try (destruct (is_truthy saved); [destruct (Main.epub_resolves f saved)|]);
      cbn; repeat split.
  - cbn [reader with_currentBookId]. destruct (EpubReader.rendition r); cbn; repeat split.
Qed.

(** What [openBookFromFile] leaves alone, on a file it can read: the
    timers and the variables of the progress handler.  The book of the
    file is the reader's book afterwards, and the tracked book changes
    only on the desktop. *)
Lemma openBookFromFile_frame (path : string) (f : Main.Epub) (w : World St) :
  let w' := Main.openBookFromFile pf be path (Some f) w in
  timers w' = timers w /\ saveTimeout w' = saveTimeout w /\
  nextTimerId w' = nextTimerId w /\
  EpubReader.book (reader w') = Some (Main.epub_book f) /\
  (currentBookId w' = currentBookId w \/ isTauri pf = true).
Proof.
  cbn zeta. unfold Main.openBookFromFile.
  pose proof (open_in_reader_frame f (showToast "Opening book..." "info" w))
    as (T1 & S1 & N1 & C1 & B1).
  cbn zeta in T1, S1, N1, C1, B1.
  set (w1 := Main.open_in_reader f (showToast "Opening book..." "info" w)) in *.
  pose proof (addBook_frame path (Main.epub_title f) (Main.epub_author f)
                (Main.epub_cover f) w1) as (R2 & T2 & S2 & N2 & C2 & I2).
  cbn zeta in R2, T2, S2, N2, C2, I2.
  destruct (LibraryManager.addBook pf be path (Main.epub_title f) (Main.epub_author f)
              (Main.epub_cover f) w1) as [book w2].
  cbn [fst snd] in R2, T2, S2, N2, C2, I2.
  destruct book as [id|].
  - pose proof (track_frame f id w2) as (T3 & S3 & N3 & C3 & B3).
    cbn zeta in T3, S3, N3, C3, B3.
    destruct (Main.track pf be f id w2) as [w3|w3]; cbn [state_of] in T3, S3, N3, C3, B3;
      cbn [timers saveTimeout nextTimerId reader currentBookId showToast with_toasts];
      (split; [rewrite T3, T2, T1; reflexivity|]);
      (split; [rewrite S3, S2, S1; reflexivity|]);
      (split; [rewrite N3, N2, N1; reflexivity|]);
      (split; [rewrite B3, R2; exact B1|]);
      right; apply I2; discriminate.
  - cbn [timers saveTimeout nextTimerId reader currentBookId showToast with_toasts].
    split; [rewrite T2, T1; reflexivity|].
    split; [rewrite S2, S1; reflexivity|].
    split; [rewrite N2, N1; reflexivity|].
    split; [rewrite R2; exact B1|].
    left. rewrite C2, C1. reflexivity.
Qed.

(** X18.  Closing the book does not cancel the progress timer that is pending.
    When its callback runs while no book is tracked, nothing is sent to the
    backend.  When another book has been opened and tracked before it runs,
    the callback writes the position of the book that was closed under the
    id of the new book, with the fraction the new book's table gives for
    it. *)
Theorem closeBook_keeps_pending_timer (w : World St) :
  let closed := Main.closeBook w in
  currentBookId closed = Null /\
  EpubReader.book (reader closed) = None /\
  EpubReader.rendition (reader closed) = None /\
  timers closed = timers w /\
  (forall (now id : nat) (w' : World St),
     Main.timeout pf be now id closed = Some w' ->
     invoked w' = invoked w /\ store w' = store w) /\
  (forall (path : string) (f : Main.Epub) (now id : nat) (c : string)
          (pending : Timer) (w' : World St),
     let reopened := Main.openBookFromFile pf be path (Some f) closed in
     is_truthy (currentBookId reopened) = true ->
     find (fun t => timer_id t =? id) (timers w) = Some pending ->
     location pending = at_cfi c ->
     Main.timeout pf be now id reopened = Some w' ->
     invoked w'
     = (invoked reopened
        ++ [Inv_update_progress (currentBookId reopened)
              (progress_of (Main.epub_book f) c) c])%list).
Proof.
  cbn zeta.
  split; [reflexivity|].
  split; [apply (destroy_fields (reader w))|].
  split; [apply (destroy_fields (reader w))|].
  split; [reflexivity|].
  split.
  - intros now id w' Hrun. unfold Main.timeout in Hrun.
    destruct (find _ (timers (Main.closeBook w))) as [t|]; [|discriminate Hrun].
    destruct (deadline t <=? now); [|discriminate Hrun].
    injection Hrun as <-.
    rewrite save_progress_untracked by reflexivity. split; reflexivity.
  - intros path f now id c pending w' Hid Hfind Hloc Hrun.
    destruct (openBookFromFile_frame path f (Main.closeBook w))
      as (Htm & _ & _ & Hbook & Hcur).
    cbn zeta in Htm, Hbook, Hcur.
    set (reopened := Main.openBookFromFile pf be path (Some f) (Main.closeBook w)) in *.
    assert (Ht : isTauri pf = true).
    { destruct Hcur as [Hcur|Hcur]; [|exact Hcur].
      rewrite Hcur in Hid. discriminate Hid. }
    unfold Main.timeout in Hrun. rewrite Htm in Hrun.
    change (timers (Main.closeBook w)) with (timers w) in Hrun.
    rewrite Hfind in Hrun.
    destruct (deadline pending <=? now); [|discriminate Hrun].
    injection Hrun as <-. rewrite Hloc.
    rewrite (save_progress_written pf be _ (Main.epub_book f) c Ht);
      [reflexivity | exact Hid | exact Hbook].
Qed.

(** A page turn in one book, the book closed and another opened within the
    two seconds: the timer runs and the first book's position is stored as
    the second book's. *)
Example stale_progress_write :
  let pf := MemoryBackend.desktop in
  let be := MemoryBackend.backend in
  let turned := Main.run pf be [(1000, Main.Relocated (at_cfi "epubcfi(/6/8)"))]
                  (reading MemoryBackend.empty) in
  let reopened := option_map
                    (fun w => Main.openBookFromFile pf be "/books/emma.epub" (Some emma)
                                (Main.closeBook w)) turned in
  let run := match reopened with
             | Some w => Main.timeout pf be 3000 1 w
             | None => None
             end in
  option_map (fun w => MemoryBackend.stored_progress (store w)) run
  = Some [(Val "book:/books/emma.epub", ratio 1 2, "epubcfi(/6/8)")].
Proof. vm_compute. reflexivity. Qed.

(** One event and then the callback of its timer, however late. *)
Lemma event_then_timeout (w : World St) (b : EpubReader.Book) (t late : nat) (c : string)
    (rest : list (nat * Main.Tick)) :
  isTauri pf = true ->
  is_truthy (currentBookId w) = true ->
  EpubReader.book (reader w) = Some b ->
  EpubReader.listens "relocated" (reader w) = true ->
  timers w = [] ->
  Main.run pf be
    ((t, Main.Relocated (at_cfi c)) :: (t + 2000 + late, Main.Timeout (nextTimerId w))
     :: rest) w
  = Main.run pf be rest
      (with_store
         (fst (update_progress be (currentBookId w) (progress_of b c) c (store w)))
         (logged (progress_write (currentBookId w) b c)
            (with_timers []
               (armed w t (at_cfi c) (nextTimerId w) (S (nextTimerId w)))))).
Proof.
  intros Ht Hid Hb Hl Htm.
  cbn [Main.run Main.tick]. rewrite Hl, (relocated_arms w t (at_cfi c) Htm).
  rewrite timeout_armed, Nat.eqb_refl.
  assert (Hdue : (t + 2000 <=? t + 2000 + late) = true) by (apply Nat.leb_le; lia).
  rewrite Hdue. cbn [andb].
  rewrite (save_progress_written pf be _ b c Ht); [reflexivity | exact Hid | exact Hb].
Qed.

Lemma run_prompt (events : list (nat * string * nat)) :
  forall (w : World St) (b : EpubReader.Book),
    isTauri pf = true ->
    is_truthy (currentBookId w) = true ->
    EpubReader.book (reader w) = Some b ->
    EpubReader.listens "relocated" (reader w) = true ->
    timers w = [] ->
    exists w',
      Main.run pf be (prompt (nextTimerId w) events) w = Some w' /\
      invoked w'
      = (invoked w
         ++ map (fun e => progress_write (currentBookId w) b (snd (fst e))) events)%list /\
      timers w' = [].
Proof.
  induction events as [|[[t c] late] events IH]; intros w b Ht Hid Hb Hl Htm.
  - exists w. cbn. rewrite app_nil_r. repeat split. exact Htm.
  - cbn [prompt]. rewrite (event_then_timeout w b t late c _ Ht Hid Hb Hl Htm).
    set (w1 := with_store _ _).
    destruct (IH w1 b Ht Hid Hb Hl eq_refl) as (w' & E & I & T).
    exists w'. split; [exact E|]. split; [|exact T].
    rewrite I. unfold w1. cbn [invoked with_store logged with_invoked map fst snd].
    rewrite <- app_assoc. reflexivity.
Qed.

(** X19.  When the browser runs the timer of each page turn before the next
    page turn arrives, however late after its two seconds, every page turn
    is written: one progress write per event, in order, each with the
    position and the fraction of its own event.  A page turn that arrives
    while the timer of the one before it is still pending, be it after that
    timer's deadline, cancels it: nothing has been written, the pending
    timer is that of the later event, and the browser never runs the
    cancelled one. *)
Theorem prompt_timers_all_written
    (w : World St) (b : EpubReader.Book) (events : list (nat * string * nat)) :
  isTauri pf = true ->
  is_truthy (currentBookId w) = true ->
  EpubReader.book (reader w) = Some b ->
  EpubReader.listens "relocated" (reader w) = true ->
  timers w = [] ->
  (exists w',
     Main.run pf be (prompt (nextTimerId w) events) w = Some w' /\
     invoked w'
     = (invoked w
        ++ map (fun e => progress_write (currentBookId w) b (snd (fst e))) events)%list /\
     timers w' = []) /\
  (forall (t t' now : nat) (l l' : Js Location),
     exists w1,
       Main.run pf be [(t, Main.Relocated l); (t', Main.Relocated l')] w = Some w1 /\
       timers w1
       = [{| timer_id := S (nextTimerId w); deadline := t' + 2000; location := l' |}] /\
       invoked w1 = invoked w /\
       Main.timeout pf be now (nextTimerId w) w1 = None).
Proof.
  intros Ht Hid Hb Hl Htm. split.
  - exact (run_prompt events w b Ht Hid Hb Hl Htm).
  - intros t t' now l l'.
    cbn [Main.run Main.tick]. rewrite Hl, (relocated_arms w t l Htm).
    change (reader (armed w t l (nextTimerId w) (S (nextTimerId w)))) with (reader w).
    rewrite Hl, relocated_rearms.
    eexists. split; [reflexivity|]. split; [reflexivity|]. split; [reflexivity|].
    rewrite timeout_armed.
    assert (Hne : (S (nextTimerId w) =? nextTimerId w) = false)
      by (apply Nat.eqb_neq; lia).
    rewrite Hne. reflexivity.
Qed.

End ProgressWrites.

Lemma prompt_timers_all_written_witness :
  let w := reading MemoryBackend.empty in
  exists w',
    Main.run MemoryBackend.desktop MemoryBackend.backend
      [(100, Main.Relocated (at_cfi "epubcfi(/6/4)")); (2100, Main.Timeout 1);
       (2400, Main.Relocated (at_cfi "epubcfi(/6/8)")); (4700, Main.Timeout 2)] w
    = Some w' /\
    invoked w'
    = (invoked w
       ++ [Inv_update_progress (Val "book:/books/walden.epub") (ratio 1 10) "epubcfi(/6/4)";
           Inv_update_progress (Val "book:/books/walden.epub") (ratio 3 10)
             "epubcfi(/6/8)"])%list /\
    timers w' = [].
Proof.
  cbv zeta.
  destruct (prompt_timers_all_written MemoryBackend.desktop MemoryBackend.backend
              (reading MemoryBackend.empty) (Main.epub_book walden)
              [(100, "epubcfi(/6/4)", 0); (2400, "epubcfi(/6/8)", 300)]
              eq_refl eq_refl eq_refl eq_refl eq_refl) as [H _].
  exact H.
Defined.

(** Two page turns exactly two seconds apart with a browser that is late
    with the first timer: the second event cancels it, and only the second
    position is written. *)
Example late_timer_drops_a_write :
  let w := reading MemoryBackend.empty in
  let run := Main.run MemoryBackend.desktop MemoryBackend.backend
               [(500, Main.Relocated (at_cfi "epubcfi(/6/4)"));
                (2500, Main.Relocated (at_cfi "epubcfi(/6/8)"));
                (4500, Main.Timeout 2)] w in
  option_map (fun w' => MemoryBackend.stored_progress (store w')) run
  = Some [(Val "book:/books/walden.epub", ratio 3 10, "epubcfi(/6/8)")].
Proof. vm_compute. reflexivity. Qed.

(** ** Music at startup *)

Section MusicRestore.

Context {St : Type} (pf : Platform).

(** X20.  With a music path in the preferences, the music step of the
    startup completes for every whole-number volume (50 when the
    preference is absent) and leaves the manager reporting that path, the
    volume brought into 0..100 and the preferred mute flag (muted when
    absent); the audio element has the track's URL, and it is playing when
    the music is not muted.  Reader and overlay are not touched. *)
Theorem restore_music_restores (w : World St) (path : string) (v : Z) :
  Prefs.bgMusicPath (currentPrefs w) = Val path ->
  path <> "" ->
  js_nullish (Prefs.bgMusicVolume (currentPrefs w)) (num 50) = num v ->
  let muted := js_nullish (Prefs.bgMusicMuted (currentPrefs w)) true in
  exists w' : World St,
    Main.restore_music pf w = Ok w' /\
    BackgroundManager.getCurrentMusic (bgManager w')
    = {| BackgroundManager.music_path := Val path;
         BackgroundManager.music_volume := num (Z.max 0 (Z.min 100 v));
         BackgroundManager.music_muted := muted |} /\
    BackgroundManager.bgAudio_src (bgManager w')
    = BackgroundManager._toAssetUrl pf path /\
    BackgroundManager.bgAudio_muted (bgManager w') = muted /\
    (muted = false -> BackgroundManager.bgAudio_playing (bgManager w') = true) /\
    reader w' = reader w /\ overlayManager w' = overlayManager w /\
    currentPrefs w' = currentPrefs w.
Proof.
  intros Hpath Hne Hvol. cbn zeta.
  unfold Main.restore_music. rewrite Hpath, Hvol.
  cbn [is_truthy]. rewrite (truthy_string_nonempty path Hne).
  unfold on_bgManager, BackgroundManager.setMusicVolume. rewrite volume_clamp.
  cbn [bind]. eexists. split; [reflexivity|].
  cbn [bgManager with_bgManager reader overlayManager currentPrefs].
  unfold BackgroundManager.getCurrentMusic, BackgroundManager.setMusicMuted,
    BackgroundManager.setMusic.
  rewrite (truthy_string_nonempty path Hne).
  cbn [BackgroundManager.with_audio BackgroundManager.bgAudio_volume
       BackgroundManager.musicPath BackgroundManager.musicMuted
       BackgroundManager.bgAudio_src BackgroundManager.bgAudio_muted
       BackgroundManager.bgAudio_playing is_truthy].
  rewrite round_times_100, (truthy_string_nonempty path Hne).
  split; [reflexivity|]. split; [reflexivity|]. split; [reflexivity|].
  split; [intros ->; reflexivity|]. split; [reflexivity|]. split; reflexivity.
Qed.

End MusicRestore.

Lemma restore_music_restores_witness :
  exists w' : World MemoryBackend.Store,
    Main.restore_music MemoryBackend.desktop
      (with_currentPrefs
         {| Prefs.fontFamily := Val "serif"; Prefs.fontSize := Val (num 18);
            Prefs.lastPreset := Null; Prefs.readingMode := Val "paginated";
            Prefs.textColor := Val "#1a1a1a"; Prefs.containerColor := Val "#FFFFFF";
            Prefs.containerOpacity := Val (num 95); Prefs.glassmorphism := Val false;
            Prefs.glassBlur := Val (num 12); Prefs.bgMediaPath := Null;
            Prefs.bgAudioMuted := Val true; Prefs.bgMusicPath := Val "/music/rain.mp3";
            Prefs.bgMusicVolume := Val (num 130); Prefs.bgMusicMuted := Val false;
            Prefs.scrollbarTrack := Val "#1a1a1a"; Prefs.scrollbarThumb := Val "#4a9eff" |}
         (Main.initial MemoryBackend.empty)) = Ok w' /\
    BackgroundManager.getCurrentMusic (bgManager w')
    = {| BackgroundManager.music_path := Val "/music/rain.mp3";
         BackgroundManager.music_volume := num 100;
         BackgroundManager.music_muted := false |}.
Proof.
  destruct (restore_music_restores MemoryBackend.desktop
              (with_currentPrefs
                 {| Prefs.fontFamily := Val "serif"; Prefs.fontSize := Val (num 18);
                    Prefs.lastPreset := Null; Prefs.readingMode := Val "paginated";
                    Prefs.textColor := Val "#1a1a1a"; Prefs.containerColor := Val "#FFFFFF";
                    Prefs.containerOpacity := Val (num 95); Prefs.glassmorphism := Val false;
                    Prefs.glassBlur := Val (num 12); Prefs.bgMediaPath := Null;
                    Prefs.bgAudioMuted := Val true;
                    Prefs.bgMusicPath := Val "/music/rain.mp3";
                    Prefs.bgMusicVolume := Val (num 130); Prefs.bgMusicMuted := Val false;
                    Prefs.scrollbarTrack := Val "#1a1a1a";
                    Prefs.scrollbarThumb := Val "#4a9eff" |}
                 (Main.initial MemoryBackend.empty))
              "/music/rain.mp3" 130 eq_refl ltac:(discriminate) eq_refl)
    as (w' & E & M & _).
  exists w'. split; [exact E | exact M].
Defined.

(** ** The settings panel *)

Lemma num_sub (a b : Z) : js_sub (num a) (num b) = num (a - b).
Proof.
  unfold js_sub, num. f_equal. apply Qc_is_canon.
  unfold Qcminus, Qcplus, Qcopp. cbn [this Q2Qc]. rewrite !Qred_correct.
  unfold Qeq, Qplus, Qopp, inject_Z. cbn [Qnum Qden]. lia.
Qed.

Lemma num_add (a b : Z) : js_add (num a) (num b) = num (a + b).
Proof.
  unfold js_add, num. f_equal. apply Qc_is_canon.
  unfold Qcplus. cbn [this Q2Qc]. rewrite !Qred_correct.
  unfold Qeq, Qplus, inject_Z. cbn [Qnum Qden]. lia.
Qed.

Lemma num_le_bool (a b : Z) :
  Qle_bool (Q2Qc (inject_Z a)) (Q2Qc (inject_Z b)) = (a <=? b)%Z.
Proof.
  destruct (Z.leb_spec a b) as [H|H].
  - apply Qle_bool_iff. apply (proj2 (Q2Qc_le (inject_Z a) (inject_Z b))).
    rewrite <- Zle_Qle. exact H.
  - destruct (Qle_bool (Q2Qc (inject_Z a)) (Q2Qc (inject_Z b))) eqn:E; [|reflexivity].
    apply Qle_bool_iff in E. apply (proj1 (Q2Qc_le (inject_Z a) (inject_Z b))) in E.
    rewrite <- Zle_Qle in E. lia.
Qed.

Lemma Math_max_num (a b : Z) : Math_max (num a) (num b) = num (Z.max a b).
Proof.
  unfold Math_max, num. rewrite num_le_bool.
  destruct (Z.leb_spec a b); f_equal; f_equal; f_equal; lia.
Qed.

Lemma Math_min_num (a b : Z) : Math_min (num a) (num b) = num (Z.min a b).
Proof.
  unfold Math_min, num. rewrite num_le_bool.
  destruct (Z.leb_spec b a); f_equal; f_equal; f_equal; lia.
Qed.

Lemma clamp_num (lo hi z : Z) : clamp lo hi (num z) = num (Z.max lo (Z.min hi z)).
Proof. unfold clamp. rewrite Math_min_num, Math_max_num. reflexivity. Qed.

Lemma truthy_num_nonzero (z : Z) : z <> 0%Z -> truthy (num z) = true.
Proof.
  intros H. unfold truthy, truthy_num, num.
  destruct (Qeq_bool (Q2Qc (inject_Z z)) 0) eqn:E; [|reflexivity].
  apply Qeq_bool_iff in E. cbn [this Q2Qc] in E. rewrite Qred_correct in E.
  unfold Qeq, inject_Z in E. cbn in E. lia.
Qed.

Section SettingsPanel.

Context {St : Type} (pf : Platform) (be : Backend St).

Lemma saved_last (w : World St) :
  preferences_saved pf (Main.savePreferences pf be w).
Proof.
  intros Hm. unfold Main.savePreferences. rewrite Hm. cbn. apply last_last.
Qed.

(** A control that writes one preference and calls one setter, in either
    order: what is left to show is that the setter completes and that the
    appearance it produces is the one the new preferences stand for. *)
Lemma control_outcome (w : World St) (r' : EpubReader.t) (p' : Prefs.t) :
  appearance r' = appearance_of_prefs p' ->
  (exists z : Z, Prefs.fontSize p' = Val (num z) /\ (12 <= z <= 32)%Z) ->
  let w' := Main.savePreferences pf be (with_currentPrefs p' (with_reader r' w)) in
  reader_in_sync w' /\ font_pref_in_range w' /\
  bgManager w' = bgManager w /\ overlayManager w' = overlayManager w /\
  preferences_saved pf w'.
Proof.
  intros Ha Hf. cbn zeta.
  destruct (savePreferences_frame pf be (with_currentPrefs p' (with_reader r' w)))
    as (S1 & S2 & _ & _ & S5 & S6 & _).
  cbn zeta in *.
  split; [unfold reader_in_sync; rewrite S1, S2; exact Ha|].
  split; [unfold font_pref_in_range; rewrite S2; exact Hf|].
  split; [rewrite S5; reflexivity|]. split; [rewrite S6; reflexivity|].
  apply saved_last.
Qed.

Lemma setScrollbarTrack_sets (c s : string) (r : EpubReader.t) :
  ready r -> EpubReader.scrollbarThumb r = Val s ->
  exists r', EpubReader.setScrollbarColors (Val c) Undefined r = Ok r' /\
             appearance r' = put_scrollbarTrack (Val c) (appearance r).
Proof.
  intros _ Hs. destruct r as [bk rd rop rbg rtc rgl rbl rst rsth rff rfs rfl lg].
  cbn in Hs. subst rsth.
  unfold EpubReader.setScrollbarColors, EpubReader._applyIframeStyles.
  cbn [is_defined]. reader_fields.
  destruct rd; eexists; split; reflexivity.
Qed.

Lemma setScrollbarThumb_sets (c : string) (r : EpubReader.t) :
  exists r', EpubReader.setScrollbarColors Undefined (Val c) r = Ok r' /\
             appearance r' = put_scrollbarThumb (Val c) (appearance r).
Proof.
  destruct r as [bk rd rop rbg rtc rgl rbl rst rsth rff rfs rfl lg].
  unfold EpubReader.setScrollbarColors, EpubReader._applyIframeStyles.
  cbn [is_defined]. reader_fields.
  destruct rd; eexists; split; reflexivity.
Qed.

(** X21.  Every appearance control of the settings panel keeps the reader and the
    preferences in agreement.  From a state in which the reader shows what
    the preferences hold and the preferred font size is a whole number in
    12..32, each control, given a value it can deliver, completes, leaves the
    reader showing what the preferences now hold and the font size a whole
    number in 12..32, does not touch the background or the overlay, and on
    the desktop ends by sending the preferences to be stored. *)
Theorem settings_keep_reader_in_sync (c : Settings.Control) (w : World St) :
  valid_control c ->
  reader_in_sync w ->
  font_pref_in_range w ->
  exists w' : World St,
    Settings.handle pf be c w = Ok w' /\
    reader_in_sync w' /\ font_pref_in_range w' /\
    bgManager w' = bgManager w /\ overlayManager w' = overlayManager w /\
    preferences_saved pf w'.
Proof.
  intros Hv Hsync Hfont.
  pose proof (in_sync_ready w Hsync) as Hready.
  destruct Hfont as (z & Hz & Hrange).
  unfold reader_in_sync in Hsync.
  destruct c as [mode|family| | |color|color|val|enabled|val|color|color];
    cbn [valid_control] in Hv; cbn [Settings.handle].
  - (* mode *)
    unfold Main.selectMode, detached_setFlow.
    destruct (setFlow_sets (Val mode) (reader w) Hready) as (r' & E & A & _).
    injection E as E. cbn [reader with_currentPrefs]. rewrite E.
    eexists. split; [reflexivity|].
    apply (control_outcome w r'
             (Prefs.with_readingMode (Val mode) (currentPrefs w))).
    + rewrite A, Hsync. unfold appearance_of_prefs, put_flow. cbn.
      rewrite (truthy_string_nonempty mode Hv). reflexivity.
    + exists z. split; [exact Hz | exact Hrange].
  - (* font family *)
    unfold Settings.fontOption, Main.reader_does, Settings.set_pref, Settings.save.
    cbn [bind]. eexists. split; [reflexivity|].
    destruct (setFontFamily_sets (Val family) (reader w) Hready) as (r' & E & A & _).
    injection E as E. rewrite E.
    apply (control_outcome w r' (Prefs.with_fontFamily (Val family) (currentPrefs w))).
    + rewrite A, Hsync. unfold appearance_of_prefs, put_fontFamily. cbn.
      rewrite (truthy_string_nonempty family Hv). reflexivity.
    + exists z. split; [exact Hz | exact Hrange].
  - (* font size down *)
    unfold Settings.fontSizeDown, Main.reader_does, Settings.set_pref, Settings.save.
    cbn [bind]. eexists. split; [reflexivity|].
    rewrite Hz. cbn [ToNumber]. rewrite num_sub, Math_max_num.
    destruct (setFontSize_sets (Val (num (Z.max 12 (z - 2)))) (reader w) Hready)
      as (r' & E & A & _).
    injection E as E. cbn [reader with_currentPrefs]. rewrite E.
    apply (control_outcome w r'
             (Prefs.with_fontSize (Val (num (Z.max 12 (z - 2)))) (currentPrefs w))).
    + rewrite A, Hsync. unfold appearance_of_prefs, put_fontSize.
      cbn [a_opacity a_backgroundColor a_textColor a_fontFamily a_fontSize a_flow
           a_glassmorphism a_blur a_scrollbarTrack a_scrollbarThumb
           Prefs.with_fontSize Prefs.fontFamily Prefs.fontSize Prefs.readingMode
           Prefs.textColor Prefs.containerColor Prefs.containerOpacity
           Prefs.glassmorphism Prefs.glassBlur Prefs.scrollbarTrack
           Prefs.scrollbarThumb ToNumber].
      rewrite (js_or_val (num (Z.max 12 (z - 2))) (num 18))
        by (apply truthy_num_nonzero; lia).
      reflexivity.
    + exists (Z.max 12 (z - 2)). split; [reflexivity | lia].
  - (* font size up *)
    unfold Settings.fontSizeUp, Main.reader_does, Settings.set_pref, Settings.save.
    cbn [bind]. eexists. split; [reflexivity|].
    rewrite Hz. cbn [ToNumber]. rewrite num_add, Math_min_num.
    destruct (setFontSize_sets (Val (num (Z.min 32 (z + 2)))) (reader w) Hready)
      as (r' & E & A & _).
    injection E as E. cbn [reader with_currentPrefs]. rewrite E.
    apply (control_outcome w r'
             (Prefs.with_fontSize (Val (num (Z.min 32 (z + 2)))) (currentPrefs w))).
    + rewrite A, Hsync. unfold appearance_of_prefs, put_fontSize.
      cbn [a_opacity a_backgroundColor a_textColor a_fontFamily a_fontSize a_flow
           a_glassmorphism a_blur a_scrollbarTrack a_scrollbarThumb
           Prefs.with_fontSize Prefs.fontFamily Prefs.fontSize Prefs.readingMode
           Prefs.textColor Prefs.containerColor Prefs.containerOpacity
           Prefs.glassmorphism Prefs.glassBlur Prefs.scrollbarTrack
           Prefs.scrollbarThumb ToNumber].
      rewrite (js_or_val (num (Z.min 32 (z + 2))) (num 18))
        by (apply truthy_num_nonzero; lia).
      reflexivity.
    + exists (Z.min 32 (z + 2)). split; [reflexivity | lia].
  - (* text colour *)
    unfold Settings.textColorInput, Main.reader_does, Settings.set_pref, Settings.save.
    cbn [bind]. eexists. split; [reflexivity|].
    destruct (setTextColor_sets (Val color) (reader w) Hready) as (r' & E & A & _).
    injection E as E. cbn [reader with_currentPrefs]. rewrite E.
    apply (control_outcome w r'
             (Settings.with_textColor (Val color) (currentPrefs w))).
    + rewrite A, Hsync. unfold appearance_of_prefs, put_textColor. cbn.
      rewrite (truthy_string_nonempty color Hv). reflexivity.
    + exists z. split; [exact Hz | exact Hrange].
  - (* container colour *)
    unfold Settings.containerColorInput, Settings.set_pref, Settings.save, on_reader.
    cbn [bind reader with_currentPrefs].
    destruct (setBackgroundColor_sets color (reader w) Hready) as (r' & E & A & _).
    rewrite E. cbn [bind]. eexists. split; [reflexivity|].
    apply (control_outcome w r'
             (Settings.with_containerColor (Val color) (currentPrefs w))).
    + rewrite A, Hsync. unfold appearance_of_prefs, put_backgroundColor. cbn.
      rewrite (truthy_string_nonempty color Hv). reflexivity.
    + exists z. split; [exact Hz | exact Hrange].
  - (* container opacity *)
    unfold Settings.containerOpacityInput, Settings.set_pref, Settings.save, on_reader.
    cbn [bind reader with_currentPrefs].
    destruct (setOpacity_sets (Val (js_div val (num 100))) (reader w) Hready)
      as (r' & E & A & _).
    rewrite E. cbn [bind]. eexists. split; [reflexivity|].
    apply (control_outcome w r'
             (Settings.with_containerOpacity (Val val) (currentPrefs w))).
    + rewrite A, Hsync. reflexivity.
    + exists z. split; [exact Hz | exact Hrange].
  - (* glass toggle *)
    unfold Settings.glassToggle, Settings.set_pref, Settings.save, on_reader.
    cbn [bind reader with_currentPrefs].
    destruct (setGlassmorphism_sets (Val enabled) (reader w) Hready) as (r' & E & A & _).
    rewrite E. cbn [bind]. eexists. split; [reflexivity|].
    apply (control_outcome w r'
             (Settings.with_glassmorphism (Val enabled) (currentPrefs w))).
    + rewrite A, Hsync. destruct enabled; reflexivity.
    + exists z. split; [exact Hz | exact Hrange].
  - (* glass blur *)
    unfold Settings.glassBlurInput, Settings.set_pref, Settings.save, on_reader.
    cbn [bind reader with_currentPrefs].
    destruct (setBlur_sets (Val val) (reader w) Hready) as (r' & E & A & _).
    rewrite E. cbn [bind]. eexists. split; [reflexivity|].
    apply (control_outcome w r'
             (Settings.with_glassBlur (Val val) (currentPrefs w))).
    + rewrite A, Hsync. reflexivity.
    + exists z. split; [exact Hz | exact Hrange].
  - (* scrollbar track *)
    unfold Settings.scrollbarTrackInput, Settings.set_pref, Settings.save, on_reader.
    cbn [bind reader with_currentPrefs].
    assert (Hthumb : exists s, EpubReader.scrollbarThumb (reader w) = Val s).
    { change (EpubReader.scrollbarThumb (reader w))
        with (a_scrollbarThumb (appearance (reader w))).
      rewrite Hsync. eexists. reflexivity. }
    destruct Hthumb as [s Hs].
    destruct (setScrollbarTrack_sets color s (reader w) Hready Hs) as (r' & E & A).
    rewrite E. cbn [bind]. eexists. split; [reflexivity|].
    apply (control_outcome w r'
             (Settings.with_scrollbarTrack (Val color) (currentPrefs w))).
    + rewrite A, Hsync. unfold appearance_of_prefs, put_scrollbarTrack. cbn.
      rewrite (truthy_string_nonempty color Hv). reflexivity.
    + exists z. split; [exact Hz | exact Hrange].
  - (* scrollbar thumb *)
    unfold Settings.scrollbarThumbInput, Settings.set_pref, Settings.save, on_reader.
    cbn [bind reader with_currentPrefs].
    destruct (setScrollbarThumb_sets color (reader w)) as (r' & E & A).
    rewrite E. cbn [bind]. eexists. split; [reflexivity|].
    apply (control_outcome w r'
             (Settings.with_scrollbarThumb (Val color) (currentPrefs w))).
    + rewrite A, Hsync. unfold appearance_of_prefs, put_scrollbarThumb. cbn.
      rewrite (truthy_string_nonempty color Hv). reflexivity.
    + exists z. split; [exact Hz | exact Hrange].
Qed.

End SettingsPanel.

Lemma settings_keep_reader_in_sync_witness :
  let w := Main.selectPreset MemoryBackend.browser MemoryBackend.backend
             PresetManager.night_reading
             (snd (PresetManager.loadPresets MemoryBackend.browser MemoryBackend.backend
                     (Main.initial MemoryBackend.empty))) in
  exists w' : World MemoryBackend.Store,
    Settings.handle MemoryBackend.browser MemoryBackend.backend Settings.FontSizeUp w
    = Ok w' /\
    reader_in_sync w' /\ font_pref_in_range w'.
Proof.
  cbv zeta.
  assert (Hsync : reader_in_sync
                    (Main.selectPreset MemoryBackend.browser MemoryBackend.backend
                       PresetManager.night_reading
                       (snd (PresetManager.loadPresets MemoryBackend.browser
                               MemoryBackend.backend (Main.initial MemoryBackend.empty))))).
  { reflexivity. }
  assert (Hfont : font_pref_in_range
                    (Main.selectPreset MemoryBackend.browser MemoryBackend.backend
                       PresetManager.night_reading
                       (snd (PresetManager.loadPresets MemoryBackend.browser
                               MemoryBackend.backend (Main.initial MemoryBackend.empty))))).
  { exists 20%Z. split; [reflexivity | lia]. }
  destruct (settings_keep_reader_in_sync MemoryBackend.browser MemoryBackend.backend
              Settings.FontSizeUp _ I Hsync Hfont)
    as (w' & E & S & F & _).
  exists w'. split; [exact E|]. split; [exact S | exact F].
Defined.

Section BackgroundPicker.

Context {St : Type} (pf : Platform) (be : Backend St).

(** X22.  On the desktop, choosing a background file always records its path in
    the preferences and sends them to be stored, whether or not the
    background manager accepted the file: with a supported extension the
    manager shows it, with any other the manager is left exactly as it was,
    and the preferences then name a file that is not the background. *)
Theorem bgMediaPick_records_path (filePath : string) (w : World St) :
  main_isTauri pf = true ->
  filePath <> "" ->
  exists w' : World St,
    Settings.bgMediaPick pf be (Val filePath) w = Ok w' /\
    Prefs.bgMediaPath (currentPrefs w') = Val filePath /\
    preferences_saved pf w' /\
    match BackgroundManager._getMediaType filePath with
    | Some type =>
        BackgroundManager.getCurrentMedia (bgManager w') = (Val filePath, Some type)
    | None => bgManager w' = bgManager w
    end /\
    reader w' = reader w /\ overlayManager w' = overlayManager w.
Proof.
  intros Hm Hne. unfold Settings.bgMediaPick. rewrite Hm. cbn [negb is_truthy].
  rewrite (truthy_string_nonempty filePath Hne).
  unfold on_bgManager, BackgroundManager.setMedia. cbn [is_truthy].
  rewrite (truthy_string_nonempty filePath Hne). cbn [negb].
  unfold Settings.set_pref, Settings.save.
  destruct (BackgroundManager._getMediaType filePath) as [type|]; cbn [bind];
    (eexists; split; [reflexivity|]);
    match goal with
    | |- context [Main.savePreferences pf be ?x] =>
        destruct (savePreferences_frame pf be x) as (S1 & S2 & _ & _ & S5 & S6 & _);
        cbn zeta in S1, S2, S5, S6
    end;
    rewrite S1, S2, S5, S6;
    (split; [reflexivity|]); (split; [apply saved_last|]);
    (split; [|split; reflexivity]).
  - destruct type; reflexivity.
  - reflexivity.
Qed.

End BackgroundPicker.

Lemma bgMediaPick_records_path_witness :
  exists w' : World MemoryBackend.Store,
    Settings.bgMediaPick MemoryBackend.desktop MemoryBackend.backend (Val "notes.txt")
      (Main.initial MemoryBackend.empty) = Ok w' /\
    Prefs.bgMediaPath (currentPrefs w') = Val "notes.txt" /\
    bgManager w' = bgManager (Main.initial MemoryBackend.empty).
Proof.
  destruct (bgMediaPick_records_path MemoryBackend.desktop MemoryBackend.backend
              "notes.txt" (Main.initial MemoryBackend.empty) eq_refl
              ltac:(discriminate))
    as (w' & E & P & _ & M & _).
  exists w'. split; [exact E|]. split; [exact P | exact M].
Defined.

(** ** Keyboard and mouse *)

Section Keys.

Context {St : Type} (pf : Platform).


(** X24.  With no modal layer showing, a plain arrow key turns the page and
    nothing else, and Escape closes the book: the library is shown again,
    with the toolbar. *)
Theorem keys_outside_modal (v : Shell.View) (w : World St) (modifier : bool) :
  in_modal v = false ->
  let turn k := snd (Shell.handleKeyboard pf {| Shell.key := k; Shell.cmdOrCtrl := false |}
                       (v, w)) in
  turn "ArrowRight" = (v, with_reader (EpubReader.nextPage (reader w)) w) /\
  turn "l" = turn "ArrowRight" /\
  turn "ArrowLeft" = (v, with_reader (EpubReader.prevPage (reader w)) w) /\
  turn "h" = turn "ArrowLeft" /\
  let closed := snd (Shell.handleKeyboard pf (escape modifier) (v, w)) in
  snd closed = Main.closeBook w /\
  Shell.userLibrary_hidden (fst closed) = false /\
  Shell.toolbar_hidden (fst closed) = false /\
  in_modal (fst closed) = false.
Proof.
  intros Hmodal. cbn zeta. unfold in_modal in Hmodal.
  unfold Shell.handleKeyboard, escape.
  cbn [Shell.key Shell.cmdOrCtrl andb String.eqb Ascii.eqb Bool.eqb orb].
  rewrite Hmodal.
  apply Bool.orb_false_iff in Hmodal. destruct Hmodal as [Hp Ho].
  rewrite Ho.
  destruct (Shell.presetPanel_hidden v) eqn:Hpp; [|discriminate Hp].
  destruct (Shell.shortcutOverlay_hidden v) eqn:Hso; [|discriminate Ho].
  split; [reflexivity|]. split; [reflexivity|]. split; [reflexivity|].
  split; [reflexivity|].
  destruct modifier; cbn [andb negb]; rewrite ?Hpp; cbn [negb];
    unfold Shell.closeBook, in_modal;
    cbn [fst snd Shell.with_toolbar Shell.with_userLibrary Shell.userLibrary_hidden
         Shell.toolbar_hidden Shell.presetPanel_hidden Shell.shortcutOverlay_hidden];
    rewrite Hpp, Hso; repeat split.
Qed.

End Keys.


(** Ctrl+O with the settings panel showing, in a browser: the toast of the
    open button. *)
Example open_shortcut_in_modal :
  toasts
    (snd (snd (Shell.handleKeyboard MemoryBackend.browser
                 {| Shell.key := "o"; Shell.cmdOrCtrl := true |}
                 ({| Shell.shortcutOverlay_hidden := true;
                     Shell.presetPanel_hidden := false;
                     Shell.saveDialog_hidden := Some false;
                     Shell.userLibrary_hidden := true;
                     Shell.toolbar_hidden := true;
                     Shell.chapterSelect_focused := false |},
                  Main.initial MemoryBackend.empty))))
  = [("Tauri backend not available. Use cargo tauri dev to run the app.", "info")].
Proof. vm_compute. reflexivity. Qed.

Lemma keys_outside_modal_witness :
  snd (snd (Shell.handleKeyboard MemoryBackend.desktop (escape false)
              ({| Shell.shortcutOverlay_hidden := true;
                  Shell.presetPanel_hidden := true;
                  Shell.saveDialog_hidden := Some true;
                  Shell.userLibrary_hidden := true;
                  Shell.toolbar_hidden := true;
                  Shell.chapterSelect_focused := false |},
               reading MemoryBackend.empty)))
  = Main.closeBook (reading MemoryBackend.empty).
Proof.
  destruct (keys_outside_modal MemoryBackend.desktop
              {| Shell.shortcutOverlay_hidden := true;
                 Shell.presetPanel_hidden := true;
                 Shell.saveDialog_hidden := Some true;
                 Shell.userLibrary_hidden := true;
                 Shell.toolbar_hidden := true;
                 Shell.chapterSelect_focused := false |}
              (reading MemoryBackend.empty) false eq_refl) as (_ & _ & _ & _ & H & _).
  exact H.
Defined.

(** The open button, from the click to the answer of the file dialog: in a
    browser the click shows a toast and sends nothing; on the desktop it
    asks for the dialog, and a file that is picked is opened, tracked and
    given the progress listener. *)
Example open_button :
  let w0 := Main.initial MemoryBackend.empty in
  let clicked := Main.openEpubClick (St := MemoryBackend.Store) MemoryBackend.desktop w0 in
  let opened := Main.openEpubAnswered MemoryBackend.desktop MemoryBackend.backend
                  (Main.FilePicked "/books/walden.epub" (Some walden)) clicked in
  invoked (Main.openEpubClick (St := MemoryBackend.Store) MemoryBackend.browser w0) = [] /\
  invoked clicked = [Inv_open_epub_dialog] /\
  Main.openEpubAnswered MemoryBackend.desktop MemoryBackend.backend Main.NoFileSelected
    clicked = clicked /\
  currentBookId opened = Val "book:/books/walden.epub" /\
  EpubReader.listens "relocated" (reader opened) = true /\
  toasts opened = [("Opening book...", "info"); ("Opened: Walden", "success")] /\
  invoked opened
  = [Inv_open_epub_dialog;
     Inv_add_book "Walden" "Henry David Thoreau" "/books/walden.epub" Null;
     Inv_get_recent_books 10;
     Inv_get_book_progress (Val "book:/books/walden.epub")].
Proof.
  cbv zeta.
  split; [vm_compute; reflexivity|]. split; [vm_compute; reflexivity|].
  split; [vm_compute; reflexivity|]. split; [vm_compute; reflexivity|].
  split; [vm_compute; reflexivity|]. split; vm_compute; reflexivity.
Qed.

(** X25.  Moving the mouse never changes anything but the toolbar, and not even
    that while a modal layer is showing.  Otherwise the toolbar is shown
    whenever the library is visible, the chapter selector has the focus or
    the pointer is in the top 80 pixels, and hidden in every other case. *)
Theorem mouse_move_toolbar (clientY : Z) (v : Shell.View) :
  let v' := Shell.handleMouseMove clientY v in
  v' = Shell.with_toolbar (Shell.toolbar_hidden v') v /\
  Shell.toolbar_hidden v'
  = (if in_modal v then Shell.toolbar_hidden v
     else negb (Shell.chapterSelect_focused v
                || negb (Shell.userLibrary_hidden v)
                || (clientY <? 80)%Z)).
Proof.
  cbn zeta. unfold Shell.handleMouseMove, in_modal.
  destruct v as [so pp sd ul tb cs].
  cbn [Shell.shortcutOverlay_hidden Shell.presetPanel_hidden Shell.userLibrary_hidden
       Shell.toolbar_hidden Shell.chapterSelect_focused].
  destruct (negb pp || negb so); [split; reflexivity|].
  destruct cs; [split; reflexivity|].
  destruct ul; cbn [negb orb]; [|split; reflexivity].
  destruct (clientY <? 80)%Z; [split; reflexivity|].
  destruct tb; split; reflexivity.
Qed.

(** ** The preset list of the panel *)

Lemma users_first_builtins (l : list PresetPanel.Item) :
  Forall (fun j => PresetPanel.deletable j = false) l -> users_first l.
Proof.
  induction 1 as [|i l Hi Hl IH]; [exact I|].
  split; [intros _; exact Hl | exact IH].
Qed.

Lemma users_first_app (users builtins : list PresetPanel.Item) :
  Forall (fun j => PresetPanel.deletable j = true) users ->
  Forall (fun j => PresetPanel.deletable j = false) builtins ->
  users_first (users ++ builtins).
Proof.
  intros Hu Hb. induction Hu as [|i l Hi Hl IH]; [apply users_first_builtins, Hb|].
  cbn [app users_first]. split; [|exact IH].
  intros H. rewrite H in Hi. discriminate Hi.
Qed.

(** X26.  The panel lists every preset it is given exactly once, the user's
    presets before the built-in ones; an entry has a delete button exactly
    when its name is not one of the three built-in names.  Rendered from
    [getPresets], the list never has an entry for the session preset. *)
Theorem preset_list_order {St : Type} (current : option Preset.t)
    (presets : list Preset.t) (w : World St) :
  let items := PresetPanel.renderPresetList current presets in
  length items = length presets /\
  (forall p, In p (map PresetPanel.preset items) <-> In p presets) /\
  users_first items /\
  (forall i, In i items ->
     PresetPanel.deletable i
     = negb (Str.includes PresetPanel.BUILTIN_NAMES
               (Preset.name (PresetPanel.preset i)))) /\
  (forall i, In i (PresetPanel.renderPresetList current (PresetManager.getPresets w)) ->
     Preset.name (PresetPanel.preset i) <> "_last_session").
Proof.
  cbn zeta. unfold PresetPanel.renderPresetList.
  split.
  { rewrite length_map, length_app, Nat.add_comm. apply filter_length. }
  split.
  { intros p. rewrite map_map. cbn [PresetPanel.renderItem PresetPanel.preset].
    rewrite map_id, in_app_iff, !filter_In.
    destruct (PresetPanel.isBuiltin p); cbn [negb]; intuition congruence. }
  split.
  { rewrite map_app. apply users_first_app; apply Forall_forall; intros i Hi;
      apply in_map_iff in Hi; destruct Hi as (p & <- & Hp);
      apply filter_In in Hp; destruct Hp as [_ Hp];
      cbn [PresetPanel.renderItem PresetPanel.deletable].
    - exact Hp.
    - rewrite Hp. reflexivity. }
  split.
  { intros i Hi. apply in_map_iff in Hi. destruct Hi as (p & <- & _). reflexivity. }
  intros i Hi. apply in_map_iff in Hi. destruct Hi as (p & <- & Hp).
  cbn [PresetPanel.renderItem PresetPanel.preset].
  assert (Hin : In p (PresetManager.getPresets w)).
  { apply in_app_iff in Hp. destruct Hp as [Hp|Hp]; apply filter_In in Hp; apply Hp. }
  unfold PresetManager.getPresets in Hin. apply filter_In in Hin.
  destruct Hin as [_ Hn]. intros E. rewrite E in Hn. discriminate Hn.
Qed.

(** ** The book grid *)

(** X27.  The arrow keys never move the focus out of the grid: with the library
    showing, at least one card, the focus on a card or on none, and at least
    one column, the card the listener focuses or clicks is one of the cards.
    With the library hidden the listener does nothing. *)
Theorem library_focus_stays_in_grid (hidden : bool) (cards idx cols : Z) (k : string) :
  (0 < cards)%Z -> (-1 <= idx < cards)%Z -> (0 < cols)%Z ->
  match Library.keyNav hidden cards idx cols k with
  | Library.Ignore => True
  | Library.Focus j => hidden = false /\ (0 <= j < cards)%Z
  | Library.Click j => hidden = false /\ j = idx /\ (0 <= j < cards)%Z
  end.
Proof.
  intros Hc Hi Hcols. unfold Library.keyNav.
  destruct hidden; [exact I|].
  destruct (Z.eqb_spec cards 0); [exact I|].
  destruct (Z.eqb_spec idx (-1)).
  - destruct (Str.includes Library.ARROWS k); [split; [reflexivity | lia] | exact I].
  - destruct (k =? "ArrowRight")%string; [split; [reflexivity | lia]|].
    destruct (k =? "ArrowLeft")%string; [split; [reflexivity | lia]|].
    destruct (k =? "ArrowDown")%string; [split; [reflexivity | lia]|].
    destruct (k =? "ArrowUp")%string; [split; [reflexivity | lia]|].
    destruct (k =? "Enter")%string; [|exact I].
    split; [reflexivity|]. split; [reflexivity | lia].
Qed.

Lemma library_focus_stays_in_grid_witness :
  exists j : Z,
    Library.keyNav false 7 5 3 "ArrowDown" = Library.Focus j /\ (0 <= j < 7)%Z.
Proof.
  exists 6%Z. split; [reflexivity|].
  exact (proj2 (library_focus_stays_in_grid false 7 5 3 "ArrowDown"
                  ltac:(lia) ltac:(lia) ltac:(lia))).
Defined.

(** X28.  The hue of a placeholder cover is a multiple of 10 below 360 that
    depends on the length of the title only, and repeats every 36
    characters. *)
Theorem placeholder_hue (title other : string) :
  (0 <= Library.placeholderHue title < 360)%Z /\
  (Library.placeholderHue title mod 10 = 0)%Z /\
  (String.length other = String.length title ->
   Library.placeholderHue other = Library.placeholderHue title) /\
  (String.length other = String.length title + 36 ->
   Library.placeholderHue other = Library.placeholderHue title).
Proof.
  unfold Library.placeholderHue.
  split; [apply Z.mod_pos_bound; lia|].
  split.
  { pose proof (Z.div_mod (Z.of_nat (String.length title) * 10) 360 ltac:(lia)) as Hdm.
    assert (Hhue : ((Z.of_nat (String.length title) * 10) mod 360
                    = (Z.of_nat (String.length title)
                       - 36 * ((Z.of_nat (String.length title) * 10) / 360)) * 10)%Z)
      by lia.
    rewrite Hhue. apply Z_mod_mult. }
  split; [intros ->; reflexivity|].
  intros ->. rewrite Nat2Z.inj_add, Z.mul_add_distr_r.
  change (Z.of_nat 36 * 10)%Z with (1 * 360)%Z.
  apply Z_mod_plus_full.
Qed.

(** ** Music and background controls *)

Section MediaControls.

Context {St : Type} (pf : Platform) (be : Backend St).

Lemma savePreferences_music (w : World St) :
  music_agrees w -> music_agrees (Main.savePreferences pf be w).
Proof.
  intros H. unfold music_agrees.
  destruct (savePreferences_frame pf be w) as (_ & S2 & _ & _ & S5 & _).
  cbn zeta in S2, S5. rewrite S2, S5. exact H.
Qed.

(** X29.  The four music controls keep the background manager and the
    preferences in agreement.  From a state in which the manager plays what
    the preferences name, at the preferred volume and mute flag: choosing a
    track (on the desktop), clearing it, switching the music on or off and
    moving the volume slider to a whole number in 0..100 each complete and
    leave the two in agreement, and each ends by sending the preferences to
    be stored. *)
Theorem music_controls_agree (w : World St) (path : string) (musicOn : bool) (v : Z) :
  main_isTauri pf = true ->
  music_agrees w ->
  path <> "" ->
  (0 <= v <= 100)%Z ->
  (exists w1, Settings.bgMusicPick pf be (Val path) w = Ok w1 /\
              music_agrees w1 /\ preferences_saved pf w1 /\
              Prefs.bgMusicPath (currentPrefs w1) = Val path) /\
  (exists w2, Settings.bgMusicClear pf be w = Ok w2 /\
              music_agrees w2 /\ preferences_saved pf w2 /\
              BackgroundManager.musicPath (bgManager w2) = Null /\
              BackgroundManager.bgAudio_playing (bgManager w2) = false) /\
  (exists w3, Settings.bgMusicToggle pf be musicOn w = Ok w3 /\
              music_agrees w3 /\ preferences_saved pf w3 /\
              BackgroundManager.musicMuted (bgManager w3) = negb musicOn) /\
  (exists w4, Settings.bgMusicVolumeInput pf be (num v) w = Ok w4 /\
              music_agrees w4 /\ preferences_saved pf w4 /\
              BackgroundManager.music_volume
                (BackgroundManager.getCurrentMusic (bgManager w4)) = num v).
Proof.
  intros Hm [Hag (v0 & Hv0 & Hr0)] Hne Hv.
  unfold BackgroundManager.getCurrentMusic in Hag.
  injection Hag as Hpath Hvol Hmuted.
  split; [|split; [|split]].
  - unfold Settings.bgMusicPick. rewrite Hm. cbn [negb is_truthy].
    rewrite (truthy_string_nonempty path Hne).
    unfold on_bgManager, BackgroundManager.setMusicVolume.
    rewrite Hv0, volume_clamp. cbn [bind].
    unfold Settings.set_pref, Settings.save. cbn [bind].
    eexists. split; [reflexivity|].
    split; [|split; [apply saved_last|]].
    + apply savePreferences_music. split.
      * unfold BackgroundManager.getCurrentMusic, BackgroundManager.setMusicMuted,
          BackgroundManager.setMusic.
        rewrite (truthy_string_nonempty path Hne).
        cbn [bgManager with_bgManager with_currentPrefs currentPrefs
             BackgroundManager.with_audio BackgroundManager.bgAudio_volume
             BackgroundManager.musicPath BackgroundManager.musicMuted
             Settings.with_bgMusicPath Prefs.bgMusicPath Prefs.bgMusicVolume
             Prefs.bgMusicMuted].
        rewrite round_times_100, Hv0.
        replace (Z.max 0 (Z.min 100 v0)) with v0 by lia.
        unfold js_or_null. cbn [is_truthy].
        rewrite (truthy_string_nonempty path Hne). reflexivity.
      * exists v0. split; [exact Hv0 | exact Hr0].
    + match goal with
      | |- context [Main.savePreferences pf be ?x] =>
          destruct (savePreferences_frame pf be x) as (_ & S2 & _)
      end.
      cbn zeta in S2. rewrite S2. reflexivity.
  - unfold Settings.bgMusicClear, Settings.set_pref, Settings.save. cbn [bind].
    eexists. split; [reflexivity|].
    split; [|split; [apply saved_last|]].
    + apply savePreferences_music. split.
      * unfold BackgroundManager.getCurrentMusic, BackgroundManager.clearMusic.
        cbn [bgManager with_bgManager with_currentPrefs currentPrefs
             BackgroundManager.with_audio BackgroundManager.bgAudio_volume
             BackgroundManager.musicPath BackgroundManager.musicMuted
             Settings.with_bgMusicPath Prefs.bgMusicPath Prefs.bgMusicVolume
             Prefs.bgMusicMuted].
        rewrite Hvol, Hmuted. reflexivity.
      * exists v0. split; [exact Hv0 | exact Hr0].
    + match goal with
      | |- context [Main.savePreferences pf be ?x] =>
          destruct (savePreferences_frame pf be x) as (_ & _ & _ & _ & S5 & _)
      end.
      cbn zeta in S5. rewrite S5. split; reflexivity.
  - unfold Settings.bgMusicToggle, Settings.set_pref, Settings.save. cbn [bind].
    eexists. split; [reflexivity|].
    split; [|split; [apply saved_last|]].
    + apply savePreferences_music. split.
      * unfold BackgroundManager.getCurrentMusic, BackgroundManager.setMusicMuted.
        cbn [bgManager with_bgManager with_currentPrefs currentPrefs
             BackgroundManager.with_audio BackgroundManager.bgAudio_volume
             BackgroundManager.musicPath BackgroundManager.musicMuted
             Settings.with_bgMusicMuted Prefs.bgMusicPath Prefs.bgMusicVolume
             Prefs.bgMusicMuted js_nullish].
        rewrite Hvol, Hpath. reflexivity.
      * exists v0. split; [exact Hv0 | exact Hr0].
    + match goal with
      | |- context [Main.savePreferences pf be ?x] =>
          destruct (savePreferences_frame pf be x) as (_ & _ & _ & _ & S5 & _)
      end.
      cbn zeta in S5. rewrite S5. reflexivity.
  - unfold Settings.bgMusicVolumeInput, Settings.set_pref, Settings.save, on_bgManager,
      BackgroundManager.setMusicVolume.
    cbn [bind]. rewrite volume_clamp. cbn [bind].
    replace (Z.max 0 (Z.min 100 v)) with v by lia.
    eexists. split; [reflexivity|].
    assert (Hnew : BackgroundManager.getCurrentMusic
                     (BackgroundManager.with_audio
                        (BackgroundManager.bgAudio_src (bgManager w))
                        (BackgroundManager.bgAudio_muted (bgManager w))
                        (Num (Q2Qc (v # 100)))
                        (BackgroundManager.bgAudio_playing (bgManager w))
                        (BackgroundManager.musicPath (bgManager w))
                        (BackgroundManager.musicMuted (bgManager w)) (bgManager w))
                   = {| BackgroundManager.music_path :=
                          js_or_null (Prefs.bgMusicPath (currentPrefs w));
                        BackgroundManager.music_volume := num v;
                        BackgroundManager.music_muted :=
                          js_nullish (Prefs.bgMusicMuted (currentPrefs w)) true |}).
    { unfold BackgroundManager.getCurrentMusic.
      cbn [BackgroundManager.with_audio BackgroundManager.bgAudio_volume
           BackgroundManager.musicPath BackgroundManager.musicMuted].
      rewrite round_times_100, Hpath, Hmuted. reflexivity. }
    split; [|split; [apply saved_last|]].
    + apply savePreferences_music. split.
      * cbn [bgManager with_bgManager with_currentPrefs currentPrefs].
        rewrite Hnew. reflexivity.
      * exists v. split; [reflexivity | exact Hv].
    + match goal with
      | |- context [Main.savePreferences pf be ?x] =>
          destruct (savePreferences_frame pf be x) as (_ & _ & _ & _ & S5 & _)
      end.
      cbn zeta in S5. rewrite S5.
      cbn [bgManager with_bgManager with_currentPrefs]. rewrite Hnew. reflexivity.
Qed.

(** X30.  Clearing the background leaves no media in the manager and none in the
    preferences; the audio switch of a background video sets the manager's
    mute flag, the video element's and the preference to the same value.
    Both end by sending the preferences to be stored, and neither touches
    the reader, the overlay or the music. *)
Theorem background_controls_agree (w : World St) (audioOn : bool) :
  (exists w1, Settings.bgMediaClear pf be w = Ok w1 /\
              BackgroundManager.getCurrentMedia (bgManager w1) = (Null, None) /\
              Prefs.bgMediaPath (currentPrefs w1) = Null /\
              BackgroundManager.bgVideo_playing (bgManager w1) = false /\
              preferences_saved pf w1 /\
              reader w1 = reader w /\ overlayManager w1 = overlayManager w /\
              BackgroundManager.getCurrentMusic (bgManager w1)
              = BackgroundManager.getCurrentMusic (bgManager w)) /\
  (exists w2, Settings.bgAudioToggle pf be audioOn w = Ok w2 /\
              BackgroundManager.isMuted (bgManager w2) = negb audioOn /\
              BackgroundManager.bgVideo_muted (bgManager w2) = negb audioOn /\
              Prefs.bgAudioMuted (currentPrefs w2) = Val (negb audioOn) /\
              BackgroundManager.getCurrentMedia (bgManager w2)
              = BackgroundManager.getCurrentMedia (bgManager w) /\
              preferences_saved pf w2 /\
              reader w2 = reader w /\ overlayManager w2 = overlayManager w /\
              BackgroundManager.getCurrentMusic (bgManager w2)
              = BackgroundManager.getCurrentMusic (bgManager w)).
Proof.
  split.
  - unfold Settings.bgMediaClear, Settings.set_pref, Settings.save. cbn [bind].
    eexists. split; [reflexivity|].
    match goal with
    | |- context [Main.savePreferences pf be ?x] =>
        destruct (savePreferences_frame pf be x) as (S1 & S2 & _ & _ & S5 & S6 & _)
    end.
    cbn zeta in S1, S2, S5, S6. rewrite S1, S2, S5, S6.
    split; [reflexivity|]. split; [reflexivity|]. split; [reflexivity|].
    split; [apply saved_last|]. split; [reflexivity|]. split; reflexivity.
  - unfold Settings.bgAudioToggle, Settings.set_pref, Settings.save. cbn [bind].
    eexists. split; [reflexivity|].
    match goal with
    | |- context [Main.savePreferences pf be ?x] =>
        destruct (savePreferences_frame pf be x) as (S1 & S2 & _ & _ & S5 & S6 & _)
    end.
    cbn zeta in S1, S2, S5, S6. rewrite S1, S2, S5, S6.
    split; [reflexivity|]. split; [reflexivity|]. split; [reflexivity|].
    split; [reflexivity|].
    split; [apply saved_last|]. split; [reflexivity|]. split; reflexivity.
Qed.

End MediaControls.

Lemma music_controls_agree_witness :
  exists w4 : World MemoryBackend.Store,
    Settings.bgMusicVolumeInput MemoryBackend.desktop MemoryBackend.backend (num 80)
      (Main.initial MemoryBackend.empty) = Ok w4 /\
    music_agrees w4.
Proof.
  assert (Hag : music_agrees (Main.initial MemoryBackend.empty)).
  { split.
    - unfold BackgroundManager.getCurrentMusic.
      cbn [Main.initial bgManager currentPrefs BackgroundManager.constructor
           BackgroundManager.bgAudio_volume BackgroundManager.musicPath
           BackgroundManager.musicMuted Prefs.defaults Prefs.bgMusicPath
           Prefs.bgMusicVolume Prefs.bgMusicMuted js_nullish].
      change (ratio 1 2) with (Num (Q2Qc (1 # 2))).
      assert (Hhalf : Q2Qc (1 # 2) = Q2Qc (50 # 100))
        by (apply Qc_is_canon; reflexivity).
      rewrite Hhalf, round_times_100. reflexivity.
    - exists 50%Z. split; [reflexivity | lia]. }
  destruct (music_controls_agree MemoryBackend.desktop MemoryBackend.backend
              (Main.initial MemoryBackend.empty) "rain.mp3" true 80
              eq_refl Hag ltac:(discriminate) ltac:(lia))
    as (_ & _ & _ & w4 & E & A & _).
  exists w4. split; [exact E | exact A].
Defined.
